(** * py-minutedock: the MinuteDock client module [md.py]

    A shallow embedding of [src/md.py] and the properties of its catalog
    bootstrap, entry search and entry update.

    Conventions of the embedding
    - JSON values decoded by [json.loads] are the type [json]; a JSON object
      (a Python [dict] with string keys) is a [gmap string json], whose
      equality is Python's [dict.__eq__] (the module does not observe the
      insertion order of these dictionaries).  JSON numbers are integers
      here: the module only carries the other numbers along.  Strings are
      Rocq strings, sequences of 8-bit characters.
    - The query dictionary of a GET request is an insertion-ordered
      association list, because [_do_get] serialises [args.items()] in
      insertion order into the URL.
    - Python exceptions are values of [exn]; a computation that may raise
      returns [res A]; code that talks to the network threads a [net]
      state (the remote side and the log of the requests issued).
    - [while True] is a fuel-indexed loop: [None] means that the fuel ran
      out, never that the loop ended. *)

From Stdlib Require Import ZArith Lia Ascii String.
From Stdlib Require Import DecimalString DecimalZ DecimalPos.
From stdpp Require Import base tactics option list numbers strings countable gmap fin_maps.

Local Open Scope Z_scope.

(* ===================================================================== *)
(** ** Python values and exceptions *)
(* ===================================================================== *)

(** What [json.loads] produces: [None], [bool], [int], [str], [list], [dict]. *)
Unset Elimination Schemes.
Inductive json : Type :=
| JNull
| JBool (b : bool)
| JInt (n : Z)
| JStr (s : string)
| JArr (l : list json)
| JObj (m : gmap string json).
Set Elimination Schemes.

(** A hashable Python value as a [dict] key.  [True == 1] and [False == 0]
    with equal hashes, so booleans are keys of type [KInt]. *)
Inductive pykey : Type :=
| KNone
| KInt (n : Z)
| KStr (s : string).

Global Instance pykey_eq_dec : EqDecision pykey.
Proof. solve_decision. Defined.

Global Instance pykey_countable : Countable pykey.
Proof.
  refine (inj_countable'
    (fun k => match k with
              | KNone => inl ()
              | KInt n => inr (inl n)
              | KStr s => inr (inr s)
              end)
    (fun x => match x with
              | inl _ => KNone
              | inr (inl n) => KInt n
              | inr (inr s) => KStr s
              end) _).
  by intros [].
Defined.

Inductive exn : Type :=
| KeyError (k : pykey)
| TypeError
| ValueError
| AttributeError
| OtherError (what : string).   (* whatever else the opener or the JSON decoder raises *)

Inductive res (A : Type) : Type :=
| Ret (a : A)
| Raise (e : exn).
Arguments Ret {A} a.
Arguments Raise {A} e.

Global Instance res_ret : MRet res := @Ret.
Global Instance res_bind : MBind res := fun A B f m =>
  match m with
  | Ret a => f a
  | Raise e => Raise e
  end.

(** [[f(x) for x in l]] where [f] may raise: left to right, first failure wins. *)
Fixpoint map_res {A B} (f : A -> res B) (l : list A) : res (list B) :=
  match l with
  | [] => Ret []
  | x :: l' => y ← f x; ys ← map_res f l'; Ret (y :: ys)
  end.

(** [hash(v)] succeeds on [None], [bool], [int] and [str] only. *)
Definition key_of (v : json) : res pykey :=
  match v with
  | JNull => Ret KNone
  | JBool b => Ret (KInt (if b then 1 else 0))
  | JInt n => Ret (KInt n)
  | JStr s => Ret (KStr s)
  | JArr _ | JObj _ => Raise TypeError
  end.

(** [d[k]] on a decoded JSON value: [KeyError] on a missing key,
    [TypeError] when [d] is not a [dict]. *)
Definition getitem (d : json) (k : string) : res json :=
  match d with
  | JObj m => match m !! k with
              | Some v => Ret v
              | None => Raise (KeyError (KStr k))
              end
  | _ => Raise TypeError
  end.

(** [len(v)]. *)
Definition py_len (v : json) : res nat :=
  match v with
  | JArr l => Ret (length l)
  | JStr s => Ret (String.length s)
  | JObj m => Ret (size m)
  | JNull | JBool _ | JInt _ => Raise TypeError
  end.

(** The items [for x in v] yields (also what [list += v] appends): the
    elements of a list, the one-character strings of a string, the keys of
    a dictionary (here in the order of the map; the module builds an entity
    from each item, which fails on the first key in any order). *)
Fixpoint chars (s : string) : list json :=
  match s with
  | EmptyString => []
  | String c s' => JStr (String c EmptyString) :: chars s'
  end.

Definition py_iter (v : json) : res (list json) :=
  match v with
  | JArr l => Ret l
  | JStr s => Ret (chars s)
  | JObj m => Ret (JStr <$> (map_to_list m).*1)
  | JNull | JBool _ | JInt _ => Raise TypeError
  end.

(* ===================================================================== *)
(** ** Strings: slices, [split], [join], [str] of an integer *)
(* ===================================================================== *)

Module Str.

Fixpoint take (n : nat) (s : string) : string :=
  match n, s with
  | S n', String c s' => String c (take n' s')
  | _, _ => EmptyString
  end.

Fixpoint drop (n : nat) (s : string) : string :=
  match n, s with
  | S n', String _ s' => drop n' s'
  | _, _ => s
  end.

(** [s[:-k]]: everything but the last [k] characters (empty when the
    string is shorter). *)
Definition until_last (k : nat) (s : string) : string :=
  take (String.length s - k) s.

(** [s[-k:]]: the last [k] characters (the whole string when shorter). *)
Definition last (k : nat) (s : string) : string :=
  drop (String.length s - k) s.

(** [s.split(sep)[0]] for a one-character separator. *)
Fixpoint before (sep : ascii) (s : string) : string :=
  match s with
  | EmptyString => EmptyString
  | String c s' => if Ascii.eqb c sep then EmptyString
                   else String c (before sep s')
  end.

(** [sep.join(l)]. *)
Fixpoint join (sep : string) (l : list string) : string :=
  match l with
  | [] => EmptyString
  | [x] => x
  | x :: l' => x +:+ sep +:+ join sep l'
  end.

Definition is_digit (c : ascii) : bool :=
  match Ascii.is_nat c with Some _ => true | None => false end.

Definition digit_val (c : ascii) : Z :=
  match Ascii.is_nat c with Some d => Z.of_nat d | None => 0 end.

(** [str(n)] for an [int]. *)
Definition of_Z (n : Z) : string := NilZero.string_of_int (Z.to_int n).

(** ['%0<w>d' % n] for [0 <= n]. *)
Definition zfill (w : nat) (n : Z) : string :=
  let s := of_Z n in
  String.string_of_list_ascii (repeat "0"%char (w - String.length s)) +:+ s.

(** A decimal numeral: an optional minus sign, then digits, at least one. *)
Fixpoint all_digits (s : string) : bool :=
  match s with
  | EmptyString => true
  | String c s' => is_digit c && all_digits s'
  end.

Definition is_numeral (s : string) : bool :=
  match s with
  | EmptyString => false
  | String "-" (String c s') => is_digit c && all_digits s'
  | String c s' => is_digit c && all_digits s'
  end.

(** The characters below 128 of which [str.isspace] holds: tab to carriage
    return, the separators 28 to 31, and the blank. *)
Definition is_space (c : ascii) : bool :=
  let n := nat_of_ascii c in
  ((9 <=? n)%nat && (n <=? 13)%nat) || ((28 <=? n)%nat && (n <=? 32)%nat).

Fixpoint lstrip (s : string) : string :=
  match s with
  | EmptyString => EmptyString
  | String c s' => if is_space c then lstrip s' else s
  end.

Fixpoint rstrip (s : string) : string :=
  match s with
  | EmptyString => EmptyString
  | String c s' =>
      match rstrip s' with
      | EmptyString => if is_space c then EmptyString else String c EmptyString
      | r => String c r
      end
  end.

(** [s.strip()]. *)
Definition strip (s : string) : string := rstrip (lstrip s).

End Str.

(* ===================================================================== *)
(** ** [datetime]: the part of the standard library the module calls *)
(* ===================================================================== *)

(** The module calls [datetime.datetime.strptime] and [strftime] with the
    one format ['%Y-%m-%dT%H:%M:%S%z'], and [date.strftime] with
    ['%m/%d/%Y'].  They are modelled as CPython 3.11 has them on the GNU C
    library ([_strptime.py], [datetime.py]):
    - [%z] of [strptime] reads [+HHMM] and [+HH:MM], either with seconds
      and a fraction of a second after them, and the letter [Z];
    - [%z] of [strftime] writes [+HHMM], followed by the seconds and the
      microseconds of the offset when it has them;
    - [%Y] of [strptime] reads four digits, but [%Y] of [strftime] is the C
      library's, which writes the year without padding: [33] for the
      year 33.
    An offset is strictly between -24h and 24h and need not be a whole
    number of minutes.  Strings are byte strings here, so [\d] is an ASCII
    digit. *)

Record datetime : Type := mk_datetime {
  year : Z;
  month : Z;
  day : Z;
  hour : Z;
  minute : Z;
  second : Z;
  microsecond : Z;
  utcoffset : option Z      (* [tzinfo.utcoffset()] in microseconds; [None] when naive *)
}.

(** [datetime.date]. *)
Record date : Type := mk_date {
  date_year : Z;
  date_month : Z;
  date_day : Z
}.

Module Calendar.

Definition is_leap (y : Z) : bool :=
  (y mod 4 =? 0) && (negb (y mod 100 =? 0) || (y mod 400 =? 0)).

Definition days_in_month (y m : Z) : Z :=
  if m =? 2 then (if is_leap y then 29 else 28)
  else if (m =? 4) || (m =? 6) || (m =? 9) || (m =? 11) then 30
  else 31.

(** Days before January 1st of year [y] (proleptic Gregorian). *)
Definition days_before_year (y : Z) : Z :=
  let p := y - 1 in p * 365 + p / 4 - p / 100 + p / 400.

Fixpoint days_before_month_aux (y : Z) (k : nat) : Z :=
  match k with
  | O => 0
  | S k' => days_before_month_aux y k' + days_in_month y (Z.of_nat k)
  end.

Definition days_before_month (y m : Z) : Z :=
  days_before_month_aux y (Z.to_nat (m - 1)).

(** [date.toordinal()]: January 1st of year 1 is day 1. *)
Definition toordinal (y m d : Z) : Z :=
  days_before_year y + days_before_month y m + d.

End Calendar.

(** The checks of the [datetime(...)] and [timezone(...)] constructors. *)
Definition check_date_fields (y m d : Z) : bool :=
  (1 <=? y) && (y <=? 9999) && (1 <=? m) && (m <=? 12) &&
  (1 <=? d) && (d <=? Calendar.days_in_month y m).

Definition check_time_fields (h mi s us : Z) : bool :=
  (0 <=? h) && (h <=? 23) && (0 <=? mi) && (mi <=? 59) &&
  (0 <=? s) && (s <=? 59) && (0 <=? us) && (us <=? 999999).

(** [timezone(offset)]: the offset is strictly between -24h and 24h. *)
Definition check_timezone (off : Z) : bool :=
  (-86400000000 <? off) && (off <? 86400000000).

(** What [datetime(y, m, d, H, M, S, us, tz)] accepts. *)
Definition check_datetime (d : datetime) : bool :=
  check_date_fields (year d) (month d) (day d) &&
  check_time_fields (hour d) (minute d) (second d) (microsecond d) &&
  match utcoffset d with
  | Some off => check_timezone off
  | None => true
  end.

(** An offset of whole minutes, which is what an ISO 8601 timestamp
    [...+HH:MM] can express. *)
Definition check_utcoffset (off : Z) : bool :=
  check_timezone off && (off mod 60000000 =? 0).

(** A [datetime] the constructors accept whose offset, if it has one, is a
    whole number of minutes. *)
Definition datetime_ok (d : datetime) : bool :=
  check_date_fields (year d) (month d) (day d) &&
  check_time_fields (hour d) (minute d) (second d) (microsecond d) &&
  match utcoffset d with
  | Some off => check_utcoffset off
  | None => true
  end.

(** The instant an aware [datetime] denotes: microseconds since the start of
    day 1 of year 1, UTC.  Two aware datetimes are equal in Python exactly
    when they denote the same instant. *)
Definition instant (d : datetime) : option Z :=
  off ← utcoffset d;
  Some ((Calendar.toordinal (year d) (month d) (day d) * 86400
         + hour d * 3600 + minute d * 60 + second d) * 1000000
        + microsecond d - off).

(* ===================================================================== *)
(** ** [_strptime]: the format as a regular expression *)
(* ===================================================================== *)

(** [_strptime] turns the format into a regular expression with one named
    group per directive and matches it with [re.match], a backtracking
    matcher that tries alternatives from left to right.  The expressions
    of this format have no unbounded repetition: [r?] is [r|] and
    [\d{1,6}] is written out, the longer match first. *)
Inductive re : Type :=
| Eps
| Chr (p : ascii -> bool)
| Seq (a b : re)
| Alt (a b : re)
| Group (name : string) (a : re).

Definition captures := list (string * string).

(** [rmatch r s buf caps k]: match [r] at the head of [s]; [buf] is the text
    consumed since the enclosing group opened, [caps] the groups closed
    so far, [k] the rest of the pattern.  [None] makes the matcher
    backtrack into the latest alternative. *)
Fixpoint rmatch {X} (r : re) (s buf : string) (caps : captures)
    (k : string -> string -> captures -> option X) : option X :=
  match r with
  | Eps => k s buf caps
  | Chr p =>
      match s with
      | String c s' => if p c then k s' (buf +:+ String c EmptyString) caps else None
      | EmptyString => None
      end
  | Seq a b => rmatch a s buf caps (fun s1 b1 c1 => rmatch b s1 b1 c1 k)
  | Alt a b =>
      match rmatch a s buf caps k with
      | Some x => Some x
      | None => rmatch b s buf caps k
      end
  | Group name a =>
      rmatch a s EmptyString caps
        (fun s1 b1 c1 => k s1 (buf +:+ b1) ((name, b1) :: c1))
  end.

(** [re.match]: the first match in backtracking order, as the groups and
    the unmatched rest of the subject. *)
Definition re_match (r : re) (s : string) : option (captures * string) :=
  rmatch r s EmptyString [] (fun rest _ caps => Some (caps, rest)).

Definition group (caps : captures) (name : string) : string :=
  match list_find (fun p => p.1 = name) caps with
  | Some (_, (_, v)) => v
  | None => EmptyString
  end.

Module Pat.

Definition digit : re := Chr Str.is_digit.
Definition range (lo hi : ascii) : re :=
  Chr (fun c => (nat_of_ascii lo <=? nat_of_ascii c)%nat
                && (nat_of_ascii c <=? nat_of_ascii hi)%nat).
Definition lit (a : ascii) : re := Chr (Ascii.eqb a).

Definition lower (c : ascii) : ascii :=
  let n := nat_of_ascii c in
  if (65 <=? n)%nat && (n <=? 90)%nat then ascii_of_nat (n + 32) else c.

(** A literal of the format under [re.IGNORECASE]. *)
Definition lit_i (a : ascii) : re := Chr (fun c => Ascii.eqb (lower c) (lower a)).

Infix "+>" := Seq (at level 60, right associativity).
Infix "<|>" := Alt (at level 65, right associativity).

(** The table of [TimeRE] for the directives of the format. *)
(* (?P<Y>\d\d\d\d) *)
Definition Y : re := Group "Y" (digit +> digit +> digit +> digit).
(* (?P<m>1[0-2]|0[1-9]|[1-9]) *)
Definition m : re :=
  Group "m" (lit "1" +> range "0" "2" <|> lit "0" +> range "1" "9" <|> range "1" "9").
(* (?P<d>3[0-1]|[1-2]\d|0[1-9]|[1-9]| [1-9]) *)
Definition d : re :=
  Group "d" (lit "3" +> range "0" "1" <|> range "1" "2" +> digit
             <|> lit "0" +> range "1" "9" <|> range "1" "9" <|> lit " " +> range "1" "9").
(* (?P<H>2[0-3]|[0-1]\d|\d) *)
Definition H : re :=
  Group "H" (lit "2" +> range "0" "3" <|> range "0" "1" +> digit <|> digit).
(* (?P<M>[0-5]\d|\d) *)
Definition M : re := Group "M" (range "0" "5" +> digit <|> digit).
(* (?P<S>6[0-1]|[0-5]\d|\d) *)
Definition S : re :=
  Group "S" (lit "6" +> range "0" "1" <|> range "0" "5" +> digit <|> digit).
(* r? *)
Definition opt (r : re) : re := r <|> Eps.
(* \d{1,6} *)
Definition digits6 : re :=
  digit +> opt (digit +> opt (digit +> opt (digit +> opt (digit +> opt digit)))).
(* (?P<z>[+-]\d\d:?[0-5]\d(:?[0-5]\d(\.\d{1,6})?)?|(?-i:Z)) *)
Definition z : re :=
  Group "z" ((lit "+" <|> lit "-") +> digit +> digit +> opt (lit ":")
             +> range "0" "5" +> digit
             +> opt (opt (lit ":") +> range "0" "5" +> digit
                     +> opt (lit "." +> digits6))
             <|> lit "Z").

(** ['%Y-%m-%dT%H:%M:%S%z'] *)
Definition iso_format : re :=
  Y +> lit_i "-" +> m +> lit_i "-" +> d +> lit_i "T" +>
  H +> lit_i ":" +> M +> lit_i ":" +> S +> z.

End Pat.

(** [int(s)] on the text of a group or on a slice of the offset: decimal
    digits after optional blanks (the day group may start with one); any
    other character, such as a colon in a slice of the offset, is refused.
    Signs, underscores and trailing blanks, which [int] also accepts, do
    not occur in these texts. *)
Fixpoint int_digits (s : string) (acc : Z) : res Z :=
  match s with
  | EmptyString => Ret acc
  | String c s' => if Str.is_digit c then int_digits s' (acc * 10 + Str.digit_val c)
                   else Raise ValueError
  end.

Fixpoint py_int (s : string) : res Z :=
  match s with
  | EmptyString => Raise ValueError
  | String c s' => if Ascii.is_space c then py_int s' else int_digits s 0
  end.

(** The [z] branch of [_strptime]: the offset the text of the group
    denotes, in microseconds.  A colon after the hours is removed, and then
    one after the minutes must be there too when seconds follow; without
    the first colon the second one is not expected, and [int] refuses it.
    (The group is [Z] or has at least five characters, so [z[3]] exists.) *)
Definition gmtoff (z : string) : res Z :=
  if String.eqb z "Z" then Ret 0
  else
    z ← match String.get 3 z with
        | Some ":"%char =>
            let z := Str.take 3 z +:+ Str.drop 4 z in
            if (5 <? String.length z)%nat then
              match String.get 5 z with
              | Some ":"%char => Ret (Str.take 5 z +:+ Str.drop 6 z)
              | _ => Raise ValueError            (* inconsistent use of : *)
              end
            else Ret z
        | _ => Ret z
        end;
    hours ← py_int (Str.take 2 (Str.drop 1 z));
    minutes ← py_int (Str.take 2 (Str.drop 3 z));
    seconds ← match Str.take 2 (Str.drop 5 z) with
              | EmptyString => Ret 0
              | t => py_int t
              end;
    let remainder := Str.drop 8 z in
    fraction ← py_int (remainder +:+ String.string_of_list_ascii
                                       (repeat "0"%char (6 - String.length remainder)));
    let off := (hours * 3600 + minutes * 60 + seconds) * 1000000 + fraction in
    Ret (if String.prefix "-" z then - off else off).

(** [datetime.datetime.strptime(s, '%Y-%m-%dT%H:%M:%S%z')]. *)
Definition strptime (s : string) : res datetime :=
  match re_match Pat.iso_format s with
  | None => Raise ValueError                 (* does not match format *)
  | Some (caps, rest) =>
      if negb (String.eqb rest EmptyString) then Raise ValueError  (* unconverted data remains *)
      else
        y ← py_int (group caps "Y");
        mo ← py_int (group caps "m");
        d ← py_int (group caps "d");
        h ← py_int (group caps "H");
        mi ← py_int (group caps "M");
        sec ← py_int (group caps "S");
        off ← gmtoff (group caps "z");
        let r := mk_datetime y mo d h mi sec 0 (Some off) in
        if check_datetime r then Ret r else Raise ValueError
  end.

(** [%z] of [strftime]: empty for a naive value, else the sign, hours and
    minutes, and the seconds and microseconds when they are not zero. *)
Definition strftime_z (off : option Z) : string :=
  match off with
  | None => EmptyString
  | Some o =>
      let sign := if o <? 0 then "-" else "+" in
      let a := Z.abs o in
      let us := a mod 1000000 in
      let s := a / 1000000 mod 60 in
      sign +:+ Str.zfill 2 (a / 3600000000) +:+ Str.zfill 2 (a / 60000000 mod 60)
      +:+ (if negb (us =? 0) then Str.zfill 2 s +:+ "." +:+ Str.zfill 6 us
           else if negb (s =? 0) then Str.zfill 2 s
           else EmptyString)
  end.

(** [d.strftime('%Y-%m-%dT%H:%M:%S%z')]. *)
Definition strftime (d : datetime) : string :=
  Str.of_Z (year d) +:+ "-" +:+ Str.zfill 2 (month d) +:+ "-" +:+ Str.zfill 2 (day d)
  +:+ "T" +:+ Str.zfill 2 (hour d) +:+ ":" +:+ Str.zfill 2 (minute d) +:+ ":"
  +:+ Str.zfill 2 (second d) +:+ strftime_z (utcoffset d).

(** [d.strftime('%m/%d/%Y')] for a [datetime.date]. *)
Definition strftime_mdY (d : date) : string :=
  Str.zfill 2 (date_month d) +:+ "/" +:+ Str.zfill 2 (date_day d) +:+ "/"
  +:+ Str.of_Z (date_year d).

(* ===================================================================== *)
(** ** Entity models (md.py, lines 31-122) *)
(* ===================================================================== *)

(** The back-reference [self.md] of every entity is not a field here: the
    methods that use it take the [MinuteDock] value as an argument. *)

Module User.

Record t : Type := mk {
  raw : json;
  user_id : json;
  email : string;
  login : string;
  first_name : json;
  last_name : json
}.

(** [User.__init__(self, md, raw)]; [raw['email'].split] exists for a
    string only. *)
Definition init (raw : json) : res t :=
  uid ← getitem raw "id";
  em ← getitem raw "email";
  em ← match em with JStr s => Ret s | _ => Raise AttributeError end;
  let lg := Str.before "@" em in
  fn ← getitem raw "first_name";
  ln ← getitem raw "last_name";
  Ret (mk raw uid em lg fn ln).

End User.

Module Contact.

Record t : Type := mk {
  raw : json;
  contact_id : json;
  name : json;
  short_code : json;
  default_rate_dollars : json
}.

Definition init (raw : json) : res t :=
  cid ← getitem raw "id";
  nm ← getitem raw "name";
  sc ← getitem raw "short_code";
  rate ← getitem raw "default_rate_dollars";
  Ret (mk raw cid nm sc rate).

End Contact.

Module Project.

Record t : Type := mk {
  raw : json;
  project_id : json;
  contact_id : json;
  name : json;
  short_code : json;
  description : json;
  default_rate_dollars : json
}.

Definition init (raw : json) : res t :=
  pid ← getitem raw "id";
  cid ← getitem raw "contact_id";
  nm ← getitem raw "name";
  sc ← getitem raw "short_code";
  ds ← getitem raw "description";
  rate ← getitem raw "default_rate_dollars";
  Ret (mk raw pid cid nm sc ds rate).

End Project.

(** [str(v)], which is also ['%s' % v].  The text Python prints for a list
    or a dictionary depends on [repr] of every character of every string in
    it; it is left as a parameter, [repr_container]. *)
Definition py_str (repr_container : json -> string) (v : json) : string :=
  match v with
  | JNull => "None"
  | JBool true => "True"
  | JBool false => "False"
  | JInt n => Str.of_Z n
  | JStr s => s
  | JArr _ | JObj _ => repr_container v
  end.

(* ===================================================================== *)
(** ** The transport and the session (md.py, lines 156-222) *)
(* ===================================================================== *)

(** A request handed to [self.opener.open].  The body of a PUT is kept as
    the JSON value that [json.dumps] serialises. *)
Record request : Type := mk_request {
  meth : string;
  url : string;
  content_type : option string;
  data : option json
}.

(** The state network code runs in: the remote side, and the requests
    issued so far, oldest first. *)
Record net (W : Type) : Type := mk_net {
  world : W;
  log : list request
}.
Arguments mk_net {W} world log.
Arguments world {W} n.
Arguments log {W} n.

Definition io (W A : Type) : Type := net W -> res A * net W.

Global Instance io_ret {W} : MRet (io W) := fun A a n => (Ret a, n).
Global Instance io_bind {W} : MBind (io W) := fun A B f m n =>
  match m n with
  | (Ret a, n') => f a n'
  | (Raise e, n') => (Raise e, n')
  end.

Definition lift {W A} (r : res A) : io W A := fun n => (r, n).

(** An action on the environment that issues no request. *)
Definition local {W A} (f : W -> res A * W) : io W A := fun n =>
  let (r, w') := f (world n) in
  (r, mk_net w' (log n)).

(** A query dictionary: a [dict] of strings in insertion order.
    [d[k] = v] replaces the value of a key that is present, where it
    stands, and appends a new key. *)
Definition qdict : Type := list (string * string).

Fixpoint qset (k v : string) (d : qdict) : qdict :=
  match d with
  | [] => [(k, v)]
  | (k', v') :: d' => if String.eqb k' k then (k, v) :: d' else (k', v') :: qset k v d'
  end.

Fixpoint qget (k : string) (d : qdict) : option string :=
  match d with
  | [] => None
  | (k', v') :: d' => if String.eqb k' k then Some v' else qget k d'
  end.

(** [list2dict(lst, attr)]: [dict] of the pairs [(getattr(i, attr), i)],
    inserted from left to right, so a later item with an equal key
    replaces an earlier one; an unhashable key raises. *)
Fixpoint dict_of {A} (attr : A -> json) (lst : list A) (acc : gmap pykey A)
    : res (gmap pykey A) :=
  match lst with
  | [] => Ret acc
  | i :: lst' => k ← key_of (attr i); dict_of attr lst' (<[k := i]> acc)
  end.

Definition list2dict {A} (lst : list A) (attr : A -> json) : res (gmap pykey A) :=
  dict_of attr lst ∅.

Module MinuteDock.

Record t : Type := mk {
  api_key : string;
  users : list User.t;
  users_by_id : gmap pykey User.t;
  users_by_login : gmap pykey User.t;
  contacts : list Contact.t;
  contacts_by_id : gmap pykey Contact.t;
  contacts_by_code : gmap pykey Contact.t;
  projects : list Project.t;
  projects_by_id : gmap pykey Project.t;
  projects_by_code : gmap pykey Project.t
}.

Definition URL_BASE : string := "https://minutedock.com/api/v1".

(** ["%s/%s?%s" % (URL_BASE, req, '&'.join(['%s=%s' % i for i in args.items()]))] *)
Definition url_of (req : string) (args : qdict) : string :=
  URL_BASE +:+ "/" +:+ req +:+ "?"
  +:+ Str.join "&" ((fun i => i.1 +:+ "=" +:+ i.2) <$> args).

Section WithOpener.

Context {W : Type}.
(** [self.opener.open(req)], [response.read()] and, for a GET, the
    decoding of the body by [json.loads]: the answer of the remote side,
    or the exception one of them raises. *)
Variable opener_open : request -> W -> res json * W.

Definition send (rq : request) : io W json := fun n =>
  let (r, w') := opener_open rq (world n) in
  (r, mk_net w' (log n ++ [rq])).

(** [_do_get(self, req, args)].  [args] is the caller's dictionary, which
    the method extends with the key; it is returned with the answer.
    Only [self.api_key] is read from [self]. *)
Definition _do_get (key : string) (req : string) (args : option qdict)
    : io W (json * qdict) :=
  let args := match args with None => [] | Some a => a end in
  let args := qset "api_key" key args in
  r ← send (mk_request "GET" (url_of req args) None None);
  mret (r, args).

(** [_do_put(self, req, obj)]; the response is read and dropped. *)
Definition _do_put (key : string) (req : string) (obj : json) : io W unit :=
  let args := [("api_key", key)] in
  _ ← send (mk_request "PUT" (url_of req args) (Some "application/json") (Some obj));
  mret tt.

(** Lines 187-197 of [MinuteDock.__init__], the part that talks to the
    remote side: [key] is [self.api_key], which lines 175-185 have set
    before (see [__init__] below). *)
Definition init (key : string) : io W t :=
  us ← _do_get key "users.json" None;
  us ← lift (py_iter us.1);
  users ← lift (map_res User.init us);
  users_by_id ← lift (list2dict users User.user_id);
  users_by_login ← lift (list2dict users (fun u => JStr (User.login u)));
  cs ← _do_get key "contacts.json" None;
  cs ← lift (py_iter cs.1);
  contacts ← lift (map_res Contact.init cs);
  contacts_by_id ← lift (list2dict contacts Contact.contact_id);
  contacts_by_code ← lift (list2dict contacts Contact.short_code);
  ps ← _do_get key "projects.json" None;
  ps ← lift (py_iter ps.1);
  projects ← lift (map_res Project.init ps);
  projects_by_id ← lift (list2dict projects Project.project_id);
  projects_by_code ← lift (list2dict projects Project.short_code);
  mret (mk key users users_by_id users_by_login
           contacts contacts_by_id contacts_by_code
           projects projects_by_id projects_by_code).

(** [open(os.path.expanduser("~/.md.key")).read()] of line 179: the content
    of the key file, or the exception that opening or reading it raises. *)
Variable read_key_file : W -> res string * W.
(** Lines 181-185: the TLS context, the HTTPS handler and the opener are
    built, or one of the five calls raises. *)
Variable build_opener : W -> res unit * W.

(** [MinuteDock.__init__(self)]: the key is read and stripped, the opener
    is built, and then the catalog is fetched.  (Lines 176-177 assign two
    attributes that lines 187 and 191 overwrite.) *)
Definition __init__ : io W t :=
  text ← local read_key_file;
  _ ← local build_opener;
  init (Str.strip text).

End WithOpener.

End MinuteDock.

Module Entry.

Record t : Type := mk {
  raw : json;
  entry_id : json;
  user_id : json;
  contact_id : json;
  project_id : json;
  duration : json;
  description : json;
  timer_active : json;
  date : datetime
}.

(** Lines 120-122: [date = raw['logged_at']; date = date[:-3] + date[-2:]],
    then [strptime].  Slicing and concatenation also work on a list, which
    [strptime] then refuses; the other values cannot be sliced. *)
Definition parse_logged_at (v : json) : res datetime :=
  match v with
  | JStr s => strptime (Str.until_last 3 s +:+ Str.last 2 s)
  | _ => Raise TypeError
  end.

(** [Entry.__init__(self, md, raw)]. *)
Definition init (raw : json) : res t :=
  eid ← getitem raw "id";
  uid ← getitem raw "user_id";
  cid ← getitem raw "contact_id";
  pid ← getitem raw "project_id";
  dur ← getitem raw "duration";
  ds ← getitem raw "description";
  ta ← getitem raw "timer_active";
  la ← getitem raw "logged_at";
  dt ← parse_logged_at la;
  Ret (mk raw eid uid cid pid dur ds ta dt).

(** Lines 144-150 of [Entry.update]: the payload that is sent.
    [copy.copy(self.raw)] of a dictionary is a new dictionary with the same
    items; the five assignments overlay it.  ([self.raw] is a [dict] for
    every entry [init] built; on another value the assignments raise.) *)
Definition new_raw (e : t) : res (gmap string json) :=
  match raw e with
  | JObj m =>
      Ret (<["logged_at" := JStr (strftime (date e))]>
           (<["description" := description e]>
            (<["project_id" := project_id e]>
             (<["contact_id" := contact_id e]>
              (<["user_id" := user_id e]> m)))))
  | _ => Raise TypeError
  end.

(** Attribute assignment by the caller, [e.duration = v] and the like. *)
Definition set_duration (v : json) (e : t) : t :=
  mk (raw e) (entry_id e) (user_id e) (contact_id e) (project_id e) v
     (description e) (timer_active e) (date e).
Definition set_timer_active (v : json) (e : t) : t :=
  mk (raw e) (entry_id e) (user_id e) (contact_id e) (project_id e) (duration e)
     (description e) v (date e).
Definition set_description (v : json) (e : t) : t :=
  mk (raw e) (entry_id e) (user_id e) (contact_id e) (project_id e) (duration e)
     v (timer_active e) (date e).
Definition set_contact_id (v : json) (e : t) : t :=
  mk (raw e) (entry_id e) (user_id e) v (project_id e) (duration e)
     (description e) (timer_active e) (date e).
Definition set_project_id (v : json) (e : t) : t :=
  mk (raw e) (entry_id e) (user_id e) (contact_id e) v (duration e)
     (description e) (timer_active e) (date e).

(** [change_contact(self, contact_code)] and [change_project(self,
    project_code)]: [self.md.<index>[code]] raises [KeyError] on a code
    that is not in the index, before the attribute is assigned. *)
Definition change_contact (md : MinuteDock.t) (contact_code : string) (e : t) : res t :=
  match MinuteDock.contacts_by_code md !! KStr contact_code with
  | Some c => Ret (set_contact_id (Contact.contact_id c) e)
  | None => Raise (KeyError (KStr contact_code))
  end.

Definition change_project (md : MinuteDock.t) (project_code : string) (e : t) : res t :=
  match MinuteDock.projects_by_code md !! KStr project_code with
  | Some p => Ret (set_project_id (Project.project_id p) e)
  | None => Raise (KeyError (KStr project_code))
  end.

Section WithOpener.

Context {W : Type}.
Variable opener_open : request -> W -> res json * W.
Variable repr_container : json -> string.

(** [Entry.update(self)]; [md] is [self.md]. *)
Definition update (md : MinuteDock.t) (e : t) : io W unit :=
  nr ← lift (new_raw e);
  MinuteDock._do_put opener_open (MinuteDock.api_key md)
    ("entries/" +:+ py_str repr_container (entry_id e) +:+ ".json")
    (JObj {["entry" := JObj nr]}).

End WithOpener.

End Entry.

(* ===================================================================== *)
(** ** [MinuteDock.entries_search] (md.py, lines 224-279) *)
(* ===================================================================== *)

(** Network code with a loop: [None] when the fuel does not suffice. *)
Definition pio (W A : Type) : Type := net W -> option (res A * net W).

Global Instance pio_ret {W} : MRet (pio W) := fun A a n => Some (Ret a, n).
Global Instance pio_bind {W} : MBind (pio W) := fun A B f m n =>
  match m n with
  | Some (Ret a, n') => f a n'
  | Some (Raise e, n') => Some (Raise e, n')
  | None => None
  end.

Definition run {W A} (m : io W A) : pio W A := fun n => Some (m n).

Module Search.

Section WithOpener.

Context {W : Type}.
Variable opener_open : request -> W -> res json * W.
Variable repr_container : json -> string.

(** Lines 243-256, once per dimension: ["all"] for [None], otherwise
    [','.join([str(index[k].<id>) for k in keys])]; [index[k]] raises
    [KeyError] on a key that is not there. *)
Definition encode_ids {E} (index : gmap pykey E) (id_of : E -> json)
    (keys : option (list string)) : res string :=
  match keys with
  | None => Ret "all"
  | Some ks =>
      ids ← map_res (fun k => match index !! KStr k with
                              | Some x => Ret (py_str repr_container (id_of x))
                              | None => Raise (KeyError (KStr k))
                              end) ks;
      Ret (Str.join "," ids)
  end.

(** Lines 241-262: the query dictionary before the loop. *)
Definition search_dict (md : MinuteDock.t) (date_range : option (date * date))
    (user_logins contacts projects : option (list string)) : res qdict :=
  let sd := [] in
  u ← encode_ids (MinuteDock.users_by_login md) User.user_id user_logins;
  let sd := qset "users" u sd in
  c ← encode_ids (MinuteDock.contacts_by_code md) Contact.contact_id contacts;
  let sd := qset "contacts" c sd in
  p ← encode_ids (MinuteDock.projects_by_code md) Project.project_id projects;
  let sd := qset "projects" p sd in
  Ret (match date_range with
       | Some (_from, _to) =>
           qset "to" (strftime_mdY _to) (qset "from" (strftime_mdY _from) sd)
       | None => sd
       end).

(** Lines 264-271: the [while True] loop, one iteration per unit of fuel. *)
Fixpoint fetch_pages (fuel : nat) (key : string) (entries : list json) (offset : Z)
    (sd : qdict) : pio W (list json) :=
  match fuel with
  | O => fun _ => None
  | S fuel' =>
      let sd := qset "offset" (Str.of_Z offset) sd in
      r ← run (MinuteDock._do_get opener_open key "entries.json" (Some sd));
      let '(new_entries, sd) := r in
      len ← run (lift (py_len new_entries));
      if (len =? 0)%nat then mret entries
      else
        items ← run (lift (py_iter new_entries));
        fetch_pages fuel' key (entries ++ items) (offset + Z.of_nat len) sd
  end.

Definition is_None (v : json) : bool :=
  match v with JNull => true | _ => false end.

Definition entries_search (fuel : nat) (md : MinuteDock.t)
    (date_range : option (date * date))
    (user_logins contacts projects : option (list string)) : pio W (list Entry.t) :=
  sd ← run (lift (search_dict md date_range user_logins contacts projects));
  raws ← fetch_pages fuel (MinuteDock.api_key md) [] 0 sd;
  entries ← run (lift (map_res Entry.init raws));
  mret (match projects with
        | Some [] => List.filter (fun e => is_None (Entry.project_id e)) entries
        | _ => entries
        end).

End WithOpener.

End Search.

(* ===================================================================== *)
(** ** The example scripts: [update.py] and [mygroup] of [report.py] *)
(* ===================================================================== *)

Module UpdateScript.

Section WithOpener.

Context {W : Type}.
Variable opener_open : request -> W -> res json * W.
Variable repr_container : json -> string.

(** Lines 15-17 of [update.py]:
    [for e in entries: e.change_project('new_project'); e.update()]. *)
Fixpoint update_each (md : MinuteDock.t) (entries : list Entry.t) : io W unit :=
  match entries with
  | [] => mret tt
  | e :: entries' =>
      e' ← lift (Entry.change_project md "new_project" e);
      _ ← Entry.update opener_open repr_container md e';
      update_each md entries'
  end.

(** [update(md)] of [update.py]. *)
Definition update (fuel : nat) (md : MinuteDock.t) : pio W unit :=
  entries ← Search.entries_search opener_open repr_container fuel md
              (Some (mk_date 2012 7 1, mk_date 2012 8 30))
              (Some ["user1"; "user2"; "user3"]) (Some ["customer"]) (Some []);
  run (update_each md entries).

End WithOpener.

End UpdateScript.

Module Report.

(** The dictionary [groups] of [mygroup]: keys in insertion order, as
    [groups.values()] lists the groups. *)
Definition odict (V : Type) : Type := list (pykey * V).

Fixpoint oget {V} (k : pykey) (d : odict V) : option V :=
  match d with
  | [] => None
  | (k', v) :: d' => if decide (k' = k) then Some v else oget k d'
  end.

Fixpoint oset {V} (k : pykey) (v : V) (d : odict V) : odict V :=
  match d with
  | [] => [(k, v)]
  | (k', v') :: d' => if decide (k' = k) then (k, v) :: d' else (k', v') :: oset k v d'
  end.

(** The loop of [mygroup]:
    [groups[grouping] = groups.get(grouping, []) + [i]]. *)
Fixpoint group_loop {A} (attr : A -> json) (iterable : list A) (groups : odict (list A))
    : res (odict (list A)) :=
  match iterable with
  | [] => Ret groups
  | i :: rest =>
      grouping ← key_of (attr i);
      group_loop attr rest
        (oset grouping (default [] (oget grouping groups) ++ [i]) groups)
  end.

(** [mygroup(iterable, attr)], as the list of [groups.values()]. *)
Definition mygroup {A} (iterable : list A) (attr : A -> json) : res (list (list A)) :=
  groups ← group_loop attr iterable [];
  Ret (groups.*2).

End Report.

(** A remote side that answers the [i]-th request with [resp i], whatever
    the request: a sequence of transport responses.  Its state is the number
    of requests answered. *)
Definition replay (resp : nat -> res json) : request -> nat -> res json * nat :=
  fun _ i => (resp i, S i).

(* ===================================================================== *)
(** ** Sample data, used by the examples below *)
(* ===================================================================== *)

Module Sample.

(** A remote side that answers every request with [null]. *)
Definition quiet : request -> unit -> res json * unit := fun _ w => (Ret JNull, w).

Definition no_repr : json -> string := fun _ => "<container>".

Definition start {W} (w : W) : net W := mk_net w [].

Definition raw_entry (id : Z) (project : json) : gmap string json :=
  list_to_map
    [("id", JInt id); ("user_id", JInt 7); ("contact_id", JInt 3);
     ("project_id", project); ("duration", JInt 5400);
     ("description", JStr "review"); ("timer_active", JBool false);
     ("logged_at", JStr "2012-07-01T10:00:00+12:00");
     ("updated_at", JStr "2012-07-02T08:15:00+12:00")].

Definition entry (id : Z) (project : json) : Entry.t :=
  Entry.mk (JObj (raw_entry id project)) (JInt id) (JInt 7) (JInt 3) project
    (JInt 5400) (JStr "review") (JBool false)
    (mk_datetime 2012 7 1 10 0 0 0 (Some 43200000000)).

Definition md : MinuteDock.t :=
  MinuteDock.mk "KEY" [] ∅ ∅ [] ∅ ∅ [] ∅ ∅.


(** A remote side that answers from a script, one response per request,
    and with an empty list once the script is exhausted. *)
Definition scripted : request -> list json -> res json * list json :=
  fun _ w => match w with
             | [] => (Ret (JArr []), [])
             | r :: w' => (Ret r, w')
             end.

(** A sequence of responses that repeats the same page of one record. *)
Definition stuck : request -> nat -> res json * nat :=
  replay (fun _ => Ret (JArr [JObj (raw_entry 41 JNull)])).

Definition page (first : Z) (count : nat) (project : json) : list json :=
  (fun i => JObj (raw_entry i project)) <$> seqZ first (Z.of_nat count).

Definition raw_user (id : Z) (email : string) : json :=
  JObj (list_to_map [("id", JInt id); ("email", JStr email);
                     ("first_name", JStr "Ann"); ("last_name", JStr "Lee")]).

Definition raw_contact (id : Z) (code : string) : json :=
  JObj (list_to_map [("id", JInt id); ("name", JStr "Acme"); ("short_code", JStr code);
                     ("default_rate_dollars", JInt 100)]).

Definition raw_project (id : Z) (code : string) : json :=
  JObj (list_to_map [("id", JInt id); ("contact_id", JInt 3); ("name", JStr "Site");
                     ("short_code", JStr code); ("description", JNull);
                     ("default_rate_dollars", JInt 100)]).

(** The three bootstrap answers of a small account, and those of an
    account in which two users have the login [ann]. *)
Definition account : list json :=
  [JArr [raw_user 7 "ann@example.org"; raw_user 8 "bob@example.org"];
   JArr [raw_contact 3 "acme"];
   JArr [raw_project 9 "site"]].

Definition two_anns : list json :=
  [JArr [raw_user 7 "ann@example.org"; raw_user 8 "ann@example.com"];
   JArr [raw_contact 3 "acme"];
   JArr [raw_project 9 "site"]].

(** The catalog of [account]. *)
Definition ann : User.t :=
  User.mk (raw_user 7 "ann@example.org") (JInt 7) "ann@example.org" "ann"
    (JStr "Ann") (JStr "Lee").
Definition bob : User.t :=
  User.mk (raw_user 8 "bob@example.org") (JInt 8) "bob@example.org" "bob"
    (JStr "Ann") (JStr "Lee").
Definition acme : Contact.t :=
  Contact.mk (raw_contact 3 "acme") (JInt 3) (JStr "Acme") (JStr "acme") (JInt 100).
Definition site : Project.t :=
  Project.mk (raw_project 9 "site") (JInt 9) (JInt 3) (JStr "Site") (JStr "site")
    JNull (JInt 100).

Definition catalog : MinuteDock.t :=
  MinuteDock.mk "KEY"
    [ann; bob] {[KInt 7 := ann; KInt 8 := bob]} {[KStr "ann" := ann; KStr "bob" := bob]}
    [acme] {[KInt 3 := acme]} {[KStr "acme" := acme]}
    [site] {[KInt 9 := site]} {[KStr "site" := site]}.

(** The catalog of [two_anns]: the second user took the slot of the first. *)
Definition ann2 : User.t :=
  User.mk (raw_user 8 "ann@example.com") (JInt 8) "ann@example.com" "ann"
    (JStr "Ann") (JStr "Lee").

Definition collided : MinuteDock.t :=
  MinuteDock.mk "KEY"
    [ann; ann2] {[KInt 7 := ann; KInt 8 := ann2]} {[KStr "ann" := ann2]}
    [acme] {[KInt 3 := acme]} {[KStr "acme" := acme]}
    [site] {[KInt 9 := site]} {[KStr "site" := site]}.


(** A remote side that answers from a script of values and failures. *)
Definition flaky : request -> list (res json) -> res json * list (res json) :=
  fun _ w => match w with
             | [] => (Ret (JArr []), [])
             | r :: w' => (r, w')
             end.

(** The account [update.py] is written for: its three users, its customer
    and, in [team] but not in [team_before], the project [new_project]. *)
Definition member (id : Z) (login : string) : User.t :=
  User.mk (raw_user id (login +:+ "@example.org")) (JInt id) (login +:+ "@example.org")
    login (JStr "Ann") (JStr "Lee").
Definition customer : Contact.t :=
  Contact.mk (raw_contact 3 "customer") (JInt 3) (JStr "Acme") (JStr "customer")
    (JInt 100).
Definition new_project : Project.t :=
  Project.mk (raw_project 12 "new_project") (JInt 12) (JInt 3) (JStr "Site")
    (JStr "new_project") JNull (JInt 100).

Definition team_before : MinuteDock.t :=
  MinuteDock.mk "KEY"
    [member 1 "user1"; member 2 "user2"; member 3 "user3"]
    {[KInt 1 := member 1 "user1"; KInt 2 := member 2 "user2"; KInt 3 := member 3 "user3"]}
    {[KStr "user1" := member 1 "user1"; KStr "user2" := member 2 "user2";
      KStr "user3" := member 3 "user3"]}
    [customer] {[KInt 3 := customer]} {[KStr "customer" := customer]}
    [] ∅ ∅.

Definition team : MinuteDock.t :=
  MinuteDock.mk "KEY"
    (MinuteDock.users team_before) (MinuteDock.users_by_id team_before)
    (MinuteDock.users_by_login team_before)
    [customer] {[KInt 3 := customer]} {[KStr "customer" := customer]}
    [new_project] {[KInt 12 := new_project]} {[KStr "new_project" := new_project]}.


(** The query of a search without arguments, and of the search of
    [update.py] in [team]. *)
Definition no_filters : qdict :=
  [("users", "all"); ("contacts", "all"); ("projects", "all")].

Definition script_filters : qdict :=
  [("users", "1,2,3"); ("contacts", "3"); ("projects", "");
   ("from", "07/01/2012"); ("to", "08/30/2012")].

(** Two pages: three records, the second one with a project. *)
Definition two_pages : list json :=
  [JArr [JObj (raw_entry 41 JNull); JObj (raw_entry 42 (JInt 9))];
   JArr [JObj (raw_entry 43 JNull)]].

(** The sample entry with the contact [contact]. *)
Definition by_contact (id contact : Z) : Entry.t :=
  Entry.set_contact_id (JInt contact) (entry id JNull).

(** [catalog] with a second contact. *)
Definition globex : Contact.t :=
  Contact.mk (raw_contact 4 "globex") (JInt 4) (JStr "Acme") (JStr "globex") (JInt 100).

Definition two_contacts : MinuteDock.t :=
  MinuteDock.mk "KEY"
    [ann; bob] {[KInt 7 := ann; KInt 8 := bob]} {[KStr "ann" := ann; KStr "bob" := bob]}
    [acme; globex] {[KInt 3 := acme; KInt 4 := globex]}
    {[KStr "acme" := acme; KStr "globex" := globex]}
    [site] {[KInt 9 := site]} {[KStr "site" := site]}.



(** A key file that cannot be opened, one that holds the key and a line
    end, and a TLS set-up that succeeds. *)
Definition no_key_file {W} : W -> res string * W :=
  fun w => (Raise (OtherError "FileNotFoundError"), w).
Definition key_file {W} : W -> res string * W :=
  fun w => (Ret ("KEY" +:+ String "010" EmptyString), w).
Definition tls_ready {W} : W -> res unit * W := fun w => (Ret tt, w).

End Sample.

(* ===================================================================== *)
(** ** Vocabulary of the properties *)
(* ===================================================================== *)

(** The keys [Entry.update] overlays. *)
Definition client_writable : list string :=
  ["user_id"; "contact_id"; "project_id"; "description"; "logged_at"].

(** The payload of a request whose body is [{"entry": <payload>}]. *)
Definition entry_payload (rq : request) : option (gmap string json) :=
  match data rq with
  | Some (JObj o) => match o !! "entry" with
                     | Some (JObj b) => Some b
                     | _ => None
                     end
  | _ => None
  end.

(** Running [m] from [n] issues exactly one request, a PUT whose payload
    is [body]. *)
Definition transmits {W A} (m : io W A) (n : net W) (body : gmap string json) : Prop :=
  exists rq, log (m n).2 = log n ++ [rq] /\ meth rq = "PUT" /\ entry_payload rq = Some body.


(** The GET that one iteration of the search loop issues for [offset]: the
    query is the dictionary built before the loop, then [offset], then
    [api_key]. *)
Definition search_request (key : string) (sd : qdict) (offset : Z) : request :=
  mk_request "GET"
    (MinuteDock.url_of "entries.json"
       (qset "api_key" key (qset "offset" (Str.of_Z offset) sd)))
    None None.

(** The offsets of the requests of a search that receives [pages] and then
    an empty page. *)
Fixpoint offsets (offset : Z) (pages : list (list json)) : list Z :=
  match pages with
  | [] => [offset]
  | p :: ps => offset :: offsets (offset + Z.of_nat (length p)) ps
  end.

(** From the state [w], the remote side answers the successive requests of
    the search loop, starting at [offset], with the non-empty [pages], one
    after the other, and then with an empty page, and is left in [w']. *)
Fixpoint serves {W} (opener_open : request -> W -> res json * W)
    (key : string) (sd : qdict) (offset : Z) (pages : list (list json))
    (w w' : W) : Prop :=
  match pages with
  | [] => opener_open (search_request key sd offset) w = (Ret (JArr []), w')
  | p :: ps =>
      p ≠ [] /\
      exists w1, opener_open (search_request key sd offset) w = (Ret (JArr p), w1) /\
                 serves opener_open key sd (offset + Z.of_nat (length p)) ps w1 w'
  end.

(** The search loop goes on after the response [r]: [r] is a value whose
    [len] is defined and not zero. *)
Definition continues (r : res json) : bool :=
  match r with
  | Ret v => match py_len v with
             | Ret (S _) => true
             | _ => false
             end
  | Raise _ => false
  end.

(** The value of the query dictionary for one dimension: ["all"] when the
    argument is omitted, otherwise the comma-joined [str] of the ids of the
    entities the given keys resolve to, in the order given. *)
Definition encodes {E} (repr_container : json -> string) (index : gmap pykey E)
    (id_of : E -> json) (keys : option (list string)) (v : string) : Prop :=
  match keys with
  | None => v = "all"
  | Some ks =>
      exists xs, Forall2 (fun k x => index !! KStr k = Some x) ks xs /\
                 v = Str.join "," (py_str repr_container ∘ id_of <$> xs)
  end.

(** A key of [ks] is not in the index. *)
Definition unresolved {E} (index : gmap pykey E) (keys : option (list string)) : Prop :=
  exists ks k, keys = Some ks /\ k ∈ ks /\ index !! KStr k = None.

(** [x] is the value of exactly one slot of the index. *)
Definition in_one_slot {A} (index : gmap pykey A) (x : A) : Prop :=
  exists k, index !! k = Some x /\ forall k', index !! k' = Some x -> k' = k.

(** No two items of the list have equal keys. *)
Definition distinct_keys {A} (attr : A -> json) (lst : list A) : Prop :=
  forall i j x y, lst !! i = Some x -> lst !! j = Some y ->
                  key_of (attr x) = key_of (attr y) -> i = j.

(** Every catalog entity is in exactly one slot of both of its indexes. *)
Definition catalog_indexed (md : MinuteDock.t) : Prop :=
  (forall u, u ∈ MinuteDock.users md ->
     in_one_slot (MinuteDock.users_by_id md) u /\
     in_one_slot (MinuteDock.users_by_login md) u) /\
  (forall c, c ∈ MinuteDock.contacts md ->
     in_one_slot (MinuteDock.contacts_by_id md) c /\
     in_one_slot (MinuteDock.contacts_by_code md) c) /\
  (forall p, p ∈ MinuteDock.projects md ->
     in_one_slot (MinuteDock.projects_by_id md) p /\
     in_one_slot (MinuteDock.projects_by_code md) p).

(** The three fetched lists have pairwise distinct ids and natural keys. *)
Definition catalog_keys_distinct (md : MinuteDock.t) : Prop :=
  distinct_keys User.user_id (MinuteDock.users md) /\
  distinct_keys (fun u => JStr (User.login u)) (MinuteDock.users md) /\
  distinct_keys Contact.contact_id (MinuteDock.contacts md) /\
  distinct_keys Contact.short_code (MinuteDock.contacts md) /\
  distinct_keys Project.project_id (MinuteDock.projects md) /\
  distinct_keys Project.short_code (MinuteDock.projects md).

(** Every entity of the index has an integer id. *)
Definition numeric_ids {E} (id_of : E -> json) (index : gmap pykey E) : Prop :=
  forall k x, index !! k = Some x -> exists n, id_of x = JInt n.

(** ["all"], or a comma-joined list of decimal numerals. *)
Definition all_or_ids (v : string) : Prop :=
  v = "all" \/
  exists ids, Forall (fun s => Str.is_numeral s = true) ids /\ v = Str.join "," ids.

(** [x] is the last item of [lst] whose key is [k]. *)
Definition last_with_key {A} (attr : A -> json) (lst : list A) (k : pykey) (x : A)
    : Prop :=
  exists i, lst !! i = Some x /\ key_of (attr x) = Ret k /\
            forall j y, (i < j)%nat -> lst !! j = Some y -> key_of (attr y) <> Ret k.

(** *** Vocabulary of the further properties *)

(** The GET of a catalog list, with the key as its only argument, and the
    three that the bootstrap issues. *)
Definition catalog_request (key req : string) : request :=
  mk_request "GET" (MinuteDock.url_of req [("api_key", key)]) None None.

Definition bootstrap_requests (key : string) : list request :=
  catalog_request key <$> ["users.json"; "contacts.json"; "projects.json"].

(** The PUT that [update] issues for an entry with identifier [id] and
    payload [body]. *)
Definition put_request (repr_container : json -> string) (key : string) (id : json)
    (body : gmap string json) : request :=
  mk_request "PUT"
    (MinuteDock.url_of ("entries/" +:+ py_str repr_container id +:+ ".json")
       [("api_key", key)])
    (Some "application/json") (Some (JObj {["entry" := JObj body]})).

(** As [serves], with any last response: the remote side answers with the
    non-empty [pages] and then with [last]. *)
Fixpoint answers {W} (opener_open : request -> W -> res json * W)
    (key : string) (sd : qdict) (offset : Z) (pages : list (list json))
    (last : res json) (w w' : W) : Prop :=
  match pages with
  | [] => opener_open (search_request key sd offset) w = (last, w')
  | p :: ps =>
      p ≠ [] /\
      exists w1, opener_open (search_request key sd offset) w = (Ret (JArr p), w1) /\
                 answers opener_open key sd (offset + Z.of_nat (length p)) ps last w1 w'
  end.

(** [d.isoformat()]: [YYYY-MM-DDTHH:MM:SS], the microseconds when there are
    some, and the offset of an aware value with a colon, [+HH:MM], followed
    by its seconds and microseconds when it has them.  For a whole number
    of minutes and no microseconds this is
    [YYYY-MM-DDTHH:MM:SS+HH:MM], the form of [logged_at] that
    [Entry.__init__] is written for: it removes the colon. *)
Definition isoformat_offset (off : option Z) : string :=
  match off with
  | None => EmptyString
  | Some o =>
      let a := Z.abs o in
      let us := a mod 1000000 in
      let s := a / 1000000 mod 60 in
      (if o <? 0 then "-" else "+") +:+ Str.zfill 2 (a / 3600000000) +:+ ":"
      +:+ Str.zfill 2 (a / 60000000 mod 60)
      +:+ (if negb (s =? 0) || negb (us =? 0)
           then ":" +:+ Str.zfill 2 s
                +:+ (if negb (us =? 0) then "." +:+ Str.zfill 6 us else EmptyString)
           else EmptyString)
  end.

Definition isoformat (d : datetime) : string :=
  Str.zfill 4 (year d) +:+ "-" +:+ Str.zfill 2 (month d) +:+ "-"
  +:+ Str.zfill 2 (day d) +:+ "T" +:+ Str.zfill 2 (hour d) +:+ ":"
  +:+ Str.zfill 2 (minute d) +:+ ":" +:+ Str.zfill 2 (second d)
  +:+ (if negb (microsecond d =? 0) then "." +:+ Str.zfill 6 (microsecond d)
       else EmptyString)
  +:+ isoformat_offset (utcoffset d).

(** What a timestamp denotes, read position by position:
    [YYYY-MM-DDTHH:MM:SS] followed by the offset, which is [Z], [+HH:MM]
    or [+HHMM] (or the same with [-]).  This reading is independent of
    [strptime]. *)
Definition two (a b : ascii) : Z := 10 * Str.digit_val a + Str.digit_val b.

Definition read_offset (zone : list ascii) : option Z :=
  let signed (sg h1 h2 m1 m2 : ascii) : option Z :=
    if forallb Str.is_digit [h1; h2; m1; m2] then
      let v := (two h1 h2 * 60 + two m1 m2) * 60000000 in
      if Ascii.eqb sg "+" then Some v
      else if Ascii.eqb sg "-" then Some (- v)
      else None
    else None in
  match zone with
  | [z] => if Ascii.eqb z "Z" then Some 0 else None
  | [sg; h1; h2; m1; m2] => signed sg h1 h2 m1 m2
  | [sg; h1; h2; c; m1; m2] => if Ascii.eqb c ":" then signed sg h1 h2 m1 m2 else None
  | _ => None
  end.

Definition read_stamp (s : string) : option datetime :=
  match list_ascii_of_string s with
  | y1 :: y2 :: y3 :: y4 :: d1 :: m1 :: m2 :: d2 :: a1 :: a2 :: t
    :: h1 :: h2 :: c1 :: i1 :: i2 :: c2 :: s1 :: s2 :: zone =>
      if forallb Str.is_digit [y1; y2; y3; y4; m1; m2; a1; a2; h1; h2; i1; i2; s1; s2]
         && Ascii.eqb d1 "-" && Ascii.eqb d2 "-" && Ascii.eqb t "T"
         && Ascii.eqb c1 ":" && Ascii.eqb c2 ":"
      then
        off ← read_offset zone;
        Some (mk_datetime (100 * two y1 y2 + two y3 y4) (two m1 m2) (two a1 a2)
                (two h1 h2) (two i1 i2) (two s1 s2) 0 (Some off))
      else None
  | _ => None
  end.

(** Reading [MM/DD/YYYY] back. *)
Definition parse_mdY (s : string) : option date :=
  match list_ascii_of_string s with
  | [m1; m2; s1; d1; d2; s2; y1; y2; y3; y4] =>
      if forallb Str.is_digit [m1; m2; d1; d2; y1; y2; y3; y4]
         && Ascii.eqb s1 "/" && Ascii.eqb s2 "/"
      then Some (mk_date
                   (1000 * Str.digit_val y1 + 100 * Str.digit_val y2
                    + 10 * Str.digit_val y3 + Str.digit_val y4)
                   (10 * Str.digit_val m1 + Str.digit_val m2)
                   (10 * Str.digit_val d1 + Str.digit_val d2))
      else None
  | _ => None
  end.

(** The keys [Entry.__init__] reads, in the order it reads them. *)
Definition entry_keys : list string :=
  ["id"; "user_id"; "contact_id"; "project_id"; "duration"; "description";
   "timer_active"; "logged_at"].

(** The key of [x] is [k]. *)
Definition has_key {A} (attr : A -> json) (k : pykey) (x : A) : bool :=
  match key_of (attr x) with
  | Ret k' => bool_decide (k' = k)
  | Raise _ => false
  end.

(** The hashable keys of the items of [l], in order. *)
Definition item_keys {A} (attr : A -> json) (l : list A) : list pykey :=
  omap (fun x => match key_of (attr x) with Ret k => Some k | Raise _ => None end) l.

(** The keys of the items of [l], each once, in the order of their first
    occurrence. *)
Definition first_keys {A} (attr : A -> json) (l : list A) : list pykey :=
  reverse (remove_dups (reverse (item_keys attr l))).

(** The groups of [l]: for each key, in the order of first occurrence, the
    items with that key, in the order of [l]. *)
Definition groups_of {A} (attr : A -> json) (l : list A) : Report.odict (list A) :=
  (fun k => (k, List.filter (has_key attr k) l)) <$> first_keys attr l.

(** The raw record of an entry, as a dictionary. *)
Definition raw_dict (e : Entry.t) : gmap string json :=
  match Entry.raw e with
  | JObj m => m
  | _ => ∅
  end.

(** The PUT of [update.py] for the entry [e]: its raw record with
    [project_id] set to [pid] and [logged_at] written anew. *)
Definition reassign_request (repr_container : json -> string) (key : string)
    (pid : json) (e : Entry.t) : request :=
  put_request repr_container key (Entry.entry_id e)
    (<["project_id" := pid]>
       (<["logged_at" := JStr (strftime (Entry.date e))]> (raw_dict e))).

(** The group of the directive [r] cannot match [txt] in front of a text
    [s] that the rest of the pattern refuses, when the rest of the pattern
    also refuses every text that starts with a digit. *)
Definition field_fails (r : re) (txt : string) : Prop :=
  forall X (s buf : string) (caps : captures)
         (k : string -> string -> captures -> option X),
    (forall b c, k s b c = None) ->
    (forall ch s' b c, Str.is_digit ch = true -> k (String ch s') b c = None) ->
    rmatch r (txt +:+ s) buf caps k = None.

(** The query string of a search, between [entries.json?] and the offset. *)
Definition filters_text (u c p : string) (dr : option (date * date)) : string :=
  "users=" +:+ u +:+ "&contacts=" +:+ c +:+ "&projects=" +:+ p
  +:+ match dr with
      | Some (f, t) => "&from=" +:+ strftime_mdY f +:+ "&to=" +:+ strftime_mdY t
      | None => ""
      end.

(** *** Auxiliary definitions of the proofs about [strptime] *)

(** [f] holds on [lo], [lo + 1], ..., [lo + len - 1]. *)
Definition all_range (f : Z -> bool) (lo len : Z) : bool :=
  forallb f (seqZ lo len).

Definition low6 (c : ascii) : bool :=
  (nat_of_ascii "0" <=? nat_of_ascii c)%nat && (nat_of_ascii c <=? nat_of_ascii "5")%nat.

(** [s] is the two-digit numeral of [n] (its first digit at most 5 when
    [n < 60]). *)
Definition two_digits (n : Z) (s : string) : bool :=
  match s with
  | String a (String b EmptyString) =>
      Str.is_digit a && Str.is_digit b && (n =? 10 * Str.digit_val a + Str.digit_val b)
      && (if n <? 60 then low6 a else true)
  | _ => false
  end.

Definition four_digits (n : Z) (s : string) : bool :=
  match s with
  | String a (String b (String c (String d EmptyString))) =>
      Str.is_digit a && Str.is_digit b && Str.is_digit c && Str.is_digit d
      && (n =? 1000 * Str.digit_val a + 100 * Str.digit_val b + 10 * Str.digit_val c
               + Str.digit_val d)
  | _ => false
  end.

(** The group [name] of the directive [r] matches [txt] in front of any
    text that the rest of the pattern accepts. *)
Definition field_ok (r : re) (name : string) (txt : string) : Prop :=
  forall X (s buf : string) (caps : captures)
         (k : string -> string -> captures -> option X) (x : X),
    (forall b, k s b ((name, txt) :: caps) = Some x) ->
    rmatch r (txt +:+ s) buf caps k = Some x.

(** The fields of [d] as [YYYY-MM-DDTHH:MM:SS+HHMM], every field at its
    full width (the offset in whole minutes): what [Entry.__init__] hands
    to [strptime] for an ISO timestamp, and what [strftime] writes from
    the year 1000 on. *)
Definition wire_offset (off : option Z) : string :=
  match off with
  | None => EmptyString
  | Some o =>
      (if o <? 0 then "-" else "+") +:+ Str.zfill 2 (Z.abs o / 3600000000)
      +:+ Str.zfill 2 (Z.abs o / 60000000 mod 60)
  end.

Definition wire_text (d : datetime) : string :=
  Str.zfill 4 (year d) +:+ "-" +:+ Str.zfill 2 (month d) +:+ "-" +:+ Str.zfill 2 (day d)
  +:+ "T" +:+ Str.zfill 2 (hour d) +:+ ":" +:+ Str.zfill 2 (minute d) +:+ ":"
  +:+ Str.zfill 2 (second d) +:+ wire_offset (utcoffset d).

(** The groups [format_regex] finds in [wire_text d], last closed first. *)
Definition wire_groups (d : datetime) : captures :=
  [("z", wire_offset (utcoffset d)); ("S", Str.zfill 2 (second d));
   ("M", Str.zfill 2 (minute d)); ("H", Str.zfill 2 (hour d));
   ("d", Str.zfill 2 (day d)); ("m", Str.zfill 2 (month d));
   ("Y", Str.zfill 4 (year d))].

(** [str(n)] is [n] in four digits (as it is from 1000 to 9999). *)
Definition year_text_agrees (n : Z) : bool := String.eqb (Str.of_Z n) (Str.zfill 4 n).

(** [s] has one, two or three characters, all digits. *)
Definition short_numeral (s : string) : bool :=
  match s with
  | String a EmptyString => Str.is_digit a
  | String a (String b EmptyString) => Str.is_digit a && Str.is_digit b
  | String a (String b (String c EmptyString)) =>
      Str.is_digit a && Str.is_digit b && Str.is_digit c
  | _ => false
  end.

(* ===================================================================== *)
(** ** The model on concrete inputs *)
(* ===================================================================== *)

Example slice_wire : Str.until_last 3 "00+12:00" +:+ Str.last 2 "00+12:00" = "00+1200".
Proof. reflexivity. Qed.

Example slice_short : Str.until_last 3 "ab" +:+ Str.last 2 "ab" = "ab".
Proof. reflexivity. Qed.

Example login_local_part : Str.before "@" "ann@example.org" = "ann".
Proof. reflexivity. Qed.

Example zfill_year : Str.zfill 4 33 = "0033" /\ Str.zfill 2 7 = "07" /\ Str.of_Z (-12) = "-12".
Proof. repeat split; reflexivity. Qed.

Example strip_key : Str.strip (" KEY" +:+ String "010" EmptyString) = "KEY".
Proof. reflexivity. Qed.

Example instant_offsets :
  instant (mk_datetime 2012 7 1 10 0 0 0 (Some 43200000000))
  = instant (mk_datetime 2012 6 30 22 0 0 0 (Some 0)).
Proof. reflexivity. Qed.

Example strptime_wire :
  strptime "2012-07-01T10:00:00+1200"
  = Ret (mk_datetime 2012 7 1 10 0 0 0 (Some 43200000000)).
Proof. vm_compute. reflexivity. Qed.

Example strptime_short_fields :
  strptime "2012-7- 1t9:5:3-0530" = Ret (mk_datetime 2012 7 1 9 5 3 0 (Some (-19800000000))).
Proof. vm_compute. reflexivity. Qed.

Example strptime_colon :
  strptime "2012-07-01T10:00:00+12:00"
  = Ret (mk_datetime 2012 7 1 10 0 0 0 (Some 43200000000)).
Proof. vm_compute. reflexivity. Qed.

Example strptime_zulu :
  strptime "2012-07-01T10:00:5Z" = Ret (mk_datetime 2012 7 1 10 0 5 0 (Some 0)) /\
  strptime "2012-07-01T10:00:05z" = Raise ValueError.
Proof. split; vm_compute; reflexivity. Qed.

Example strptime_offset_seconds :
  strptime "2012-07-01T10:00:00+12:00:30.00023"
  = Ret (mk_datetime 2012 7 1 10 0 0 0 (Some 43230000230)) /\
  strptime "2012-07-01T10:00:00+12:0030" = Raise ValueError /\
  strptime "2012-07-01T10:00:00+1200:30" = Raise ValueError /\
  strptime "2012-07-01T10:00:00+24:00" = Raise ValueError.
Proof. repeat split; vm_compute; reflexivity. Qed.

Example strptime_short_offset : strptime "2012-07-01T10:00:00+100" = Raise ValueError.
Proof. vm_compute. reflexivity. Qed.

Example strptime_feb30 : strptime "2012-02-30T10:00:00+1200" = Raise ValueError.
Proof. vm_compute. reflexivity. Qed.

Example strptime_leap_second : strptime "2012-06-30T23:59:60+0000" = Raise ValueError.
Proof. vm_compute. reflexivity. Qed.

Example strftime_wire :
  strftime (mk_datetime 2012 7 1 9 5 3 0 (Some (-19800000000))) = "2012-07-01T09:05:03-0530".
Proof. vm_compute. reflexivity. Qed.

Example strftime_early_year :
  strftime (mk_datetime 33 7 1 10 0 0 0 (Some 43200000000)) = "33-07-01T10:00:00+1200" /\
  strftime_mdY (mk_date 33 1 2) = "01/02/33".
Proof. split; vm_compute; reflexivity. Qed.

Example strftime_offset_seconds :
  strftime (mk_datetime 2012 7 1 10 0 0 0 (Some (-43230000005)))
  = "2012-07-01T10:00:00-120030.000005".
Proof. vm_compute. reflexivity. Qed.

Example isoformat_wire :
  isoformat (mk_datetime 2012 7 1 10 0 0 0 (Some 43200000000)) = "2012-07-01T10:00:00+12:00".
Proof. vm_compute. reflexivity. Qed.

Example read_stamp_forms :
  read_stamp "2012-07-01T10:00:00+12:00"
  = Some (mk_datetime 2012 7 1 10 0 0 0 (Some 43200000000)) /\
  read_stamp "2012-07-01T10:00:00+1200"
  = Some (mk_datetime 2012 7 1 10 0 0 0 (Some 43200000000)) /\
  read_stamp "2012-07-01T10:00:15Z" = Some (mk_datetime 2012 7 1 10 0 15 0 (Some 0)) /\
  read_stamp "33-07-01T10:00:00+1200" = None.
Proof. repeat split; vm_compute; reflexivity. Qed.

Example init_sample :
  Entry.init (JObj (Sample.raw_entry 41 JNull)) = Ret (Sample.entry 41 JNull).
Proof. vm_compute. reflexivity. Qed.

Example update_sample :
  log (Entry.update Sample.quiet Sample.no_repr Sample.md (Sample.entry 41 JNull)
        (Sample.start tt)).2
  = [mk_request "PUT" "https://minutedock.com/api/v1/entries/41.json?api_key=KEY"
       (Some "application/json")
       (Some (JObj {["entry" := JObj (<["logged_at" := JStr "2012-07-01T10:00:00+1200"]>
                                       (Sample.raw_entry 41 JNull))]}))].
Proof. vm_compute. reflexivity. Qed.


Example bootstrap_account :
  MinuteDock.init Sample.scripted "KEY" (Sample.start Sample.account)
  = (Ret Sample.catalog,
     mk_net []
       [mk_request "GET" "https://minutedock.com/api/v1/users.json?api_key=KEY" None None;
        mk_request "GET" "https://minutedock.com/api/v1/contacts.json?api_key=KEY" None None;
        mk_request "GET" "https://minutedock.com/api/v1/projects.json?api_key=KEY" None None]).
Proof. vm_compute. reflexivity. Qed.

Example construct_account :
  MinuteDock.__init__ Sample.scripted Sample.key_file Sample.tls_ready
    (Sample.start Sample.account)
  = MinuteDock.init Sample.scripted "KEY" (Sample.start Sample.account).
Proof. vm_compute. reflexivity. Qed.

Example construct_without_key_file :
  MinuteDock.__init__ Sample.scripted Sample.no_key_file Sample.tls_ready
    (Sample.start Sample.account)
  = (Raise (OtherError "FileNotFoundError"), Sample.start Sample.account).
Proof. reflexivity. Qed.

Example search_two_pages :
  Search.entries_search Sample.scripted Sample.no_repr 5 Sample.catalog
    (Some (mk_date 2012 7 1, mk_date 2012 7 31)) (Some ["bob"; "ann"]) None (Some [])
    (Sample.start [JArr [JObj (Sample.raw_entry 41 JNull); JObj (Sample.raw_entry 42 (JInt 9))];
                   JArr [JObj (Sample.raw_entry 43 JNull)]])
  = Some (Ret [Sample.entry 41 JNull; Sample.entry 43 JNull],
          mk_net []
            ((fun u => mk_request "GET" u None None)
               <$> ["https://minutedock.com/api/v1/entries.json?users=8,7&contacts=all&projects=&from=07/01/2012&to=07/31/2012&offset=0&api_key=KEY";
                    "https://minutedock.com/api/v1/entries.json?users=8,7&contacts=all&projects=&from=07/01/2012&to=07/31/2012&offset=2&api_key=KEY";
                    "https://minutedock.com/api/v1/entries.json?users=8,7&contacts=all&projects=&from=07/01/2012&to=07/31/2012&offset=3&api_key=KEY"])).
Proof. vm_compute. reflexivity. Qed.

(** Inversion of computations that return. *)
Lemma bind_Ret {A B} (m : res A) (f : A -> res B) (b : B) :
  (m ≫= f) = Ret b -> exists a, m = Ret a /\ f a = Ret b.
Proof. destruct m as [a|e]; simpl; [eauto | discriminate]. Qed.

Lemma getitem_Ret (d : json) (k : string) (v : json) :
  getitem d k = Ret v -> exists m, d = JObj m /\ m !! k = Some v.
Proof.
  destruct d; simpl; try discriminate.
  destruct (m !! k) eqn:Hk; [|discriminate].
  intros [= ->]. eauto.
Qed.

(* ===================================================================== *)
(** ** [strptime] reads the wire text, and [strftime] writes it *)
(* ===================================================================== *)

Lemma Z_range_Forall (P : Z -> Prop) (lo len : Z) :
  Forall P (seqZ lo len) -> forall z, lo <= z < lo + len -> P z.
Proof.
  intros H z Hz. rewrite Forall_forall in H. apply H. apply elem_of_seqZ. lia.
Qed.

Ltac each_case tac :=
  match goal with
  | |- Forall _ ?l => let l' := eval vm_compute in l in change l with l'
  end;
  repeat (apply Forall_cons_2; [tac|]); apply Forall_nil_2.

Ltac eval_zfill :=
  repeat match goal with
         | H : context [Str.zfill ?w ?n] |- _ =>
             let v := eval vm_compute in (Str.zfill w n) in
             change (Str.zfill w n) with v in H
         | |- context [Str.zfill ?w ?n] =>
             let v := eval vm_compute in (Str.zfill w n) in
             change (Str.zfill w n) with v
         end.
Ltac field_case :=
  unfold field_ok; cbv beta; intros X s buf caps k x Hk; eval_zfill; cbv; rewrite ?Hk; reflexivity.

Lemma match_M : forall n, 0 <= n < 60 -> field_ok Pat.M "M" (Str.zfill 2 n).
Proof.
  apply (Z_range_Forall _ 0 60). each_case field_case.
Qed.

Lemma match_S : forall n, 0 <= n < 60 -> field_ok Pat.S "S" (Str.zfill 2 n).
Proof. apply (Z_range_Forall _ 0 60). each_case field_case. Qed.
Lemma match_H : forall n, 0 <= n < 24 -> field_ok Pat.H "H" (Str.zfill 2 n).
Proof. apply (Z_range_Forall _ 0 24). each_case field_case. Qed.
Lemma match_d : forall n, 1 <= n < 32 -> field_ok Pat.d "d" (Str.zfill 2 n).
Proof. intros n Hn. apply (Z_range_Forall (fun n => field_ok Pat.d "d" (Str.zfill 2 n)) 1 31); [|lia]. each_case field_case. Qed.
Lemma match_m : forall n, 1 <= n < 13 -> field_ok Pat.m "m" (Str.zfill 2 n).
Proof. intros n Hn. apply (Z_range_Forall (fun n => field_ok Pat.m "m" (Str.zfill 2 n)) 1 12); [|lia]. each_case field_case. Qed.

Lemma all_range_spec (f : Z -> bool) (lo len : Z) :
  all_range f lo len = true -> forall z, lo <= z < lo + len -> f z = true.
Proof.
  unfold all_range. rewrite forallb_forall. intros H z Hz.
  apply H, list_elem_of_In, elem_of_seqZ. lia.
Qed.

Lemma zfill2_shape (n : Z) : 0 <= n < 100 -> two_digits n (Str.zfill 2 n) = true.
Proof.
  apply (all_range_spec (fun n => two_digits n (Str.zfill 2 n)) 0 100).
  vm_compute. reflexivity.
Qed.

Lemma zfill4_shape (n : Z) : 0 <= n < 10000 -> four_digits n (Str.zfill 4 n) = true.
Proof.
  apply (all_range_spec (fun n => four_digits n (Str.zfill 4 n)) 0 10000).
  vm_compute. reflexivity.
Qed.

Lemma digit_not_space (c : ascii) : Str.is_digit c = true -> Ascii.is_space c = false.
Proof. destruct c as [[] [] [] [] [] [] [] []]; vm_compute; congruence. Qed.

Lemma py_int_two (a b : ascii) :
  Str.is_digit a = true -> Str.is_digit b = true ->
  py_int (String a (String b EmptyString)) = Ret (10 * Str.digit_val a + Str.digit_val b).
Proof.
  intros Ha Hb. simpl. rewrite (digit_not_space a Ha), Ha, Hb. f_equal. lia.
Qed.

Lemma py_int_zfill2 (n : Z) : 0 <= n < 100 -> py_int (Str.zfill 2 n) = Ret n.
Proof.
  intros Hn. pose proof (zfill2_shape n Hn) as H.
  destruct (Str.zfill 2 n) as [|a [|b [|? ?]]]; try discriminate.
  simpl in H. rewrite !andb_true_iff in H. destruct H as [[[Ha Hb] Hv] _].
  rewrite py_int_two by done. f_equal. lia.
Qed.

Lemma py_int_zfill4 (n : Z) : 0 <= n < 10000 -> py_int (Str.zfill 4 n) = Ret n.
Proof.
  intros Hn. pose proof (zfill4_shape n Hn) as H.
  destruct (Str.zfill 4 n) as [|a [|b [|c [|d [|? ?]]]]]; try discriminate.
  simpl in H. rewrite !andb_true_iff in H. destruct H as [[[[Ha Hb] Hc] Hd] Hv].
  simpl. rewrite (digit_not_space a Ha), Ha, Hb, Hc, Hd. f_equal. lia.
Qed.

Lemma match_Y (n : Z) : 0 <= n < 10000 -> field_ok Pat.Y "Y" (Str.zfill 4 n).
Proof.
  intros Hn. pose proof (zfill4_shape n Hn) as H.
  destruct (Str.zfill 4 n) as [|a [|b [|c [|d [|? ?]]]]]; try discriminate.
  simpl in H. rewrite !andb_true_iff in H. destruct H as [[[[Ha Hb] Hc] Hd] Hv].
  intros X s buf caps k x Hk. cbv -[Str.is_digit]. rewrite Ha, Hb, Hc, Hd.
  apply Hk.
Qed.

Lemma lit_ok {X} (a : ascii) (s buf : string) (caps : captures)
    (k : string -> string -> captures -> option X) :
  rmatch (Pat.lit_i a) (String a EmptyString +:+ s) buf caps k
  = k s (buf +:+ String a EmptyString) caps.
Proof. change (String a EmptyString +:+ s) with (String a s). simpl. by rewrite Ascii.eqb_refl. Qed.

Lemma Ret_bind {A B} (a : A) (f : A -> res B) : (Ret a ≫= f) = f a.
Proof. reflexivity. Qed.

Lemma digit_not_colon (c : ascii) :
  Str.is_digit c = true -> Ascii.eqb ":" c = false /\ Ascii.eqb "Z" c = false.
Proof. destruct c as [[] [] [] [] [] [] [] []]; vm_compute; intros; try discriminate; done. Qed.

Lemma utcoffset_minutes (off : Z) :
  check_utcoffset off = true ->
  (Z.abs off / 3600000000 * 60 + Z.abs off / 60000000 mod 60) * 60000000 = Z.abs off /\
  0 <= Z.abs off / 3600000000 < 24 /\ 0 <= Z.abs off / 60000000 mod 60 < 60 /\
  Z.abs off mod 1000000 = 0 /\ Z.abs off / 1000000 mod 60 = 0.
Proof.
  unfold check_utcoffset, check_timezone. rewrite !andb_true_iff, !Z.ltb_lt, Z.eqb_eq.
  intros [[Hlo Hhi] Hmin].
  assert (Z.abs off mod 60000000 = 0) by (destruct (Z.abs_spec off) as [[_ ->]|[_ ->]];
    [done | by apply Z.mod_opp_l_z]).
  Z.to_euclidean_division_equations. lia.
Qed.

Lemma match_z (off : Z) :
  check_utcoffset off = true ->
  forall X (buf : string) (caps : captures)
         (k : string -> string -> captures -> option X) (x : X),
    (forall b, k "" b (("z", wire_offset (Some off)) :: caps) = Some x) ->
    rmatch Pat.z (wire_offset (Some off)) buf caps k = Some x.
Proof.
  intros Hz. destruct (utcoffset_minutes off Hz) as (_ & Hh & Hm & _).
  assert (Hh' : 0 <= Z.abs off / 3600000000 < 100) by lia.
  pose proof (zfill2_shape _ Hh') as H1.
  pose proof (zfill2_shape (Z.abs off / 60000000 mod 60) ltac:(lia)) as H2.
  unfold wire_offset.
  destruct (Str.zfill 2 (Z.abs off / 3600000000)) as [|a [|b [|? ?]]]; try discriminate.
  destruct (Str.zfill 2 (Z.abs off / 60000000 mod 60)) as [|c [|d [|? ?]]]; try discriminate.
  simpl in H1, H2.
  replace (Z.abs off / 60000000 mod 60 <? 60) with true in H2 by (symmetry; apply Z.ltb_lt; lia).
  rewrite !andb_true_iff in H1, H2.
  destruct H1 as [[[Ha Hb] _] _], H2 as [[[Hc Hd] _] Hc6].
  unfold low6 in Hc6. destruct (digit_not_colon c Hc) as [Hcc _].
  intros X buf caps k x Hk.
  destruct (off <? 0); cbv -[Str.is_digit nat_of_ascii Nat.leb andb Ascii.eqb];
    cbv -[Str.is_digit nat_of_ascii Nat.leb andb Ascii.eqb] in Hk;
    rewrite ?Ascii.eqb_refl; change (Ascii.eqb "+" "-") with false; cbv iota;
    rewrite Ha, Hb, Hcc, Hc6, Hd, Hk; reflexivity.
Qed.

Lemma datetime_ok_bounds (d : datetime) :
  datetime_ok d = true ->
  1 <= year d <= 9999 /\ 1 <= month d <= 12 /\ 1 <= day d <= 31 /\
  0 <= hour d <= 23 /\ 0 <= minute d <= 59 /\ 0 <= second d <= 59 /\
  0 <= microsecond d <= 999999.
Proof.
  unfold datetime_ok, check_date_fields, check_time_fields.
  rewrite !andb_true_iff, !Z.leb_le. intros [[Hd Ht] _].
  assert (Calendar.days_in_month (year d) (month d) <= 31).
  { unfold Calendar.days_in_month. repeat case_match; lia. }
  lia.
Qed.

Lemma append_nil_r (s : string) : s +:+ "" = s.
Proof. induction s as [|c s IH]; [reflexivity|]. change (String c (s +:+ "") = String c s). by rewrite IH. Qed.

Lemma re_match_wire (d : datetime) (off : Z) :
  datetime_ok d = true -> utcoffset d = Some off ->
  re_match Pat.iso_format (wire_text d) = Some (wire_groups d, "").
Proof.
  intros Hok Hoff. pose proof (datetime_ok_bounds d Hok) as Hb.
  assert (Hz : check_utcoffset off = true).
  { unfold datetime_ok in Hok. rewrite Hoff in Hok.
    by apply andb_true_iff in Hok as [_ ?]. }
  unfold re_match, wire_text, wire_groups, Pat.iso_format. rewrite Hoff.
  cbn [rmatch]. apply match_Y; [lia|]. intros ?. rewrite lit_ok.
  apply match_m; [lia|]. intros ?. rewrite lit_ok.
  apply match_d; [lia|]. intros ?. rewrite lit_ok.
  apply match_H; [lia|]. intros ?. rewrite lit_ok.
  apply match_M; [lia|]. intros ?. rewrite lit_ok.
  apply match_S; [lia|]. intros ?.
  apply match_z; [done|]. reflexivity.
Qed.

Lemma wire_offset_parts (off : Z) :
  check_utcoffset off = true ->
  exists sg a b c e,
    wire_offset (Some off) = String sg (String a (String b (String c (String e "")))) /\
    sg = (if off <? 0 then "-"%char else "+"%char) /\
    Str.zfill 2 (Z.abs off / 3600000000) = String a (String b "") /\
    Str.zfill 2 (Z.abs off / 60000000 mod 60) = String c (String e "") /\
    Str.is_digit a = true /\ Str.is_digit b = true /\
    Str.is_digit c = true /\ Str.is_digit e = true.
Proof.
  intros Hz. destruct (utcoffset_minutes off Hz) as (_ & Hh & Hm & _).
  pose proof (zfill2_shape (Z.abs off / 3600000000) ltac:(lia)) as H1.
  pose proof (zfill2_shape (Z.abs off / 60000000 mod 60) ltac:(lia)) as H2.
  unfold wire_offset.
  destruct (Str.zfill 2 (Z.abs off / 3600000000)) as [|a [|b [|? ?]]]; try discriminate.
  destruct (Str.zfill 2 (Z.abs off / 60000000 mod 60)) as [|c [|e [|? ?]]]; try discriminate.
  simpl in H1, H2. rewrite !andb_true_iff in H1, H2.
  destruct H1 as [[[Ha Hb] _] _], H2 as [[[Hc He] _] _].
  exists (if off <? 0 then "-"%char else "+"%char), a, b, c, e.
  destruct (off <? 0); repeat split; assumption.
Qed.

Lemma gmtoff_wire (off : Z) :
  check_utcoffset off = true -> gmtoff (wire_offset (Some off)) = Ret off.
Proof.
  intros Hz. destruct (utcoffset_minutes off Hz) as (Hmin & Hh & Hm & _).
  destruct (wire_offset_parts off Hz) as (sg & a & b & c & e & -> & Hsg & Hzh & Hzm
                                          & Ha & Hb & Hc & He).
  pose proof (py_int_zfill2 (Z.abs off / 3600000000) ltac:(lia)) as Ph.
  pose proof (py_int_zfill2 (Z.abs off / 60000000 mod 60) ltac:(lia)) as Pm.
  rewrite Hzh in Ph. rewrite Hzm in Pm.
  destruct (digit_not_colon c Hc) as [Hcc _].
  unfold gmtoff.
  assert (Hnz : String.eqb (String sg (String a (String b (String c (String e ""))))) "Z"
                = false) by (destruct sg as [[] [] [] [] [] [] [] []]; reflexivity).
  rewrite Hnz.
  change (String.get 3 (String sg (String a (String b (String c (String e ""))))))
    with (Some c).
  assert (Hkeep : forall (A : Type) (x y : A),
            match c with ":"%char => x | _ => y end = y).
  { intros A x y. destruct c as [[] [] [] [] [] [] [] []]; try reflexivity.
    discriminate Hcc. }
  cbv beta iota. rewrite Hkeep, Ret_bind.
  change (Str.take 2 (Str.drop 1 (String sg (String a (String b (String c (String e "")))))))
    with (String a (String b "")).
  change (Str.take 2 (Str.drop 3 (String sg (String a (String b (String c (String e "")))))))
    with (String c (String e "")).
  change (Str.take 2 (Str.drop 5 (String sg (String a (String b (String c (String e "")))))))
    with "".
  change (Str.drop 8 (String sg (String a (String b (String c (String e ""))))))
    with "".
  rewrite Ph, Ret_bind, Pm, Ret_bind. cbv iota. rewrite Ret_bind.
  change (py_int _) with (@Ret Z 0). rewrite Ret_bind. f_equal. subst sg.
  destruct (Z.ltb_spec off 0); simpl; lia.
Qed.

Lemma strptime_wire_text (d : datetime) (off : Z) :
  datetime_ok d = true -> utcoffset d = Some off -> microsecond d = 0 ->
  strptime (wire_text d) = Ret d.
Proof.
  intros Hok Hoff Hus. pose proof (datetime_ok_bounds d Hok) as Hb.
  assert (Hz : check_utcoffset off = true).
  { unfold datetime_ok in Hok. rewrite Hoff in Hok.
    by apply andb_true_iff in Hok as [_ ?]. }
  unfold strptime. rewrite (re_match_wire d off Hok Hoff).
  unfold wire_groups. rewrite Hoff.
  match goal with
  | |- context [group ?c _] => set (caps := c)
  end.
  change (group caps "Y") with (Str.zfill 4 (year d)).
  change (group caps "m") with (Str.zfill 2 (month d)).
  change (group caps "d") with (Str.zfill 2 (day d)).
  change (group caps "H") with (Str.zfill 2 (hour d)).
  change (group caps "M") with (Str.zfill 2 (minute d)).
  change (group caps "S") with (Str.zfill 2 (second d)).
  change (group caps "z") with (wire_offset (Some off)).
  clear caps. simpl negb. cbv iota.
  rewrite py_int_zfill4, !py_int_zfill2 by lia.
  rewrite !Ret_bind, (gmtoff_wire off Hz), Ret_bind.
  assert (Hd : mk_datetime (year d) (month d) (day d) (hour d) (minute d) (second d) 0
                 (Some off) = d).
  { destruct d; simpl in *. by subst. }
  rewrite Hd.
  assert (Hc : check_datetime d = true).
  { unfold datetime_ok in Hok. unfold check_datetime. rewrite Hoff in *.
    unfold check_utcoffset in Hok. rewrite !andb_true_iff in *. tauto. }
  by rewrite Hc.
Qed.

Lemma of_Z_zfill4 (n : Z) : 1000 <= n < 10000 -> Str.of_Z n = Str.zfill 4 n.
Proof.
  intros Hn. apply String.eqb_eq.
  apply (all_range_spec year_text_agrees 1000 9000); [|lia].
  vm_compute. reflexivity.
Qed.

Lemma strftime_z_wire (off : Z) :
  check_utcoffset off = true -> strftime_z (Some off) = wire_offset (Some off).
Proof.
  intros Hz. destruct (utcoffset_minutes off Hz) as (_ & _ & _ & Hus & Hs).
  unfold strftime_z, wire_offset. cbv zeta. rewrite Hus, Hs. simpl.
  by rewrite append_nil_r.
Qed.


Ltac explode_digits :=
  unfold four_digits, two_digits in *;
  repeat match goal with
         | H : match ?s with EmptyString => _ | String _ _ => _ end = true |- _ =>
             destruct s as [|? ?]; [discriminate H|]
         | H : match ?s with EmptyString => _ | String _ _ => _ end = true |- _ =>
             destruct s as [|? ?]; [|discriminate H]
         end.

(** The digits of the fields of a valid [datetime] with a whole-minute offset. *)
Ltac field_shapes d off Hok Hoff :=
  let Hb := fresh "Hb" in
  let Hz := fresh "Hz" in
  pose proof (datetime_ok_bounds d Hok) as Hb;
  assert (Hz : check_utcoffset off = true)
    by (unfold datetime_ok in Hok; rewrite Hoff in Hok;
        by apply andb_true_iff in Hok as [_ ?]);
  destruct (utcoffset_minutes off Hz) as (?Hmin & ?Hh & ?Hm & _);
  pose proof (zfill4_shape (year d) ltac:(lia)) as ?HY;
  pose proof (zfill2_shape (month d) ltac:(lia)) as ?Hmo;
  pose proof (zfill2_shape (day d) ltac:(lia)) as ?Hd;
  pose proof (zfill2_shape (hour d) ltac:(lia)) as ?HH;
  pose proof (zfill2_shape (minute d) ltac:(lia)) as ?HM;
  pose proof (zfill2_shape (second d) ltac:(lia)) as ?HS;
  pose proof (zfill2_shape (Z.abs off / 3600000000) ltac:(lia)) as ?Hzh;
  pose proof (zfill2_shape (Z.abs off / 60000000 mod 60) ltac:(lia)) as ?Hzm.



Lemma isoformat_wire_offset (off : Z) :
  check_utcoffset off = true ->
  exists sg a b c e,
    isoformat_offset (Some off)
    = String sg (String a (String b (String ":" (String c (String e ""))))) /\
    wire_offset (Some off) = String sg (String a (String b (String c (String e "")))).
Proof.
  intros Hz. destruct (utcoffset_minutes off Hz) as (_ & _ & _ & Hus & Hs).
  destruct (wire_offset_parts off Hz) as (sg & a & b & c & e & Hw & Hsg & Hzh & Hzm & _).
  exists sg, a, b, c, e. split; [|exact Hw].
  unfold isoformat_offset. cbv zeta. rewrite Hus, Hs, Hzh, Hzm. simpl.
  rewrite Hsg. by destruct (off <? 0).
Qed.


Lemma isoformat_sliced (d : datetime) (off : Z) :
  datetime_ok d = true -> utcoffset d = Some off -> microsecond d = 0 ->
  Str.until_last 3 (isoformat d) +:+ Str.last 2 (isoformat d) = wire_text d.
Proof.
  intros Hok Hoff Hus.
  assert (Hz : check_utcoffset off = true).
  { unfold datetime_ok in Hok. rewrite Hoff in Hok.
    by apply andb_true_iff in Hok as [_ ?]. }
  destruct (isoformat_wire_offset off Hz) as (sg & a & b & c & e & Hi & Hw).
  pose proof (datetime_ok_bounds d Hok) as Hb.
  pose proof (zfill4_shape (year d) ltac:(lia)) as HY.
  pose proof (zfill2_shape (month d) ltac:(lia)) as Hmo.
  pose proof (zfill2_shape (day d) ltac:(lia)) as Hd.
  pose proof (zfill2_shape (hour d) ltac:(lia)) as HH.
  pose proof (zfill2_shape (minute d) ltac:(lia)) as HM.
  pose proof (zfill2_shape (second d) ltac:(lia)) as HS.
  unfold isoformat, wire_text. rewrite Hoff, Hus, Hi, Hw.
  explode_digits. reflexivity.
Qed.

(* ===================================================================== *)
(** ** Update protocol *)
(* ===================================================================== *)

Section UpdateFacts.

Context {W : Type}.
Variable opener_open : request -> W -> res json * W.
Variable repr_container : json -> string.

Lemma update_transmits (md : MinuteDock.t) (e : Entry.t) (body : gmap string json)
    (n : net W) :
  Entry.new_raw e = Ret body ->
  transmits (Entry.update opener_open repr_container md e) n body.
Proof.
  intros Hb. unfold transmits, Entry.update.
  unfold mbind, io_bind, lift. rewrite Hb.
  unfold MinuteDock._do_put, mbind, io_bind, MinuteDock.send.
  destruct (opener_open _ (world n)) as [[r|x] w']; simpl;
    (eexists; split; [reflexivity|]; split; [reflexivity|]);
    unfold entry_payload; simpl; by rewrite lookup_singleton_eq.
Qed.

Lemma new_raw_lookup (e : Entry.t) (body : gmap string json) (k : string) :
  Entry.new_raw e = Ret body ->
  exists m, Entry.raw e = JObj m /\
    body !! k =
      if decide (k = "logged_at") then Some (JStr (strftime (Entry.date e)))
      else if decide (k = "description") then Some (Entry.description e)
      else if decide (k = "project_id") then Some (Entry.project_id e)
      else if decide (k = "contact_id") then Some (Entry.contact_id e)
      else if decide (k = "user_id") then Some (Entry.user_id e)
      else m !! k.
Proof.
  unfold Entry.new_raw. destruct (Entry.raw e) as [| | | | |m]; try discriminate.
  intros [= <-]. exists m. split; [reflexivity|].
  rewrite !lookup_insert. repeat case_decide; congruence.
Qed.

Lemma client_writable_spec (k : string) :
  k ∈ client_writable <->
  k = "user_id" \/ k = "contact_id" \/ k = "project_id" \/ k = "description"
  \/ k = "logged_at".
Proof.
  unfold client_writable. rewrite !elem_of_cons, elem_of_nil. tauto.
Qed.

Lemma new_raw_Ret (e : Entry.t) (m : gmap string json) :
  Entry.raw e = JObj m -> exists body, Entry.new_raw e = Ret body.
Proof. intros H. unfold Entry.new_raw. rewrite H. eauto. Qed.

End UpdateFacts.

Lemma Entry_init_inv (raw : json) (e : Entry.t) :
  Entry.init raw = Ret e ->
  exists (m : gmap string json) (s : string),
    raw = JObj m /\ Entry.raw e = JObj m /\
    m !! "id" = Some (Entry.entry_id e) /\
    m !! "user_id" = Some (Entry.user_id e) /\
    m !! "contact_id" = Some (Entry.contact_id e) /\
    m !! "project_id" = Some (Entry.project_id e) /\
    m !! "duration" = Some (Entry.duration e) /\
    m !! "description" = Some (Entry.description e) /\
    m !! "timer_active" = Some (Entry.timer_active e) /\
    m !! "logged_at" = Some (JStr s) /\
    strptime (Str.until_last 3 s +:+ Str.last 2 s) = Ret (Entry.date e).
Proof.
  unfold Entry.init. intros H.
  repeat (apply bind_Ret in H as (? & ?Hget & H)).
  injection H as <-. simpl.
  repeat match goal with
         | Hg : getitem _ _ = Ret _ |- _ => apply getitem_Ret in Hg as (? & ? & ?)
         end.
  simplify_eq.
  match goal with
  | Hp : Entry.parse_logged_at ?v = Ret _ |- _ =>
      destruct v; simpl in Hp; try discriminate
  end.
  eauto 20.
Qed.


Section UpdateClaims.

Context {W : Type}.
Variable opener_open : request -> W -> res json * W.
Variable repr_container : json -> string.

Local Abbreviation update := (Entry.update opener_open repr_container).

(** C2. The payload [update] transmits agrees with the entry's raw record
    on every key other than the five client-writable ones; those five
    carry the entry's current attributes ([logged_at] as the formatted
    [date]); in particular [timer_active] is the raw record's. *)
Theorem update_payload_frame (md : MinuteDock.t) (e : Entry.t)
    (m : gmap string json) (n : net W) :
  Entry.raw e = JObj m ->
  exists body,
    transmits (update md e) n body /\
    (forall k, k ∉ client_writable -> body !! k = m !! k) /\
    body !! "user_id" = Some (Entry.user_id e) /\
    body !! "contact_id" = Some (Entry.contact_id e) /\
    body !! "project_id" = Some (Entry.project_id e) /\
    body !! "description" = Some (Entry.description e) /\
    body !! "logged_at" = Some (JStr (strftime (Entry.date e))) /\
    body !! "timer_active" = m !! "timer_active".
Proof.
  intros Hraw. destruct (new_raw_Ret e m Hraw) as [body Hb].
  exists body. split; [by apply update_transmits|].
  assert (Hk : forall k, body !! k =
      if decide (k = "logged_at") then Some (JStr (strftime (Entry.date e)))
      else if decide (k = "description") then Some (Entry.description e)
      else if decide (k = "project_id") then Some (Entry.project_id e)
      else if decide (k = "contact_id") then Some (Entry.contact_id e)
      else if decide (k = "user_id") then Some (Entry.user_id e)
      else m !! k).
  { intros k. destruct (new_raw_lookup e body k Hb) as (m' & Hm' & ->).
    rewrite Hraw in Hm'. by injection Hm' as ->. }
  split.
  - intros k Hnot. rewrite Hk. rewrite client_writable_spec in Hnot.
    repeat case_decide; subst; tauto.
  - repeat split; rewrite Hk; reflexivity.
Qed.

(** C10. [update] never reads the [duration] attribute: after
    [e.duration = v] it does exactly what it does without the assignment,
    and the [duration] it transmits is the raw record's. *)
Theorem update_ignores_duration (md : MinuteDock.t) (e : Entry.t)
    (m : gmap string json) (v : json) (n : net W) :
  Entry.raw e = JObj m ->
  update md (Entry.set_duration v e) n = update md e n /\
  exists body,
    transmits (update md (Entry.set_duration v e)) n body /\
    body !! "duration" = m !! "duration".
Proof.
  intros Hraw. split; [reflexivity|].
  destruct (update_payload_frame md (Entry.set_duration v e) m n Hraw)
    as (body & Ht & Hframe & _).
  exists body. split; [exact Ht|].
  apply Hframe. rewrite client_writable_spec.
  intros [|[|[|[|]]]]; discriminate.
Qed.

(** C8, as amended. For an entry built by [Entry.__init__], the payload
    [update] transmits does carry [timer_active], always with the value of
    the raw record: what the [timer_active] attribute holds at the time of
    the call is never what is sent. *)
Theorem update_sends_raw_timer_active (md : MinuteDock.t) (raw : json)
    (e : Entry.t) (v : json) (n : net W) :
  Entry.init raw = Ret e ->
  exists (m : gmap string json) (ta : json) (body : gmap string json),
    raw = JObj m /\ m !! "timer_active" = Some ta /\
    transmits (update md (Entry.set_timer_active v e)) n body /\
    body !! "timer_active" = Some ta.
Proof.
  intros Hinit.
  apply Entry_init_inv in Hinit
    as (m & s & -> & Hraw & _ & _ & _ & _ & _ & _ & Hta & _).
  destruct (update_payload_frame md (Entry.set_timer_active v e) m n Hraw)
    as (body & Ht & _ & _ & _ & _ & _ & _ & Hbody).
  exists m, (Entry.timer_active e), body.
  rewrite Hbody. done.
Qed.


End UpdateClaims.

Lemma update_payload_frame_witness :
  exists body,
    transmits (Entry.update Sample.quiet Sample.no_repr Sample.md (Sample.entry 41 JNull))
      (Sample.start tt) body /\
    (forall k, k ∉ client_writable -> body !! k = Sample.raw_entry 41 JNull !! k) /\
    body !! "user_id" = Some (JInt 7) /\
    body !! "contact_id" = Some (JInt 3) /\
    body !! "project_id" = Some JNull /\
    body !! "description" = Some (JStr "review") /\
    body !! "logged_at" = Some (JStr "2012-07-01T10:00:00+1200") /\
    body !! "timer_active" = Some (JBool false).
Proof.
  exact (update_payload_frame Sample.quiet Sample.no_repr Sample.md
           (Sample.entry 41 JNull) (Sample.raw_entry 41 JNull) (Sample.start tt)
           eq_refl).
Defined.

Lemma update_ignores_duration_witness :
  let e := Sample.entry 41 JNull in
  Entry.update Sample.quiet Sample.no_repr Sample.md (Entry.set_duration (JInt 60) e)
    (Sample.start tt)
  = Entry.update Sample.quiet Sample.no_repr Sample.md e (Sample.start tt) /\
  exists body,
    transmits (Entry.update Sample.quiet Sample.no_repr Sample.md
                 (Entry.set_duration (JInt 60) e)) (Sample.start tt) body /\
    body !! "duration" = Some (JInt 5400).
Proof.
  exact (update_ignores_duration Sample.quiet Sample.no_repr Sample.md
           (Sample.entry 41 JNull) (Sample.raw_entry 41 JNull) (JInt 60)
           (Sample.start tt) eq_refl).
Defined.

(** C8, as stated, fails: the entry built from the sample record is sent
    with its [timer_active]. *)
Lemma timer_active_is_sent :
  Entry.init (JObj (Sample.raw_entry 41 JNull)) = Ret (Sample.entry 41 JNull) /\
  ~ (forall body,
       transmits (Entry.update Sample.quiet Sample.no_repr Sample.md
                    (Sample.entry 41 JNull)) (Sample.start tt) body ->
       body !! "timer_active" = None).
Proof.
  split; [vm_compute; reflexivity|].
  intros H.
  destruct (update_payload_frame Sample.quiet Sample.no_repr Sample.md
              (Sample.entry 41 JNull) (Sample.raw_entry 41 JNull) (Sample.start tt)
              eq_refl) as (body & Ht & _ & _ & _ & _ & _ & _ & Hta).
  specialize (H body Ht). rewrite H in Hta. vm_compute in Hta. discriminate.
Qed.

Lemma update_sends_raw_timer_active_witness :
  exists (m : gmap string json) (ta : json) (body : gmap string json),
    JObj (Sample.raw_entry 41 JNull) = JObj m /\ m !! "timer_active" = Some ta /\
    transmits (Entry.update Sample.quiet Sample.no_repr Sample.md
                 (Entry.set_timer_active (JBool true) (Sample.entry 41 JNull)))
      (Sample.start tt) body /\
    body !! "timer_active" = Some ta.
Proof.
  apply (update_sends_raw_timer_active Sample.quiet Sample.no_repr Sample.md
           (JObj (Sample.raw_entry 41 JNull)) (Sample.entry 41 JNull) (JBool true)
           (Sample.start tt)).
  vm_compute. reflexivity.
Defined.



(* ===================================================================== *)
(** ** Search protocol *)
(* ===================================================================== *)

Lemma qset_qset (k v v' : string) (d : qdict) : qset k v (qset k v' d) = qset k v d.
Proof.
  induction d as [|[k0 v0] d IH]; simpl.
  - by rewrite String.eqb_refl.
  - destruct (String.eqb k0 k) eqn:E; simpl.
    + by rewrite String.eqb_refl.
    + by rewrite E, IH.
Qed.

Lemma qset_swap (k1 k2 v w v' : string) (d : qdict) :
  k1 ≠ k2 -> qset k1 v (qset k2 w (qset k1 v' d)) = qset k2 w (qset k1 v d).
Proof.
  intros Hne.
  assert (E12 : String.eqb k1 k2 = false) by (by apply String.eqb_neq).
  assert (E21 : String.eqb k2 k1 = false) by (apply String.eqb_neq; congruence).
  induction d as [|[k0 v0] d IH].
  - simpl. rewrite E12. simpl. rewrite String.eqb_refl. reflexivity.
  - simpl. destruct (String.eqb k0 k1) eqn:E1.
    + apply String.eqb_eq in E1 as ->. simpl. rewrite E12. simpl.
      rewrite String.eqb_refl. reflexivity.
    + simpl. destruct (String.eqb k0 k2) eqn:E2; simpl.
      * rewrite E21, qset_qset. reflexivity.
      * rewrite E1, IH. reflexivity.
Qed.

Lemma qget_qset (k k' v : string) (d : qdict) :
  qget k' (qset k v d) = if String.eqb k k' then Some v else qget k' d.
Proof.
  induction d as [|[k0 v0] d IH]; simpl.
  - reflexivity.
  - destruct (String.eqb k0 k) eqn:E; simpl.
    + apply String.eqb_eq in E as ->. by destruct (String.eqb k k').
    + rewrite IH. destruct (String.eqb k0 k') eqn:E'; [|reflexivity].
      apply String.eqb_eq in E' as ->. by rewrite String.eqb_sym, E.
Qed.

(** The dictionary after an iteration asks for the same URLs as the one
    before the loop. *)
Lemma search_request_again (key : string) (sd : qdict) (o o' : Z) :
  search_request key (qset "api_key" key (qset "offset" (Str.of_Z o) sd)) o'
  = search_request key sd o'.
Proof.
  unfold search_request. do 2 f_equal.
  rewrite (qset_swap "offset" "api_key") by discriminate.
  by rewrite qset_qset.
Qed.

Lemma all_digits_uint (d : Decimal.uint) :
  Str.all_digits (NilEmpty.string_of_uint d) = true.
Proof. induction d; simpl; auto. Qed.

Lemma is_numeral_uint (d : Decimal.uint) :
  d <> Decimal.Nil ->
  Str.is_numeral (NilEmpty.string_of_uint d) = true /\
  exists c s, NilEmpty.string_of_uint d = String c s /\ Str.is_digit c = true.
Proof.
  intros Hd. pose proof (all_digits_uint d) as H.
  destruct d; try done; simpl in *; (split; [exact H | eauto]).
Qed.

Lemma is_numeral_of_Z (n : Z) : Str.is_numeral (Str.of_Z n) = true.
Proof.
  unfold Str.of_Z. destruct n as [|p|p]; [reflexivity| |]; simpl.
  - pose proof (Unsigned.to_uint_nonnil p) as Hp.
    unfold NilZero.string_of_uint.
    destruct (Pos.to_uint p) eqn:E; try done; rewrite <- E in *;
      by apply is_numeral_uint.
  - pose proof (Unsigned.to_uint_nonnil p) as Hp.
    unfold NilZero.string_of_uint.
    destruct (is_numeral_uint (Pos.to_uint p) Hp) as (_ & c & s & Hs & Hc).
    pose proof (all_digits_uint (Pos.to_uint p)) as Ha.
    destruct (Pos.to_uint p) eqn:E; try done; rewrite <- E in *;
      rewrite Hs in *; simpl in *; exact Ha.
Qed.

Section SearchFacts.
Context {W : Type}.
Variable opener_open : request -> W -> res json * W.
Variable repr_container : json -> string.

Local Abbreviation fetch_pages := (Search.fetch_pages opener_open).
Local Abbreviation entries_search := (Search.entries_search opener_open repr_container).

Lemma fetch_pages_step (fuel : nat) (key : string) (entries : list json) (offset : Z)
    (sd : qdict) (n : net W) :
  fetch_pages (S fuel) key entries offset sd n =
  let rq := search_request key sd offset in
  let (r, w') := opener_open rq (world n) in
  let n' := mk_net w' (log n ++ [rq]) in
  match r with
  | Raise e => Some (Raise e, n')
  | Ret v =>
      match py_len v with
      | Raise e => Some (Raise e, n')
      | Ret O => Some (Ret entries, n')
      | Ret (S l) =>
          match py_iter v with
          | Raise e => Some (Raise e, n')
          | Ret items =>
              fetch_pages fuel key (entries ++ items) (offset + Z.of_nat (S l))
                (qset "api_key" key (qset "offset" (Str.of_Z offset) sd)) n'
          end
      end
  end.
Proof.
  cbn [Search.fetch_pages]. unfold mbind, pio_bind, run, MinuteDock._do_get, mbind, io_bind,
    MinuteDock.send, lift, mret, io_ret, pio_ret, search_request.
  destruct (opener_open _ (world n)) as [[v|e] w']; [|reflexivity].
  destruct (py_len v) as [[|l]|e]; [reflexivity| |reflexivity].
  cbn [Nat.eqb]. destruct (py_iter v); reflexivity.
Qed.

Lemma entries_search_eq (fuel : nat) (md : MinuteDock.t) (dr : option (date * date))
    (ul cs ps : option (list string)) (n : net W) :
  entries_search fuel md dr ul cs ps n =
  match Search.search_dict repr_container md dr ul cs ps with
  | Raise e => Some (Raise e, n)
  | Ret sd =>
      match fetch_pages fuel (MinuteDock.api_key md) [] 0 sd n with
      | None => None
      | Some (Raise e, n') => Some (Raise e, n')
      | Some (Ret raws, n') =>
          match map_res Entry.init raws with
          | Raise e => Some (Raise e, n')
          | Ret entries =>
              Some (Ret (match ps with
                         | Some [] =>
                             List.filter (fun e => Search.is_None (Entry.project_id e)) entries
                         | _ => entries
                         end), n')
          end
      end
  end.
Proof.
  unfold Search.entries_search, mbind, pio_bind, run, lift, mret, pio_ret.
  destruct (Search.search_dict _ _ _ _ _ _); [|reflexivity].
  destruct (fetch_pages _ _ _ _ _ _) as [[[raws|e] n']|]; reflexivity.
Qed.


(** C3. A search with [projects=[]] returns only entries whose
    [project_id] is [None]. *)
Theorem empty_projects_only_unset (fuel : nat) (md : MinuteDock.t)
    (dr : option (date * date)) (ul cs : option (list string))
    (n n' : net W) (entries : list Entry.t) :
  entries_search fuel md dr ul cs (Some []) n = Some (Ret entries, n') ->
  Forall (fun e => Entry.project_id e = JNull) entries.
Proof.
  rewrite entries_search_eq. intros H.
  repeat case_match; simplify_eq.
  apply Forall_forall. intros e He.
  apply list_elem_of_In, filter_In in He as [_ He].
  by destruct (Entry.project_id e).
Qed.

Lemma encode_ids_cases {E} (index : gmap pykey E) (id_of : E -> json)
    (keys : option (list string)) :
  (exists v, Search.encode_ids repr_container index id_of keys = Ret v /\
             encodes repr_container index id_of keys v) \/
  (exists k, Search.encode_ids repr_container index id_of keys = Raise (KeyError (KStr k)) /\
             index !! KStr k = None /\ unresolved index keys).
Proof.
  destruct keys as [ks|]; [|left; by eexists].
  unfold Search.encode_ids, encodes, unresolved.
  induction ks as [|k ks IH]; simpl.
  - left. eexists. split; [reflexivity|]. exists []. split; [constructor|reflexivity].
  - destruct (index !! KStr k) as [x|] eqn:Hk; simpl.
    + destruct IH as [(v & Hv & xs & Hxs & ->)|(k' & He & Hnone & ks' & k'' & [= <-] & Hin & Hn)].
      * apply bind_Ret in Hv as (ids & Hids & [= Hj]). rewrite Hids. simpl.
        left. eexists. split; [reflexivity|].
        exists (x :: xs). split; [by constructor|].
        assert (ids = py_str repr_container ∘ id_of <$> xs) as ->.
        { clear -Hxs Hids. revert ids Hids.
          induction Hxs as [|k x ks xs Hkx _ IH]; simpl; intros ids Hids.
          - by injection Hids as <-.
          - rewrite Hkx in Hids. simpl in Hids.
            apply bind_Ret in Hids as (ids' & Hids' & [= <-]).
            by rewrite (IH ids' Hids'). }
        reflexivity.
      * right. exists k'.
        destruct (map_res _ ks) eqn:Hm; simpl in He; [discriminate|].
        injection He as ->. split; [reflexivity|]. split; [done|].
        exists (k :: ks), k''. split; [done|]. split; [by right|done].
    + right. exists k. split; [reflexivity|]. split; [done|].
      exists (k :: ks), k. split; [done|]. split; [by left|done].
Qed.

Lemma search_dict_cases (md : MinuteDock.t) (dr : option (date * date))
    (ul cs ps : option (list string)) :
  (exists sd u c p,
     Search.search_dict repr_container md dr ul cs ps = Ret sd /\
     encodes repr_container (MinuteDock.users_by_login md) User.user_id ul u /\
     encodes repr_container (MinuteDock.contacts_by_code md) Contact.contact_id cs c /\
     encodes repr_container (MinuteDock.projects_by_code md) Project.project_id ps p /\
     qget "users" sd = Some u /\ qget "contacts" sd = Some c /\
     qget "projects" sd = Some p) \/
  (exists k,
     Search.search_dict repr_container md dr ul cs ps = Raise (KeyError (KStr k)) /\
     (unresolved (MinuteDock.users_by_login md) ul \/
      unresolved (MinuteDock.contacts_by_code md) cs \/
      unresolved (MinuteDock.projects_by_code md) ps)).
Proof.
  unfold Search.search_dict.
  destruct (encode_ids_cases (MinuteDock.users_by_login md) User.user_id ul)
    as [(u & -> & Hu)|(k & -> & _ & Hk)]; [|right; eauto].
  destruct (encode_ids_cases (MinuteDock.contacts_by_code md) Contact.contact_id cs)
    as [(c & -> & Hc)|(k & -> & _ & Hk)]; [|right; eauto].
  destruct (encode_ids_cases (MinuteDock.projects_by_code md) Project.project_id ps)
    as [(p & -> & Hp)|(k & -> & _ & Hk)]; [|right; eauto 6].
  left. simpl. eexists _, u, c, p. split; [reflexivity|].
  do 3 (split; [assumption|]).
  destruct dr as [[f t]|]; rewrite ?qget_qset; simpl; done.
Qed.

(** C7. When a login, contact code or project code of the call is not
    in its by-natural-key index, the search raises [KeyError] and leaves
    the network state as it found it: no request has been issued. *)
Theorem unknown_key_fails_before_request (fuel : nat) (md : MinuteDock.t)
    (dr : option (date * date)) (ul cs ps : option (list string)) (n : net W) :
  unresolved (MinuteDock.users_by_login md) ul \/
  unresolved (MinuteDock.contacts_by_code md) cs \/
  unresolved (MinuteDock.projects_by_code md) ps ->
  exists k, entries_search fuel md dr ul cs ps n = Some (Raise (KeyError (KStr k)), n).
Proof.
  intros Hun. rewrite entries_search_eq.
  destruct (search_dict_cases md dr ul cs ps)
    as [(sd & u & c & p & _ & Hu & Hc & Hp & _)|(k & -> & _)]; [|eauto].
  exfalso.
  assert (Hno : forall E (index : gmap pykey E) (id_of : E -> json) keys v,
             encodes repr_container index id_of keys v -> ~ unresolved index keys).
  { intros E index id_of keys v He (ks & k & -> & Hin & Hnone).
    destruct He as (xs & Hxs & _).
    apply list_elem_of_lookup in Hin as [i Hi].
    destruct (Forall2_lookup_l _ _ _ _ _ Hxs Hi) as (x & _ & Hx). congruence. }
  destruct Hun as [H|[H|H]]; eapply Hno in H; eauto.
Qed.

End SearchFacts.

Section Pagination.
Context {W : Type}.
Variable opener_open : request -> W -> res json * W.
Variable repr_container : json -> string.

Local Abbreviation fetch_pages := (Search.fetch_pages opener_open).
Local Abbreviation entries_search := (Search.entries_search opener_open repr_container).

Lemma fetch_pages_serves (key : string) (sd0 : qdict) (pages : list (list json)) :
  forall (fuel : nat) (sd : qdict) (entries : list json) (offset : Z) (w w' : W)
         (lg : list request),
    (forall o, search_request key sd o = search_request key sd0 o) ->
    serves opener_open key sd0 offset pages w w' ->
    (length pages < fuel)%nat ->
    fetch_pages fuel key entries offset sd (mk_net w lg)
    = Some (Ret (entries ++ concat pages),
            mk_net w' (lg ++ (search_request key sd0 <$> offsets offset pages))).
Proof.
  induction pages as [|p pages IH]; intros fuel sd entries offset w w' lg Hsd Hserves Hfuel;
    (destruct fuel as [|fuel]; [simpl in Hfuel; lia|]);
    rewrite fetch_pages_step; cbn zeta; cbn [world log]; rewrite Hsd.
  - simpl in Hserves. rewrite Hserves. simpl. by rewrite app_nil_r.
  - destruct Hserves as (Hne & w1 & Hopen & Hrest). rewrite Hopen.
    cbn [py_len py_iter]. destruct p as [|x p]; [done|]. cbn [length].
    rewrite (IH fuel _ _ _ w1 w' _); [..|exact Hrest|simpl in Hfuel; lia].
    + cbn [concat offsets fmap list_fmap]. rewrite <- !app_assoc. reflexivity.
    + intros o. rewrite search_request_again. apply Hsd.
Qed.

Lemma length_concat_sizes (pages : list (list json)) :
  length (concat pages) = foldr Nat.add 0%nat (length <$> pages).
Proof. induction pages as [|p ps IH]; simpl; [done|]. by rewrite length_app, IH. Qed.


Lemma map_res_length {A B} (f : A -> res B) (l : list A) (l' : list B) :
  map_res f l = Ret l' -> length l' = length l.
Proof.
  revert l'. induction l as [|x l IH]; simpl; intros l' H.
  - by injection H as <-.
  - apply bind_Ret in H as (y & _ & H). apply bind_Ret in H as (ys & Hys & [= <-]).
    simpl. by rewrite (IH ys).
Qed.

(** C5. When the remote side answers the successive requests with the
    non-empty [pages] and then an empty page, the loop asks for offset 0,
    then for the number of records received so far, stops at the empty
    page and returns the records of the pages in page order; the search
    returns one entry per record (when every record makes an entry and
    [projects] is not the empty list).  Pages of 50, 50, 0 records give
    100 entries, pages of 50, 50, 50, 0 records give 150. *)
Theorem pagination_concatenates (fuel : nat) (md : MinuteDock.t)
    (dr : option (date * date)) (ul cs ps : option (list string)) (sd : qdict)
    (pages : list (list json)) (w w' : W) (lg : list request) :
  Search.search_dict repr_container md dr ul cs ps = Ret sd ->
  serves opener_open (MinuteDock.api_key md) sd 0 pages w w' ->
  (length pages < fuel)%nat ->
  let n' := mk_net w' (lg ++ (search_request (MinuteDock.api_key md) sd
                                <$> offsets 0 pages)) in
  fetch_pages fuel (MinuteDock.api_key md) [] 0 sd (mk_net w lg)
    = Some (Ret (concat pages), n') /\
  (forall es, map_res Entry.init (concat pages) = Ret es -> ps ≠ Some [] ->
     entries_search fuel md dr ul cs ps (mk_net w lg) = Some (Ret es, n') /\
     length es = length (concat pages)) /\
  (length <$> pages = [50; 50]%nat -> length (concat pages) = 100%nat) /\
  (length <$> pages = [50; 50; 50]%nat -> length (concat pages) = 150%nat).
Proof.
  intros Hsd Hserves Hfuel n'.
  assert (Hloop : fetch_pages fuel (MinuteDock.api_key md) [] 0 sd (mk_net w lg)
                  = Some (Ret (concat pages), n'))
    by (exact (fetch_pages_serves _ sd pages fuel sd [] 0 w w' lg
                 (fun _ => eq_refl) Hserves Hfuel)).
  split; [exact Hloop|]. split; [|split].
  - intros es Hes Hps. split; [|by apply map_res_length in Hes].
    rewrite entries_search_eq, Hsd, Hloop, Hes.
    destruct ps as [[|? ?]|]; done.
  - intros Hsz. rewrite length_concat_sizes, Hsz. reflexivity.
  - intros Hsz. rewrite length_concat_sizes, Hsz. reflexivity.
Qed.

Lemma fetch_pages_requests (key : string) (sd0 : qdict) (fuel : nat) :
  forall (sd : qdict) (entries : list json) (offset : Z) (n n' : net W)
         (r : res (list json)),
    (forall o, search_request key sd o = search_request key sd0 o) ->
    fetch_pages fuel key entries offset sd n = Some (r, n') ->
    exists os, log n' = log n ++ (search_request key sd0 <$> os).
Proof.
  induction fuel as [|fuel IH]; intros sd entries offset n n' r Hsd H; [discriminate|].
  rewrite fetch_pages_step in H. cbn zeta in H. rewrite Hsd in H.
  destruct (opener_open _ (world n)) as [[v|e] w1].
  2: { injection H as <- <-. by exists [offset]. }
  destruct (py_len v) as [[|l]|e].
  1,3: injection H as <- <-; by exists [offset].
  destruct (py_iter v) as [items|e].
  2: { injection H as <- <-. by exists [offset]. }
  apply IH in H as [os Hos].
  - exists (offset :: os). rewrite Hos. cbn [log fmap list_fmap].
    by rewrite <- app_assoc.
  - intros o. rewrite search_request_again. apply Hsd.
Qed.

Lemma encodes_numeric {E} (index : gmap pykey E) (id_of : E -> json)
    (keys : option (list string)) (v : string) :
  numeric_ids id_of index -> encodes repr_container index id_of keys v -> all_or_ids v.
Proof.
  intros Hnum He. destruct keys as [ks|]; [|by left].
  destruct He as (xs & Hxs & ->). right. eexists. split; [|reflexivity].
  apply Forall_fmap, Forall_forall. intros x Hx.
  apply list_elem_of_lookup in Hx as [i Hi].
  destruct (Forall2_lookup_r _ _ _ _ _ Hxs Hi) as (k & _ & Hk).
  destruct (Hnum _ _ Hk) as [n Hn]. simpl. rewrite Hn. apply is_numeral_of_Z.
Qed.

(** C4, as amended. Each of [users], [contacts] and [projects] in the
    query is ["all"] when the argument is omitted and otherwise the
    comma-joined [str] of the ids the given keys resolve to, which for
    [projects=[]] is the empty string; with integer ids in the catalog
    these are ["all"] or comma-joined numerals.  Every request of the
    search carries this query, with [offset] and [api_key] added. *)
Theorem search_query_values (md : MinuteDock.t) (dr : option (date * date))
    (ul cs ps : option (list string)) (sd : qdict) :
  Search.search_dict repr_container md dr ul cs ps = Ret sd ->
  exists u c p,
    qget "users" sd = Some u /\ qget "contacts" sd = Some c /\
    qget "projects" sd = Some p /\
    encodes repr_container (MinuteDock.users_by_login md) User.user_id ul u /\
    encodes repr_container (MinuteDock.contacts_by_code md) Contact.contact_id cs c /\
    encodes repr_container (MinuteDock.projects_by_code md) Project.project_id ps p /\
    (ps = Some [] -> p = "") /\
    (numeric_ids User.user_id (MinuteDock.users_by_login md) -> all_or_ids u) /\
    (numeric_ids Contact.contact_id (MinuteDock.contacts_by_code md) -> all_or_ids c) /\
    (numeric_ids Project.project_id (MinuteDock.projects_by_code md) -> all_or_ids p) /\
    (forall fuel n r n',
       entries_search fuel md dr ul cs ps n = Some (r, n') ->
       exists os, log n' = log n ++ (search_request (MinuteDock.api_key md) sd <$> os)).
Proof.
  intros Hsd.
  destruct (search_dict_cases repr_container md dr ul cs ps)
    as [(sd' & u & c & p & Hsd' & Hu & Hc & Hp & Hgu & Hgc & Hgp)|(k & Hk & _)];
    [|congruence].
  rewrite Hsd in Hsd'. injection Hsd' as <-.
  exists u, c, p. do 6 (split; [assumption|]).
  split. { intros ->. by destruct Hp as (xs & ->%Forall2_nil_inv_l & ->). }
  do 3 (split; [intros ?; by eapply encodes_numeric|]).
  intros fuel n r n' H. rewrite entries_search_eq, Hsd in H.
  destruct (fetch_pages _ _ _ _ _ _) as [[[raws|e] n1]|] eqn:Hf; [| |discriminate].
  - apply fetch_pages_requests with (sd0 := sd) in Hf as [os Hos]; [|done].
    exists os. destruct (map_res Entry.init raws); by injection H as <- <-.
  - apply fetch_pages_requests with (sd0 := sd) in Hf as [os Hos]; [|done].
    exists os. by injection H as <- <-.
Qed.

End Pagination.

Lemma continues_Ret (v : json) :
  continues (Ret v) = true ->
  exists l items, py_len v = Ret (S l) /\ py_iter v = Ret items.
Proof.
  unfold continues. destruct (py_len v) as [[|l]|] eqn:Hl; try discriminate.
  intros _. exists l. destruct v; try discriminate; simpl; eauto.
Qed.

Section Replay.
Variable resp : nat -> res json.

Local Abbreviation fetch_pages := (Search.fetch_pages (replay resp)).

Lemma replay_step_stop (fuel : nat) (key : string) (entries : list json) (offset : Z)
    (sd : qdict) (i : nat) (lg : list request) :
  continues (resp i) = false ->
  fetch_pages (S fuel) key entries offset sd (mk_net i lg) <> None.
Proof.
  intros Hc. rewrite fetch_pages_step. cbn zeta. unfold replay. cbn [world].
  unfold continues in Hc.
  destruct (resp i) as [v|e]; [|done].
  destruct (py_len v) as [[|l]|e]; done.
Qed.

Lemma replay_step_go (key : string) (entries : list json) (offset : Z)
    (sd : qdict) (i : nat) (lg : list request) :
  continues (resp i) = true ->
  exists entries' offset' sd' lg', forall fuel,
    fetch_pages (S fuel) key entries offset sd (mk_net i lg)
    = fetch_pages fuel key entries' offset' sd' (mk_net (S i) lg').
Proof.
  intros Hc. destruct (resp i) as [v|e] eqn:Hr; [|discriminate].
  destruct (continues_Ret v Hc) as (l & items & Hl & Hi).
  eexists _, _, _, _. intros fuel.
  rewrite fetch_pages_step. cbn zeta. unfold replay. cbn [world].
  rewrite Hr, Hl, Hi. reflexivity.
Qed.

Lemma replay_goes_on (fuel : nat) :
  forall (key : string) (entries : list json) (offset : Z) (sd : qdict) (i : nat)
         (lg : list request),
    (forall j, (i <= j)%nat -> continues (resp j) = true) ->
    fetch_pages fuel key entries offset sd (mk_net i lg) = None.
Proof.
  induction fuel as [|fuel IH]; intros key entries offset sd i lg Hall; [reflexivity|].
  destruct (replay_step_go key entries offset sd i lg (Hall i (le_n i)))
    as (entries' & offset' & sd' & lg' & ->).
  apply IH. intros j Hj. apply Hall. lia.
Qed.

Lemma replay_stops (j : nat) :
  forall (key : string) (entries : list json) (offset : Z) (sd : qdict) (i : nat)
         (lg : list request),
    (i <= j)%nat -> continues (resp j) = false ->
    fetch_pages (S (j - i)) key entries offset sd (mk_net i lg) <> None.
Proof.
  intros key entries offset sd i lg Hij Hj.
  remember (j - i)%nat as d eqn:Hd.
  revert entries offset sd i lg Hij Hd.
  induction d as [|d IH]; intros entries offset sd i lg Hij Hd.
  - assert (i = j) as -> by lia. by apply replay_step_stop.
  - destruct (continues (resp i)) eqn:Hc; [|by apply replay_step_stop].
    destruct (replay_step_go key entries offset sd i lg Hc)
      as (entries' & offset' & sd' & lg' & ->).
    apply IH; lia.
Qed.

Lemma replay_ends (fuel : nat) :
  forall (key : string) (entries : list json) (offset : Z) (sd : qdict) (i : nat)
         (lg : list request),
    fetch_pages fuel key entries offset sd (mk_net i lg) <> None ->
    exists j, (i <= j)%nat /\ continues (resp j) = false.
Proof.
  induction fuel as [|fuel IH]; intros key entries offset sd i lg H; [done|].
  destruct (continues (resp i)) eqn:Hc; [|by exists i].
  destruct (replay_step_go key entries offset sd i lg Hc)
    as (entries' & offset' & sd' & lg' & Hgo).
  rewrite Hgo in H. apply IH in H as (j & Hj & Hcj). exists j. split; [lia|done].
Qed.

(** C6, as amended. On a sequence of transport responses the pagination
    loop ends exactly when the sequence has, from the current request on,
    a response that is not a non-empty page (an empty page, or a failure);
    on a sequence of non-empty pages only it never ends. *)
Theorem pagination_ends_iff (key : string) (entries : list json) (offset : Z)
    (sd : qdict) (i : nat) (lg : list request) :
  (exists fuel, fetch_pages fuel key entries offset sd (mk_net i lg) <> None)
  <-> (exists j, (i <= j)%nat /\ continues (resp j) = false).
Proof.
  split.
  - intros [fuel H]. by apply replay_ends in H.
  - intros (j & Hij & Hj). exists (S (j - i)). by apply replay_stops.
Qed.

End Replay.

(* ===================================================================== *)
(** ** Catalog indexes *)
(* ===================================================================== *)

Lemma io_bind_Ret {W A B} (m : io W A) (f : A -> io W B) (n n' : net W) (b : B) :
  (m ≫= f) n = (Ret b, n') -> exists a n1, m n = (Ret a, n1) /\ f a n1 = (Ret b, n').
Proof.
  unfold mbind, io_bind. destruct (m n) as [[a|e] n1]; [eauto|discriminate].
Qed.

Lemma lift_Ret {W A} (r : res A) (n n' : net W) (a : A) :
  lift r n = (Ret a, n') -> r = Ret a /\ n' = n.
Proof. unfold lift. by intros [= -> ->]. Qed.

Section List2dict.
Context {A : Type}.
Variable attr : A -> json.

Lemma dict_of_spec (lst : list A) :
  forall (acc idx : gmap pykey A),
    dict_of attr lst acc = Ret idx ->
    forall k x,
      idx !! k = Some x <->
      last_with_key attr lst k x \/
      (acc !! k = Some x /\ forall j y, lst !! j = Some y -> key_of (attr y) <> Ret k).
Proof.
  induction lst as [|a lst IH]; intros acc idx H k x.
  - injection H as <-. split.
    + intros Hx. right. split; [done|]. intros j y Hy. by rewrite lookup_nil in Hy.
    + intros [(i & Hi & _)|[Hx _]]; [by rewrite lookup_nil in Hi | done].
  - simpl in H. apply bind_Ret in H as (ka & Hka & H).
    rewrite (IH _ _ H k x). clear IH H. unfold last_with_key. split.
    + intros [(i & Hi & Hk & Hlast)|[Hacc Hnone]].
      * left. exists (S i). split; [done|]. split; [done|].
        intros [|j] y Hj Hy; [lia|]. apply (Hlast j); [lia|done].
      * destruct (decide (ka = k)) as [->|Hne].
        -- rewrite lookup_insert_eq in Hacc. injection Hacc as ->.
           left. exists 0%nat. split; [done|]. split; [done|].
           intros [|j] y Hj Hy; [lia|]. by apply (Hnone j).
        -- rewrite lookup_insert_ne in Hacc by done.
           right. split; [done|]. intros [|j] y Hy.
           ++ injection Hy as <-. congruence.
           ++ by apply (Hnone j).
    + intros [(i & Hi & Hk & Hlast)|[Hacc Hnone]].
      * destruct i as [|i].
        -- injection Hi as ->. right. split.
           ++ rewrite Hk in Hka. injection Hka as ->. by rewrite lookup_insert_eq.
           ++ intros j y Hy. apply (Hlast (S j)); [lia|done].
        -- left. exists i. split; [done|]. split; [done|].
           intros j y Hj Hy. apply (Hlast (S j)); [lia|done].
      * right. split.
        -- rewrite lookup_insert_ne; [done|]. intros ->. by apply (Hnone 0%nat a).
        -- intros j y Hy. by apply (Hnone (S j)).
Qed.

Lemma list2dict_spec (lst : list A) (idx : gmap pykey A) (k : pykey) (x : A) :
  list2dict lst attr = Ret idx -> (idx !! k = Some x <-> last_with_key attr lst k x).
Proof.
  intros H. rewrite (dict_of_spec lst ∅ idx H k x). split; [|by left].
  intros [?|[Hx _]]; [done|]. by rewrite lookup_empty in Hx.
Qed.

Lemma dict_of_hashable (lst : list A) :
  forall (acc idx : gmap pykey A),
    dict_of attr lst acc = Ret idx ->
    forall x, x ∈ lst -> exists k, key_of (attr x) = Ret k.
Proof.
  induction lst as [|a lst IH]; intros acc idx H x Hx; [by apply elem_of_nil in Hx|].
  simpl in H. apply bind_Ret in H as (ka & Hka & H).
  apply elem_of_cons in Hx as [->|Hx]; [eauto|]. by eapply IH.
Qed.

Lemma list2dict_one_slot (lst : list A) (idx : gmap pykey A) :
  list2dict lst attr = Ret idx -> distinct_keys attr lst ->
  forall x, x ∈ lst -> in_one_slot idx x.
Proof.
  intros H Hdist x Hx.
  destruct (dict_of_hashable lst ∅ idx H x Hx) as [k Hk].
  apply list_elem_of_lookup in Hx as [i Hi].
  exists k. split.
  - apply (list2dict_spec lst idx k x H). exists i. split; [done|]. split; [done|].
    intros j y Hj Hy Hky. assert (i = j); [|lia].
    apply (Hdist i j x y Hi Hy). congruence.
  - intros k' Hk'. apply (list2dict_spec lst idx k' x H) in Hk' as (_ & _ & Hk' & _).
    congruence.
Qed.

End List2dict.

Section Bootstrap.
Context {W : Type}.
Variable opener_open : request -> W -> res json * W.

Lemma init_indexes (key : string) (n n' : net W) (md : MinuteDock.t) :
  MinuteDock.init opener_open key n = (Ret md, n') ->
  list2dict (MinuteDock.users md) User.user_id = Ret (MinuteDock.users_by_id md) /\
  list2dict (MinuteDock.users md) (fun u => JStr (User.login u))
    = Ret (MinuteDock.users_by_login md) /\
  list2dict (MinuteDock.contacts md) Contact.contact_id
    = Ret (MinuteDock.contacts_by_id md) /\
  list2dict (MinuteDock.contacts md) Contact.short_code
    = Ret (MinuteDock.contacts_by_code md) /\
  list2dict (MinuteDock.projects md) Project.project_id
    = Ret (MinuteDock.projects_by_id md) /\
  list2dict (MinuteDock.projects md) Project.short_code
    = Ret (MinuteDock.projects_by_code md).
Proof.
  unfold MinuteDock.init. intros H.
  repeat match type of H with
         | (_ ≫= _) _ = _ =>
             let Hm := fresh "Hm" in
             apply io_bind_Ret in H as (? & ? & Hm & H);
             try (apply lift_Ret in Hm as [Hm ?]; subst)
         end.
  injection H as <- _. simpl. repeat split; assumption.
Qed.

(** C9, as amended. After the bootstrap, when no two fetched records of
    one kind have equal ids or equal natural keys, every catalog entity is
    in exactly one slot of its by-id index and in exactly one slot of its
    by-natural-key index. *)
Theorem bootstrap_indexes_catalog (key : string) (n n' : net W) (md : MinuteDock.t) :
  MinuteDock.init opener_open key n = (Ret md, n') ->
  catalog_keys_distinct md ->
  catalog_indexed md.
Proof.
  intros Hinit (Hu1 & Hu2 & Hc1 & Hc2 & Hp1 & Hp2).
  destruct (init_indexes key n n' md Hinit) as (Iu1 & Iu2 & Ic1 & Ic2 & Ip1 & Ip2).
  unfold catalog_indexed.
  split; [|split]; intros x Hx; split; eapply list2dict_one_slot; eauto.
Qed.

End Bootstrap.

Lemma colliding_logins_drop_a_user :
  exists n',
    MinuteDock.init Sample.scripted "KEY" (Sample.start Sample.two_anns)
    = (Ret Sample.collided, n') /\
    Sample.ann ∈ MinuteDock.users Sample.collided /\
    (forall k, MinuteDock.users_by_login Sample.collided !! k <> Some Sample.ann) /\
    ~ catalog_indexed Sample.collided.
Proof.
  eexists. split; [vm_compute; reflexivity|].
  assert (Hin : Sample.ann ∈ MinuteDock.users Sample.collided) by (simpl; left).
  assert (Hno : forall k, MinuteDock.users_by_login Sample.collided !! k <> Some Sample.ann).
  { intros k Hk. simpl in Hk. apply lookup_singleton_Some in Hk as [_ Hk].
    discriminate. }
  split; [exact Hin|]. split; [exact Hno|].
  intros (Hu & _). destruct (Hu _ Hin) as [_ (k & Hk & _)]. by apply (Hno k).
Qed.

Lemma account_keys_distinct : catalog_keys_distinct Sample.catalog.
Proof.
  repeat split; intros i j x y Hi Hj Hk; simpl in Hi, Hj;
    repeat (destruct i as [|i]; simpl in Hi; try discriminate);
    repeat (destruct j as [|j]; simpl in Hj; try discriminate);
    simplify_eq; try reflexivity; vm_compute in Hk; discriminate.
Qed.

Lemma bootstrap_indexes_catalog_witness : catalog_indexed Sample.catalog.
Proof.
  exact (bootstrap_indexes_catalog Sample.scripted "KEY" (Sample.start Sample.account) _
           Sample.catalog bootstrap_account account_keys_distinct).
Defined.

(* ===================================================================== *)
(** ** The search claims on the sample account *)
(* ===================================================================== *)

Lemma empty_projects_only_unset_witness :
  Forall (fun e => Entry.project_id e = JNull)
    [Sample.entry 41 JNull; Sample.entry 43 JNull].
Proof.
  exact (empty_projects_only_unset Sample.scripted Sample.no_repr 5 Sample.catalog
           _ _ _ _ _ _ search_two_pages).
Defined.

Lemma unknown_key_fails_before_request_witness :
  exists k,
    Search.entries_search Sample.scripted Sample.no_repr 5 Sample.catalog None
      (Some ["ann"; "unknownuser"]) None None (Sample.start [])
    = Some (Raise (KeyError (KStr k)), Sample.start []).
Proof.
  apply unknown_key_fails_before_request. left.
  exists ["ann"; "unknownuser"], "unknownuser".
  split; [reflexivity|]. split; [|vm_compute; reflexivity].
  apply elem_of_cons. right. apply elem_of_cons. by left.
Defined.

(** C4, as stated, fails: with [projects=[]] the query carries an empty
    [projects] value, not ["all"]. *)
Lemma empty_projects_query_not_all :
  Search.search_dict Sample.no_repr Sample.catalog None None None (Some [])
  = Ret [("users", "all"); ("contacts", "all"); ("projects", "")] /\
  Search.entries_search Sample.scripted Sample.no_repr 5 Sample.catalog None None None
    (Some []) (Sample.start [])
  = Some (Ret [],
          mk_net []
            [mk_request "GET"
               "https://minutedock.com/api/v1/entries.json?users=all&contacts=all&projects=&offset=0&api_key=KEY"
               None None]) /\
  ~ (exists sd,
       Search.search_dict Sample.no_repr Sample.catalog None None None (Some []) = Ret sd /\
       qget "projects" sd = Some "all").
Proof.
  split; [vm_compute; reflexivity|]. split; [vm_compute; reflexivity|].
  intros (sd & Hsd & Hall). vm_compute in Hsd. injection Hsd as <-.
  vm_compute in Hall. discriminate.
Qed.

Lemma search_query_values_witness :
  let md := Sample.catalog in
  let sd := [("users", "8,7"); ("contacts", "all"); ("projects", "")] in
  exists u c p,
    qget "users" sd = Some u /\ qget "contacts" sd = Some c /\
    qget "projects" sd = Some p /\
    encodes Sample.no_repr (MinuteDock.users_by_login md) User.user_id
      (Some ["bob"; "ann"]) u /\
    encodes Sample.no_repr (MinuteDock.contacts_by_code md) Contact.contact_id None c /\
    encodes Sample.no_repr (MinuteDock.projects_by_code md) Project.project_id (Some []) p /\
    (Some [] = Some (@nil string) -> p = "") /\
    (numeric_ids User.user_id (MinuteDock.users_by_login md) -> all_or_ids u) /\
    (numeric_ids Contact.contact_id (MinuteDock.contacts_by_code md) -> all_or_ids c) /\
    (numeric_ids Project.project_id (MinuteDock.projects_by_code md) -> all_or_ids p) /\
    (forall fuel n r n',
       Search.entries_search Sample.scripted Sample.no_repr fuel md None
         (Some ["bob"; "ann"]) None (Some []) n = Some (r, n') ->
       exists os, log n' = log n ++ (search_request (MinuteDock.api_key md) sd <$> os)).
Proof.
  apply (search_query_values Sample.scripted Sample.no_repr Sample.catalog None
           (Some ["bob"; "ann"]) None (Some [])).
  vm_compute. reflexivity.
Defined.

Lemma pagination_concatenates_witness :
  let md := Sample.catalog in
  let sd := [("users", "all"); ("contacts", "all"); ("projects", "all")] in
  let pages := [Sample.page 1 50 JNull; Sample.page 51 50 (JInt 9)] in
  let n' := mk_net [] (search_request "KEY" sd <$> [0; 50; 100]) in
  Search.fetch_pages Sample.scripted 3 "KEY" [] 0 sd (Sample.start (JArr <$> pages))
    = Some (Ret (concat pages), n') /\
  (forall es, map_res Entry.init (concat pages) = Ret es -> None ≠ Some (@nil string) ->
     Search.entries_search Sample.scripted Sample.no_repr 3 md None None None None
       (Sample.start (JArr <$> pages)) = Some (Ret es, n') /\
     length es = length (concat pages)) /\
  (length <$> pages = [50; 50]%nat -> length (concat pages) = 100%nat) /\
  (length <$> pages = [50; 50; 50]%nat -> length (concat pages) = 150%nat).
Proof.
  apply (pagination_concatenates Sample.scripted Sample.no_repr 3 Sample.catalog
           None None None None
           [("users", "all"); ("contacts", "all"); ("projects", "all")]
           [Sample.page 1 50 JNull; Sample.page 51 50 (JInt 9)]
           (JArr <$> [Sample.page 1 50 JNull; Sample.page 51 50 (JInt 9)]) [] []).
  - vm_compute. reflexivity.
  - simpl. split; [intros H; vm_compute in H; discriminate|].
    eexists. split; [reflexivity|].
    split; [intros H; vm_compute in H; discriminate|].
    eexists. split; [reflexivity|]. reflexivity.
  - simpl. lia.
Defined.

(** C6, as stated, fails: on the sequence that repeats one non-empty page
    the search never returns, whatever the fuel. *)
Lemma repeated_page_never_ends :
  ~ exists fuel r,
      Search.entries_search Sample.stuck Sample.no_repr fuel Sample.catalog
        None None None None (Sample.start 0%nat) = Some r.
Proof.
  intros (fuel & r & H). rewrite entries_search_eq in H.
  change (Search.search_dict Sample.no_repr Sample.catalog None None None None)
    with (Ret [("users", "all"); ("contacts", "all"); ("projects", "all")]) in H.
  unfold Sample.stuck, Sample.start in H.
  rewrite replay_goes_on in H; [discriminate|].
  intros j _. reflexivity.
Qed.

(* ===================================================================== *)
(** ** Catalog indexes and bootstrap, further properties *)
(* ===================================================================== *)

(* ---- list2dict ---- *)
Section List2dictMore.
Context {A : Type}.
Variable attr : A -> json.

Lemma dict_of_Raise (lst : list A) :
  forall (acc : gmap pykey A) (e : exn),
    dict_of attr lst acc = Raise e ->
    e = TypeError /\ exists x, x ∈ lst /\ key_of (attr x) = Raise TypeError.
Proof.
  induction lst as [|a lst IH]; intros acc e H; [discriminate|].
  simpl in H. destruct (key_of (attr a)) as [k|e'] eqn:Hk; simpl in H.
  - destruct (IH _ _ H) as (-> & x & Hx & Hkx). split; [done|].
    exists x. split; [by right|done].
  - injection H as <-.
    assert (e' = TypeError) as ->
      by (destruct (attr a); simpl in Hk; congruence).
    split; [done|]. exists a. split; [by left|done].
Qed.

Lemma dict_of_size (lst : list A) :
  forall (acc idx : gmap pykey A),
    dict_of attr lst acc = Ret idx -> (size idx <= size acc + length lst)%nat.
Proof.
  induction lst as [|a lst IH]; intros acc idx H.
  - injection H as <-. simpl. lia.
  - simpl in H. apply bind_Ret in H as (k & _ & H). apply IH in H.
    assert (size (<[k:=a]> acc) <= S (size acc))%nat; [|simpl; lia].
    destruct (acc !! k) eqn:Hk.
    + rewrite map_size_insert_Some by done. lia.
    + rewrite map_size_insert_None by done. lia.
Qed.

(** X1. [list2dict] fails exactly when the attribute of some item is a list or
    a dictionary, and then with [TypeError]; otherwise the index has at
    most as many slots as the list has items. *)
Theorem list2dict_outcome (lst : list A) :
  match list2dict lst attr with
  | Ret idx =>
      (forall x, x ∈ lst -> exists k, key_of (attr x) = Ret k) /\
      (size idx <= length lst)%nat
  | Raise e =>
      e = TypeError /\ exists x, x ∈ lst /\ key_of (attr x) = Raise TypeError
  end.
Proof.
  destruct (list2dict lst attr) as [idx|e] eqn:H.
  - split; [by apply (dict_of_hashable attr lst ∅ idx)|].
    apply dict_of_size in H. by rewrite map_size_empty in H.
  - by apply (dict_of_Raise lst ∅).
Qed.

End List2dictMore.

Lemma map_res_lookup {A B} (f : A -> res B) (l : list A) (l' : list B) :
  map_res f l = Ret l' ->
  forall i y, l' !! i = Some y <-> exists x, l !! i = Some x /\ f x = Ret y.
Proof.
  revert l'. induction l as [|a l IH]; simpl; intros l' H i y.
  - injection H as <-. rewrite lookup_nil. split; [done|]. by intros (x & Hx & _).
  - apply bind_Ret in H as (b & Hb & H). apply bind_Ret in H as (bs & Hbs & [= <-]).
    destruct i as [|i]; simpl.
    + split.
      * intros [= <-]. eauto.
      * intros (x & [= <-] & Hx). congruence.
    + apply (IH bs Hbs).
Qed.

Lemma size_list_to_set_le (ks : list pykey) :
  (size (list_to_set ks : gset pykey) <= length ks)%nat.
Proof.
  induction ks as [|k ks IH]; [by rewrite list_to_set_nil, size_empty|].
  rewrite list_to_set_cons. simpl.
  pose proof (size_union_alt ({[k]} : gset pykey) (list_to_set ks)) as Hu.
  pose proof (subseteq_size (list_to_set ks ∖ {[k]} : gset pykey) (list_to_set ks)
                (subseteq_difference_l _ _ _ (reflexivity _))) as Hd.
  rewrite size_singleton in Hu. lia.
Qed.

Lemma size_list_to_set_NoDup (ks : list pykey) :
  size (list_to_set ks : gset pykey) = length ks <-> NoDup ks.
Proof.
  split; [|apply size_list_to_set].
  induction ks as [|k ks IH]; intros H; [constructor|].
  rewrite list_to_set_cons in H. simpl in H.
  pose proof (size_list_to_set_le ks) as Hle.
  destruct (decide (k ∈ ks)) as [Hin|Hnin].
  - exfalso.
    assert (({[k]} ∪ list_to_set ks : gset pykey) = list_to_set ks) as Heq.
    { apply subseteq_union_1_L, singleton_subseteq_l. by apply elem_of_list_to_set. }
    rewrite Heq in H. lia.
  - constructor; [done|]. apply IH.
    rewrite size_union in H by (rewrite disjoint_singleton_l, elem_of_list_to_set; done).
    rewrite size_singleton in H. lia.
Qed.

Section List2dictDom.
Context {A : Type}.
Variable attr : A -> json.

Lemma dict_of_dom (lst : list A) :
  forall (acc idx : gmap pykey A),
    dict_of attr lst acc = Ret idx ->
    exists ks, map_res (fun x => key_of (attr x)) lst = Ret ks /\
               dom idx = dom acc ∪ list_to_set ks.
Proof.
  induction lst as [|a lst IH]; intros acc idx H.
  - injection H as <-. exists []. split; [done|].
    rewrite list_to_set_nil. symmetry. apply (right_id_L ∅ (∪)).
  - simpl in H. apply bind_Ret in H as (k & Hk & H).
    destruct (IH _ _ H) as (ks & Hks & Hdom).
    exists (k :: ks). split; [simpl; by rewrite Hk, Hks|].
    rewrite Hdom, dom_insert_L, list_to_set_cons.
    by rewrite (comm_L _ {[k]} (dom acc)), (assoc_L _).
Qed.

Lemma distinct_keys_NoDup (lst : list A) (ks : list pykey) :
  map_res (fun x => key_of (attr x)) lst = Ret ks ->
  (distinct_keys attr lst <-> NoDup ks).
Proof.
  intros Hks. pose proof (map_res_lookup _ lst ks Hks) as Hl.
  rewrite NoDup_alt. unfold distinct_keys. split.
  - intros Hd i j k Hi Hj.
    apply Hl in Hi as (x & Hx & Hkx). apply Hl in Hj as (y & Hy & Hky).
    apply (Hd i j x y Hx Hy). congruence.
  - intros Hn i j x y Hx Hy Hk.
    destruct (key_of (attr x)) as [k|e] eqn:Hkx.
    + apply (Hn i j k); apply Hl; [by exists x|]. exists y. split; [done|congruence].
    + exfalso.
      assert (exists k, ks !! i = Some k) as [k Hki].
      { apply lookup_lt_is_Some. apply map_res_length in Hks. rewrite Hks.
        by apply lookup_lt_Some in Hx. }
      apply Hl in Hki as (x' & Hx' & Hkx'). congruence.
Qed.

(** X2. When [list2dict] succeeds, the index has one slot per item exactly when
    no two items have equal keys; otherwise it has fewer slots than the
    list has items. *)
Theorem list2dict_size (lst : list A) (idx : gmap pykey A) :
  list2dict lst attr = Ret idx ->
  (size idx <= length lst)%nat /\
  (size idx = length lst <-> distinct_keys attr lst).
Proof.
  intros H. destruct (dict_of_dom lst ∅ idx H) as (ks & Hks & Hdom).
  rewrite dom_empty_L, (left_id_L ∅ (∪)) in Hdom.
  assert (Hsz : size idx = size (list_to_set ks : gset pykey))
    by (by rewrite <- Hdom, size_dom).
  pose proof (map_res_length _ _ _ Hks) as Hlen.
  split.
  - rewrite Hsz, <- Hlen. apply size_list_to_set_le.
  - rewrite (distinct_keys_NoDup lst ks Hks), Hsz, <- Hlen.
    exact (size_list_to_set_NoDup ks).
Qed.

End List2dictDom.

Section BootstrapMore.
Context {W : Type}.
Variable opener_open : request -> W -> res json * W.

(** X3. After the bootstrap every slot of the six indexes holds the last
    fetched entity with that key (a later record with an equal id, login
    or short code replaces an earlier one), and holds nothing else. *)
Theorem bootstrap_last_wins (key : string) (n n' : net W) (md : MinuteDock.t) :
  MinuteDock.init opener_open key n = (Ret md, n') ->
  (forall k u, MinuteDock.users_by_id md !! k = Some u
               <-> last_with_key User.user_id (MinuteDock.users md) k u) /\
  (forall k u, MinuteDock.users_by_login md !! k = Some u
               <-> last_with_key (fun u => JStr (User.login u)) (MinuteDock.users md) k u) /\
  (forall k c, MinuteDock.contacts_by_id md !! k = Some c
               <-> last_with_key Contact.contact_id (MinuteDock.contacts md) k c) /\
  (forall k c, MinuteDock.contacts_by_code md !! k = Some c
               <-> last_with_key Contact.short_code (MinuteDock.contacts md) k c) /\
  (forall k p, MinuteDock.projects_by_id md !! k = Some p
               <-> last_with_key Project.project_id (MinuteDock.projects md) k p) /\
  (forall k p, MinuteDock.projects_by_code md !! k = Some p
               <-> last_with_key Project.short_code (MinuteDock.projects md) k p).
Proof.
  intros Hinit.
  destruct (init_indexes opener_open key n n' md Hinit)
    as (Iu1 & Iu2 & Ic1 & Ic2 & Ip1 & Ip2).
  repeat split; intros H;
    (eapply list2dict_spec in H; [exact H|eassumption])
    || (eapply list2dict_spec; eassumption).
Qed.

Lemma do_get_log (key req : string) (args : option qdict) (n : net W) :
  let rq := mk_request "GET"
              (MinuteDock.url_of req
                 (qset "api_key" key (match args with None => [] | Some a => a end)))
              None None in
  exists r, MinuteDock._do_get opener_open key req args n
            = (r, mk_net (opener_open rq (world n)).2 (log n ++ [rq])) /\
            match (opener_open rq (world n)).1 with
            | Ret v => r = Ret (v, qset "api_key" key
                                     (match args with None => [] | Some a => a end))
            | Raise e => r = Raise e
            end.
Proof.
  cbn zeta. unfold MinuteDock._do_get, mbind, io_bind, MinuteDock.send, mret, io_ret.
  destruct (opener_open _ (world n)) as [[v|e] w']; simpl; eauto.
Qed.

Lemma do_get_grows (key req : string) (n n' : net W) (r : res (json * qdict)) :
  MinuteDock._do_get opener_open key req None n = (r, n') ->
  log n' = log n ++ [mk_request "GET" (MinuteDock.url_of req [("api_key", key)]) None None].
Proof.
  destruct (do_get_log key req None n) as (r' & Heq & _). cbn zeta in Heq.
  rewrite Heq. by intros [= _ <-].
Qed.

Lemma init_issues_gets (key : string) (n : net W) :
  exists k, (1 <= k <= 3)%nat /\
    log (MinuteDock.init opener_open key n).2
      = log n ++ take k (bootstrap_requests key) /\
    (forall md, (MinuteDock.init opener_open key n).1 = Ret md -> k = 3%nat).
Proof.
  destruct (MinuteDock.init opener_open key n) as [r n'] eqn:H. cbn [fst snd].
  unfold MinuteDock.init in H. unfold bootstrap_requests.
  unfold mbind at 1, io_bind at 1 in H.
  destruct (MinuteDock._do_get opener_open key "users.json" None n) as [[us|e] n1] eqn:H1;
    pose proof (do_get_grows _ _ _ _ _ H1) as L1.
  2: { injection H as <- <-. exists 1%nat. rewrite L1.
       split; [lia|split; [reflexivity|intros ? [=]]]. }
  unfold mbind, io_bind, lift in H.
  repeat match type of H with
         | context [match ?x with Ret _ => _ | Raise _ => _ end] =>
             match x with
             | MinuteDock._do_get _ _ _ _ _ => fail 1
             | _ => destruct x as [?|?] eqn:?
             end
         end;
    try (injection H as <- <-; exists 1%nat; rewrite L1;
         split; [lia|split; [reflexivity|intros ? [=]]]).
  destruct (MinuteDock._do_get opener_open key "contacts.json" None n1)
    as [[cs|e] n2] eqn:H2; pose proof (do_get_grows _ _ _ _ _ H2) as L2.
  2: { injection H as <- <-. exists 2%nat. rewrite L2, L1, <- app_assoc.
       split; [lia|split; [reflexivity|intros ? [=]]]. }
  repeat match type of H with
         | context [match ?x with Ret _ => _ | Raise _ => _ end] =>
             match x with
             | MinuteDock._do_get _ _ _ _ _ => fail 1
             | _ => destruct x as [?|?] eqn:?
             end
         end;
    try (injection H as <- <-; exists 2%nat; rewrite L2, L1, <- app_assoc;
         split; [lia|split; [reflexivity|intros ? [=]]]).
  destruct (MinuteDock._do_get opener_open key "projects.json" None n2)
    as [[ps|e] n3] eqn:H3; pose proof (do_get_grows _ _ _ _ _ H3) as L3.
  2: { injection H as <- <-. exists 3%nat. rewrite L3, L2, L1, <- !app_assoc.
       split; [lia|split; [reflexivity|intros ? [=]]]. }
  exists 3%nat.
  repeat match type of H with
         | context [match ?x with Ret _ => _ | Raise _ => _ end] =>
             destruct x as [?|?] eqn:?
         end;
    injection H as <- <-; rewrite L3, L2, L1, <- !app_assoc;
    (split; [lia|split; [reflexivity|done]]).
Qed.

Variable read_key_file : W -> res string * W.
Variable build_opener : W -> res unit * W.
Local Abbreviation construct :=
  (MinuteDock.__init__ opener_open read_key_file build_opener).

(** A constructor that returns has read the key file and built the opener,
    and the rest is [MinuteDock.init] on the stripped key. *)
Lemma construct_Ret (n n' : net W) (md : MinuteDock.t) :
  construct n = (Ret md, n') ->
  exists text w1 w2,
    read_key_file (world n) = (Ret text, w1) /\
    build_opener w1 = (Ret tt, w2) /\
    MinuteDock.init opener_open (Str.strip text) (mk_net w2 (log n)) = (Ret md, n').
Proof.
  unfold MinuteDock.__init__, mbind, io_bind, local.
  destruct (read_key_file (world n)) as [[text|e] w1]; [|discriminate]. cbn [world log].
  destruct (build_opener w1) as [[[]|e] w2] eqn:Hb; [|discriminate].
  intros H. by exists text, w1, w2.
Qed.

(** X4. What [MinuteDock.__init__] issues, whatever its outcome.  When the
    key file cannot be read, or the opener cannot be built, the constructor
    raises that exception and has issued no request.  Otherwise it has
    issued the first one, two or three of the GETs for [users.json],
    [contacts.json] and [projects.json], in this order, each with the
    stripped content of the key file as its only argument, and nothing
    else; a constructor that returns has issued all three. *)
Theorem bootstrap_issues_three_gets (n : net W) :
  match read_key_file (world n) with
  | (Raise e, w) => construct n = (Raise e, mk_net w (log n))
  | (Ret text, w) =>
      match build_opener w with
      | (Raise e, w') => construct n = (Raise e, mk_net w' (log n))
      | (Ret _, w') =>
          exists k, (1 <= k <= 3)%nat /\
            log (construct n).2
              = log n ++ take k (bootstrap_requests (Str.strip text)) /\
            (forall md, (construct n).1 = Ret md -> k = 3%nat)
      end
  end.
Proof.
  unfold MinuteDock.__init__, mbind, io_bind, local.
  destruct (read_key_file (world n)) as [[text|e] w]; [|reflexivity]. cbn [world log].
  destruct (build_opener w) as [[[]|e] w']; [|reflexivity].
  apply (init_issues_gets (Str.strip text) (mk_net w' (log n))).
Qed.

End BootstrapMore.

Lemma map_res_raw {A} (init : json -> res A) (raw : A -> json) (l : list json)
    (xs : list A) :
  (forall r x, init r = Ret x -> raw x = r) ->
  map_res init l = Ret xs -> raw <$> xs = l.
Proof.
  intros Hraw. revert xs. induction l as [|a l IH]; simpl; intros xs H.
  - by injection H as <-.
  - apply bind_Ret in H as (x & Hx & H). apply bind_Ret in H as (ys & Hys & [= <-]).
    csimpl. by rewrite (Hraw _ _ Hx), (IH ys Hys).
Qed.

Lemma User_init_raw (r : json) (u : User.t) : User.init r = Ret u -> User.raw u = r.
Proof.
  unfold User.init. intros H. repeat (apply bind_Ret in H as (? & _ & H)).
  by injection H as <-.
Qed.
Lemma Contact_init_raw (r : json) (c : Contact.t) :
  Contact.init r = Ret c -> Contact.raw c = r.
Proof.
  unfold Contact.init. intros H. repeat (apply bind_Ret in H as (? & _ & H)).
  by injection H as <-.
Qed.
Lemma Project_init_raw (r : json) (p : Project.t) :
  Project.init r = Ret p -> Project.raw p = r.
Proof.
  unfold Project.init. intros H. repeat (apply bind_Ret in H as (? & _ & H)).
  by injection H as <-.
Qed.

Section Fetched.
Context {W : Type}.
Variable opener_open : request -> W -> res json * W.

Lemma do_get_Ret (key req : string) (n n' : net W) (v : json) (a : qdict) :
  MinuteDock._do_get opener_open key req None n = (Ret (v, a), n') ->
  opener_open (mk_request "GET" (MinuteDock.url_of req [("api_key", key)]) None None)
    (world n) = (Ret v, world n').
Proof.
  destruct (do_get_log opener_open key req None n) as (r & Heq & Hr). cbn zeta in *.
  rewrite Heq. intros [= -> <-]. cbn [world].
  destruct (opener_open _ (world n)) as [[v'|e] w']; simpl in *; congruence.
Qed.

(** X5. A bootstrap that succeeds has received three lists and keeps one
    entity per record received, in the order received: the raw records of
    [users], [contacts] and [projects] are the items of the three
    answers. *)
Theorem bootstrap_catalog_is_fetched (key : string) (n n' : net W) (md : MinuteDock.t) :
  MinuteDock.init opener_open key n = (Ret md, n') ->
  exists (vu vc vp : json) (w1 w2 : W),
    opener_open (catalog_request key "users.json") (world n) = (Ret vu, w1) /\
    opener_open (catalog_request key "contacts.json") w1 = (Ret vc, w2) /\
    opener_open (catalog_request key "projects.json") w2 = (Ret vp, world n') /\
    py_iter vu = Ret (User.raw <$> MinuteDock.users md) /\
    py_iter vc = Ret (Contact.raw <$> MinuteDock.contacts md) /\
    py_iter vp = Ret (Project.raw <$> MinuteDock.projects md) /\
    MinuteDock.api_key md = key.
Proof.
  unfold MinuteDock.init. intros H.
  apply io_bind_Ret in H as ([vu au] & n1 & Hget1 & H).
  apply io_bind_Ret in H as (lu & ? & [Hiu ->]%lift_Ret & H).
  apply io_bind_Ret in H as (us & ? & [Hus ->]%lift_Ret & H).
  apply io_bind_Ret in H as (? & ? & [_ ->]%lift_Ret & H).
  apply io_bind_Ret in H as (? & ? & [_ ->]%lift_Ret & H).
  apply io_bind_Ret in H as ([vc ac] & n2 & Hget2 & H).
  apply io_bind_Ret in H as (lc & ? & [Hic ->]%lift_Ret & H).
  apply io_bind_Ret in H as (cs & ? & [Hcs ->]%lift_Ret & H).
  apply io_bind_Ret in H as (? & ? & [_ ->]%lift_Ret & H).
  apply io_bind_Ret in H as (? & ? & [_ ->]%lift_Ret & H).
  apply io_bind_Ret in H as ([vp ap] & n3 & Hget3 & H).
  apply io_bind_Ret in H as (lp & ? & [Hip ->]%lift_Ret & H).
  apply io_bind_Ret in H as (ps & ? & [Hps ->]%lift_Ret & H).
  apply io_bind_Ret in H as (? & ? & [_ ->]%lift_Ret & H).
  apply io_bind_Ret in H as (? & ? & [_ ->]%lift_Ret & H).
  injection H as <- <-. simpl in *.
  exists vu, vc, vp, (world n1), (world n2).
  apply do_get_Ret in Hget1, Hget2, Hget3.
  repeat split; try assumption.
  - by rewrite (map_res_raw _ _ _ _ User_init_raw Hus).
  - by rewrite (map_res_raw _ _ _ _ Contact_init_raw Hcs).
  - by rewrite (map_res_raw _ _ _ _ Project_init_raw Hps).
Qed.

End Fetched.

Section SearchMore2.
Context {W : Type}.
Variable opener_open : request -> W -> res json * W.
Variable repr_container : json -> string.
Local Abbreviation entries_search := (Search.entries_search opener_open repr_container).

(** X19. The filters of a search can be encoded exactly when every login and
    code given is in its index: a search raises during encoding for no
    other reason than an unknown key. *)
Theorem search_dict_succeeds_iff (md : MinuteDock.t) (dr : option (date * date))
    (ul cs ps : option (list string)) :
  (exists sd, Search.search_dict repr_container md dr ul cs ps = Ret sd)
  <-> ~ (unresolved (MinuteDock.users_by_login md) ul \/
         unresolved (MinuteDock.contacts_by_code md) cs \/
         unresolved (MinuteDock.projects_by_code md) ps).
Proof.
  assert (Hno : forall E (index : gmap pykey E) (id_of : E -> json) keys v,
             encodes repr_container index id_of keys v -> ~ unresolved index keys).
  { intros E index id_of keys v He (ks & k & -> & Hin & Hnone).
    destruct He as (xs & Hxs & _).
    apply list_elem_of_lookup in Hin as [i Hi].
    destruct (Forall2_lookup_l _ _ _ _ _ Hxs Hi) as (x & _ & Hx). congruence. }
  destruct (search_dict_cases repr_container md dr ul cs ps)
    as [(sd & u & c & p & Hsd & Hu & Hc & Hp & _)|(k & Hk & Hun)].
  - split; [|eauto]. intros _ [H|[H|H]]; eapply Hno in H; eauto.
  - split; [|tauto]. intros [sd Hsd]. congruence.
Qed.

(** X20. A search only reads: whatever its outcome, every request it has
    issued is a GET without a body. *)
Theorem search_is_read_only (fuel : nat) (md : MinuteDock.t) (dr : option (date * date))
    (ul cs ps : option (list string)) (n n' : net W) (r : res (list Entry.t)) :
  entries_search fuel md dr ul cs ps n = Some (r, n') ->
  exists rqs, log n' = log n ++ rqs /\
              Forall (fun rq => meth rq = "GET" /\ data rq = None) rqs.
Proof.
  rewrite entries_search_eq. intros H.
  destruct (Search.search_dict _ _ _ _ _ _) as [sd|e].
  2: { injection H as _ <-. exists []. by rewrite app_nil_r. }
  destruct (Search.fetch_pages _ _ _ _ _ _ _) as [[rr n1]|] eqn:Hf; [|discriminate].
  apply fetch_pages_requests with (sd0 := sd) in Hf as [os Hos]; [|done].
  exists (search_request (MinuteDock.api_key md) sd <$> os). split.
  - destruct rr as [raws|e]; [destruct (map_res Entry.init raws)|];
      by injection H as _ <-.
  - apply Forall_fmap, Forall_forall. by intros o _.
Qed.

End SearchMore2.

(* ===================================================================== *)
(** ** Entities and timestamps, further properties *)
(* ===================================================================== *)

Lemma before_split (sep : ascii) (s : string) :
  (forall i, String.get i (Str.before sep s) <> Some sep) /\
  (s = Str.before sep s \/ exists rest, s = Str.before sep s +:+ String sep rest).
Proof.
  induction s as [|c s [IH1 IH2]]; simpl.
  - split; [by intros []|by left].
  - destruct (Ascii.eqb_spec c sep) as [->|Hne].
    + split; [by intros []|]. right. by exists s.
    + split.
      * intros [|i]; simpl; [congruence|apply IH1].
      * destruct IH2 as [IH2|[rest IH2]].
        -- left. by rewrite <- IH2.
        -- right. exists rest. change (String c s = String c (Str.before sep s +:+ String sep rest)).
           by rewrite <- IH2.
Qed.

(** X6. A user built from a raw record has as login the part of the e-mail
    before its first [@] (the whole e-mail when it has none): the login has
    no [@], and the e-mail is the login, followed by [@] and the rest when
    there is one. *)
Theorem user_login_is_local_part (raw : json) (u : User.t) :
  User.init raw = Ret u ->
  getitem raw "email" = Ret (JStr (User.email u)) /\
  (forall i, String.get i (User.login u) <> Some "@"%char) /\
  (User.email u = User.login u \/
   exists rest, User.email u = User.login u +:+ String "@" rest).
Proof.
  unfold User.init. intros H.
  apply bind_Ret in H as (uid & _ & H). apply bind_Ret in H as (em & Hem & H).
  apply bind_Ret in H as (s & Hs & H). destruct em; try discriminate.
  injection Hs as ->.
  apply bind_Ret in H as (fn & _ & H). apply bind_Ret in H as (ln & _ & H).
  injection H as <-. simpl. split; [exact Hem|]. apply before_split.
Qed.

(** X7. A record that lacks one of the eight keys [Entry.__init__] reads makes
    no entry: the construction raises [KeyError] for the first of them
    that is missing, whatever else the record holds. *)
Theorem entry_missing_key (m : gmap string json) (k : string) :
  k ∈ entry_keys -> m !! k = None ->
  exists k' before after,
    entry_keys = before ++ k' :: after /\
    Forall (fun j => is_Some (m !! j)) before /\ m !! k' = None /\
    Entry.init (JObj m) = Raise (KeyError (KStr k')).
Proof.
  intros Hin Hk. unfold Entry.init, entry_keys in *.
  assert (Hstep : forall j (f : json -> res Entry.t),
             (getitem (JObj m) j ≫= f) =
             match m !! j with
             | Some v => f v
             | None => Raise (KeyError (KStr j))
             end).
  { intros j f. simpl. by destruct (m !! j). }
  rewrite !Hstep.
  repeat match goal with
         | |- context [match m !! ?j with Some _ => _ | None => _ end] =>
             lazymatch goal with
             | H : m !! j = _ |- _ => fail
             | _ => destruct (m !! j) eqn:?; rewrite ?Hstep
             end
         end;
    try (match goal with
         | H : m !! ?j = None |- context [KeyError (KStr ?j)] =>
             let rec go b l :=
               lazymatch l with
               | j :: ?t => exists j, b, t
               | ?x :: ?t => go (b ++ [x]) t
               end in
             let l := constr:(["id"; "user_id"; "contact_id"; "project_id"; "duration";
                               "description"; "timer_active"; "logged_at"]) in
             go (@nil string) l
         end;
         split; [reflexivity|]; split; [|split; [assumption|reflexivity]];
         simpl; repeat (apply Forall_cons_2; [eauto|]); apply Forall_nil_2).
  exfalso. rewrite !elem_of_cons, elem_of_nil in Hin.
  intuition (subst; congruence).
Qed.

(** X8. [Entry.__init__] reads the timestamp the service sends: for every
    valid aware datetime without microseconds, the ISO text with a colon in
    the offset parses to that datetime. *)
Theorem parse_logged_at_isoformat (d : datetime) (off : Z) :
  datetime_ok d = true -> utcoffset d = Some off -> microsecond d = 0 ->
  Entry.parse_logged_at (JStr (isoformat d)) = Ret d.
Proof.
  intros Hok Hoff Hus. unfold Entry.parse_logged_at.
  rewrite (isoformat_sliced d off Hok Hoff Hus). by apply (strptime_wire_text d off).
Qed.

(** *** The payload timestamp is not one [Entry.__init__] accepts *)

Ltac fail_case :=
  unfold field_fails; cbv beta; intros X s buf caps k Hk1 Hk2; eval_zfill; cbv;
  rewrite ?Hk1; rewrite ?Hk2 by reflexivity; reflexivity.

Lemma fails_M : forall n, 0 <= n < 60 -> field_fails Pat.M (Str.zfill 2 n).
Proof. apply (Z_range_Forall _ 0 60). each_case fail_case. Qed.
Lemma fails_S : forall n, 0 <= n < 60 -> field_fails Pat.S (Str.zfill 2 n).
Proof. apply (Z_range_Forall _ 0 60). each_case fail_case. Qed.
Lemma fails_H : forall n, 0 <= n < 24 -> field_fails Pat.H (Str.zfill 2 n).
Proof. apply (Z_range_Forall _ 0 24). each_case fail_case. Qed.
Lemma fails_d : forall n, 1 <= n < 32 -> field_fails Pat.d (Str.zfill 2 n).
Proof.
  intros n Hn. apply (Z_range_Forall (fun n => field_fails Pat.d (Str.zfill 2 n)) 1 31); [|lia].
  each_case fail_case.
Qed.
Lemma fails_m : forall n, 1 <= n < 13 -> field_fails Pat.m (Str.zfill 2 n).
Proof.
  intros n Hn. apply (Z_range_Forall (fun n => field_fails Pat.m (Str.zfill 2 n)) 1 12); [|lia].
  each_case fail_case.
Qed.

Lemma fails_Y (n : Z) : 0 <= n < 10000 -> field_fails Pat.Y (Str.zfill 4 n).
Proof.
  intros Hn. pose proof (zfill4_shape n Hn) as H.
  destruct (Str.zfill 4 n) as [|a [|b [|c [|d [|? ?]]]]]; try discriminate.
  simpl in H. rewrite !andb_true_iff in H. destruct H as [[[[Ha Hb] Hc] Hd] Hv].
  intros X s buf caps k Hk1 _. cbv -[Str.is_digit]. rewrite Ha, Hb, Hc, Hd.
  apply Hk1.
Qed.

Lemma digit_not_sep (ch : ascii) :
  Str.is_digit ch = true ->
  Ascii.eqb (Pat.lower ch) (Pat.lower "-") = false /\
  Ascii.eqb (Pat.lower ch) (Pat.lower "T") = false /\
  Ascii.eqb (Pat.lower ch) (Pat.lower ":") = false /\
  Ascii.eqb "+" ch = false /\ Ascii.eqb "-" ch = false.
Proof. destruct ch as [[] [] [] [] [] [] [] []]; vm_compute; intros; try discriminate; done. Qed.

Lemma length_app (p r : string) :
  String.length (p +:+ r) = (String.length p + String.length r)%nat.
Proof. induction p as [|c p IH]; [reflexivity|]. change (S (String.length (p +:+ r)) = S (String.length p + String.length r)). by rewrite IH. Qed.

Lemma until_last_app (p r : string) :
  (3 <= String.length r)%nat ->
  Str.until_last 3 (p +:+ r) = p +:+ Str.until_last 3 r.
Proof.
  intros Hr. unfold Str.until_last. induction p as [|c p IH]; [reflexivity|].
  change (String c p +:+ r) with (String c (p +:+ r)).
  cbn [String.length]. rewrite length_app in *.
  replace (S (String.length p + String.length r) - 3)%nat
    with (S (String.length p + String.length r - 3)) by lia.
  cbn [Str.take]. rewrite IH. reflexivity.
Qed.

Lemma last_app (p r : string) :
  (2 <= String.length r)%nat -> Str.last 2 (p +:+ r) = Str.last 2 r.
Proof.
  intros Hr. unfold Str.last. induction p as [|c p IH]; [reflexivity|].
  change (String c p +:+ r) with (String c (p +:+ r)).
  cbn [String.length]. rewrite length_app in *.
  replace (S (String.length p + String.length r) - 2)%nat
    with (S (String.length p + String.length r - 2)) by lia.
  cbn [Str.drop]. exact IH.
Qed.

Lemma append_assoc (a b c : string) : (a +:+ b) +:+ c = a +:+ b +:+ c.
Proof. induction a as [|x a IH]; [reflexivity|]. change (String x ((a +:+ b) +:+ c) = String x (a +:+ b +:+ c)). by rewrite IH. Qed.

Lemma strftime_sliced (d : datetime) (off : Z) :
  datetime_ok d = true -> utcoffset d = Some off ->
  exists sg a c e,
    (sg = "+"%char \/ sg = "-"%char) /\ Str.is_digit a = true /\
    Str.until_last 3 (strftime d) +:+ Str.last 2 (strftime d)
    = Str.of_Z (year d) +:+ "-" +:+ Str.zfill 2 (month d) +:+ "-"
      +:+ Str.zfill 2 (day d) +:+ "T" +:+ Str.zfill 2 (hour d) +:+ ":"
      +:+ Str.zfill 2 (minute d) +:+ ":" +:+ Str.zfill 2 (second d)
      +:+ String sg (String a (String c (String e EmptyString))).
Proof.
  intros Hok Hoff. field_shapes d off Hok Hoff.
  unfold strftime. rewrite Hoff, (strftime_z_wire off Hz). unfold wire_offset.
  clear HY. explode_digits.
  rewrite !andb_true_iff in Hzh. destruct Hzh as [[[Ha _] _] _].
  match goal with
  | |- context [Str.of_Z (year d) +:+ ?r] => set (rest := r)
  end.
  assert (Hlen : (3 <= String.length rest)%nat) by (subst rest; destruct (off <? 0); simpl; lia).
  rewrite until_last_app by exact Hlen. rewrite last_app by lia.
  rewrite append_assoc. subst rest.
  destruct (off <? 0); eexists _, _, _, _;
    (split; [|split; [exact Ha|reflexivity]]); auto.
Qed.

Lemma short_year (n : Z) : 1 <= n < 1000 -> short_numeral (Str.of_Z n) = true.
Proof.
  intros Hn. apply (all_range_spec (fun n => short_numeral (Str.of_Z n)) 1 999); [|lia].
  vm_compute. reflexivity.
Qed.

Lemma Y_fails_short {X} (p s buf : string) (caps : captures)
    (k : string -> string -> captures -> option X) :
  short_numeral p = true ->
  rmatch Pat.Y (p +:+ String "-" s) buf caps k = None.
Proof.
  intros Hp. destruct p as [|a [|b [|c [|? ?]]]]; try discriminate; simpl in Hp;
    rewrite ?andb_true_iff in Hp; destruct_and?;
    cbv -[Str.is_digit];
    repeat match goal with H : Str.is_digit _ = true |- _ => rewrite H; clear H end;
    reflexivity.
Qed.

Lemma sep_fails_on_digit {X} (a : ascii) (ch : ascii) (s buf : string)
    (caps : captures) (k : string -> string -> captures -> option X) :
  a = "-"%char \/ a = "T"%char \/ a = ":"%char ->
  Str.is_digit ch = true ->
  rmatch (Pat.lit_i a) (String ch s) buf caps k = None.
Proof.
  intros Ha Hch. destruct (digit_not_sep ch Hch) as (H1 & H2 & H3 & _).
  simpl. destruct Ha as [Ha|[Ha|Ha]]; subst a; by rewrite ?H1, ?H2, ?H3.
Qed.

Lemma z_fails_on_digit {X} (ch : ascii) (s buf : string)
    (caps : captures) (k : string -> string -> captures -> option X) :
  Str.is_digit ch = true -> rmatch Pat.z (String ch s) buf caps k = None.
Proof.
  intros Hch. destruct (digit_not_sep ch Hch) as (_ & _ & _ & H4 & H5).
  destruct (digit_not_colon ch Hch) as [_ H6].
  cbn [rmatch Pat.z Pat.lit]. by rewrite H4, H5, H6.
Qed.

Lemma z_fails_short {X} (sg a c e : ascii) (buf : string)
    (caps : captures) (k : string -> string -> captures -> option X) :
  sg = "+"%char \/ sg = "-"%char ->
  rmatch Pat.z (String sg (String a (String c (String e EmptyString)))) buf caps k = None.
Proof.
  intros [->| ->]; cbn [rmatch Pat.z Pat.lit Pat.digit Pat.range Pat.opt Pat.digits6];
    rewrite ?Ascii.eqb_refl;
    change (Ascii.eqb "+" "-") with false; change (Ascii.eqb "Z" "-") with false;
    change (Ascii.eqb "Z" "+") with false; cbv iota;
    destruct (Str.is_digit a); try reflexivity;
    destruct (Str.is_digit c); try reflexivity;
    destruct (Ascii.eqb ":" e); try reflexivity;
    match goal with |- context [if ?b then _ else _] => destruct b end; reflexivity.
Qed.

(** X9. The timestamp [update] writes has no colon in its offset, and
    [Entry.__init__], which removes the third character from the end
    before it parses, does not accept it: the payload of an update is not a
    record an entry can be built from. *)
Theorem parse_logged_at_rejects_strftime (d : datetime) (off : Z) :
  datetime_ok d = true -> utcoffset d = Some off ->
  Entry.parse_logged_at (JStr (strftime d)) = Raise ValueError.
Proof.
  intros Hok Hoff. pose proof (datetime_ok_bounds d Hok) as Hb.
  destruct (strftime_sliced d off Hok Hoff) as (sg & a & c & e & Hsg & Ha & Hs).
  unfold Entry.parse_logged_at. rewrite Hs. unfold strptime.
  match goal with
  | |- context [re_match Pat.iso_format ?t] =>
      assert (Hnone : re_match Pat.iso_format t = None); [|by rewrite Hnone]
  end.
  unfold re_match, Pat.iso_format. cbn [rmatch].
  destruct (Z_lt_dec (year d) 1000) as [Hy|Hy].
  { apply Y_fails_short, short_year. lia. }
  rewrite of_Z_zfill4 by lia.
  apply fails_Y; [lia| |intros; by apply sep_fails_on_digit; auto].
  intros ? ?. rewrite lit_ok.
  apply fails_m; [lia| |intros; by apply sep_fails_on_digit; auto].
  intros ? ?. rewrite lit_ok.
  apply fails_d; [lia| |intros; by apply sep_fails_on_digit; auto].
  intros ? ?. rewrite lit_ok.
  apply fails_H; [lia| |intros; by apply sep_fails_on_digit; auto].
  intros ? ?. rewrite lit_ok.
  apply fails_M; [lia| |intros; by apply sep_fails_on_digit; auto].
  intros ? ?. rewrite lit_ok.
  apply fails_S; [lia| |intros; by apply z_fails_on_digit].
  intros ? ?. by apply z_fails_short.
Qed.

(* ===================================================================== *)
(** ** Update, further properties *)
(* ===================================================================== *)

Section ChangeThenUpdate.
Context {W : Type}.
Variable opener_open : request -> W -> res json * W.
Variable repr_container : json -> string.
Local Abbreviation update := (Entry.update opener_open repr_container).

Lemma new_raw_set_project_id (e : Entry.t) (v : json) (body0 : gmap string json) :
  Entry.new_raw e = Ret body0 ->
  Entry.new_raw (Entry.set_project_id v e) = Ret (<["project_id" := v]> body0).
Proof.
  unfold Entry.new_raw. simpl. destruct (Entry.raw e); try discriminate.
  intros [= <-]. f_equal. apply map_eq. intros k.
  rewrite !lookup_insert. repeat case_decide; congruence.
Qed.

Lemma new_raw_set_contact_id (e : Entry.t) (v : json) (body0 : gmap string json) :
  Entry.new_raw e = Ret body0 ->
  Entry.new_raw (Entry.set_contact_id v e) = Ret (<["contact_id" := v]> body0).
Proof.
  unfold Entry.new_raw. simpl. destruct (Entry.raw e); try discriminate.
  intros [= <-]. f_equal. apply map_eq. intros k.
  rewrite !lookup_insert. repeat case_decide; congruence.
Qed.

(** X11. [change_project(code)] followed by [update()] transmits what [update()]
    alone would have transmitted, with [project_id] replaced by the id of
    the project that [code] names in the catalog; on a code that is not in
    the catalog [change_project] raises [KeyError]. *)
Theorem change_project_then_update (md : MinuteDock.t) (code : string)
    (e : Entry.t) (body0 : gmap string json) (n : net W) :
  Entry.new_raw e = Ret body0 ->
  match MinuteDock.projects_by_code md !! KStr code with
  | Some p =>
      exists e', Entry.change_project md code e = Ret e' /\
                 transmits (update md e') n
                   (<["project_id" := Project.project_id p]> body0)
  | None => Entry.change_project md code e = Raise (KeyError (KStr code))
  end.
Proof.
  intros Hb. unfold Entry.change_project.
  destruct (MinuteDock.projects_by_code md !! KStr code) as [p|]; [|reflexivity].
  eexists. split; [reflexivity|].
  apply update_transmits. by apply new_raw_set_project_id.
Qed.

(** X12. [change_contact(code)] followed by [update()] transmits what
    [update()] alone would have transmitted, with [contact_id] replaced by
    the id of the contact that [code] names in the catalog; on a code that
    is not in the catalog [change_contact] raises [KeyError]. *)
Theorem change_contact_then_update (md : MinuteDock.t) (code : string)
    (e : Entry.t) (body0 : gmap string json) (n : net W) :
  Entry.new_raw e = Ret body0 ->
  match MinuteDock.contacts_by_code md !! KStr code with
  | Some c =>
      exists e', Entry.change_contact md code e = Ret e' /\
                 transmits (update md e') n
                   (<["contact_id" := Contact.contact_id c]> body0)
  | None => Entry.change_contact md code e = Raise (KeyError (KStr code))
  end.
Proof.
  intros Hb. unfold Entry.change_contact.
  destruct (MinuteDock.contacts_by_code md !! KStr code) as [c|]; [|reflexivity].
  eexists. split; [reflexivity|].
  apply update_transmits. by apply new_raw_set_contact_id.
Qed.

Lemma update_run (md : MinuteDock.t) (e : Entry.t) (body : gmap string json)
    (n : net W) :
  Entry.new_raw e = Ret body ->
  let rq := put_request repr_container (MinuteDock.api_key md) (Entry.entry_id e) body in
  update md e n =
  (match (opener_open rq (world n)).1 with
   | Ret _ => Ret tt
   | Raise x => Raise x
   end,
   mk_net (opener_open rq (world n)).2 (log n ++ [rq])).
Proof.
  intros Hb. cbn zeta. unfold Entry.update, mbind, io_bind, lift. rewrite Hb.
  unfold MinuteDock._do_put, mbind, io_bind, MinuteDock.send, put_request.
  by destruct (opener_open _ (world n)) as [[v|x] w'].
Qed.

(** X13. [update] of an entry with an integer id issues one request, a PUT of
    [{"entry": payload}] with the JSON content type to
    [entries/<id>.json?api_key=<key>] under the base URL, and nothing
    else; it returns [None] whatever the remote side answers and raises
    what the transport raises. *)
Theorem update_request (md : MinuteDock.t) (e : Entry.t) (id : Z)
    (body : gmap string json) (n : net W) :
  Entry.new_raw e = Ret body -> Entry.entry_id e = JInt id ->
  let rq := mk_request "PUT"
              ("https://minutedock.com/api/v1/entries/" +:+ Str.of_Z id
               +:+ ".json?api_key=" +:+ MinuteDock.api_key md)
              (Some "application/json") (Some (JObj {["entry" := JObj body]})) in
  log (update md e n).2 = log n ++ [rq] /\
  world (update md e n).2 = (opener_open rq (world n)).2 /\
  (update md e n).1 = match (opener_open rq (world n)).1 with
                      | Ret _ => Ret tt
                      | Raise x => Raise x
                      end.
Proof.
  intros Hb Hid. cbn zeta. rewrite (update_run md e body n Hb). cbn zeta.
  unfold put_request, MinuteDock.url_of, MinuteDock.URL_BASE. rewrite Hid.
  cbn [py_str fmap list_fmap Str.join fst snd].
  assert (Hurl : forall a b c : string, (a +:+ b) +:+ c = a +:+ b +:+ c)
    by (intros a b c; induction a as [|x a IH]; [done|];
        change (String x ((a +:+ b) +:+ c) = String x (a +:+ b +:+ c)); by rewrite IH).
  change ("https://minutedock.com/api/v1" +:+ "/" +:+
          ("entries/" +:+ Str.of_Z id +:+ ".json") +:+ "?" +:+
          "api_key" +:+ "=" +:+ MinuteDock.api_key md)
    with ("https://minutedock.com/api/v1/" +:+
          ("entries/" +:+ Str.of_Z id +:+ ".json") +:+ "?api_key=" +:+ MinuteDock.api_key md).
  rewrite !Hurl.
  change ("https://minutedock.com/api/v1/" +:+ "entries/" +:+ Str.of_Z id +:+ ".json" +:+
          "?api_key=" +:+ MinuteDock.api_key md)
    with ("https://minutedock.com/api/v1/entries/" +:+ Str.of_Z id +:+ ".json" +:+
          "?api_key=" +:+ MinuteDock.api_key md).
  rewrite <- (Hurl (Str.of_Z id) ".json" _), (Hurl _ ".json" _).
  repeat split.
Qed.

End ChangeThenUpdate.

(* ===================================================================== *)
(** ** Search, further properties *)
(* ===================================================================== *)

Lemma map_res_Raise {A B} (f : A -> res B) (l1 : list A) (x : A) (l2 : list A)
    (ys : list B) (e : exn) :
  map_res f l1 = Ret ys -> f x = Raise e -> map_res f (l1 ++ x :: l2) = Raise e.
Proof.
  revert ys. induction l1 as [|a l1 IH]; simpl; intros ys H1 Hx.
  - by rewrite Hx.
  - apply bind_Ret in H1 as (b & -> & H1). apply bind_Ret in H1 as (bs & Hbs & _).
    simpl. by rewrite (IH bs Hbs Hx).
Qed.

Section SearchMore.
Context {W : Type}.
Variable opener_open : request -> W -> res json * W.
Variable repr_container : json -> string.

Local Abbreviation fetch_pages := (Search.fetch_pages opener_open).
Local Abbreviation entries_search := (Search.entries_search opener_open repr_container).

Lemma fetch_pages_answers (key : string) (sd0 : qdict) (last : res json)
    (pages : list (list json)) :
  continues last = false ->
  forall (fuel : nat) (sd : qdict) (entries : list json) (offset : Z) (w w' : W)
         (lg : list request),
    (forall o, search_request key sd o = search_request key sd0 o) ->
    answers opener_open key sd0 offset pages last w w' ->
    (length pages < fuel)%nat ->
    fetch_pages fuel key entries offset sd (mk_net w lg)
    = Some (match last with
            | Raise e => Raise e
            | Ret v => match py_len v with
                       | Raise e => Raise e
                       | Ret _ => Ret (entries ++ concat pages)
                       end
            end,
            mk_net w' (lg ++ (search_request key sd0 <$> offsets offset pages))).
Proof.
  intros Hlast.
  induction pages as [|p pages IH]; intros fuel sd entries offset w w' lg Hsd Hans Hfuel;
    (destruct fuel as [|fuel]; [simpl in Hfuel; lia|]);
    rewrite fetch_pages_step; cbn zeta; cbn [world log]; rewrite Hsd.
  - simpl in Hans. rewrite Hans. simpl. rewrite app_nil_r.
    destruct last as [v|e]; [|reflexivity]. unfold continues in Hlast.
    destruct (py_len v) as [[|l]|e]; done.
  - destruct Hans as (Hne & w1 & Hopen & Hrest). rewrite Hopen.
    cbn [py_len py_iter]. destruct p as [|x p]; [done|]. cbn [length].
    rewrite (IH fuel _ _ _ w1 w' _); [..|exact Hrest|simpl in Hfuel; lia].
    + cbn [concat offsets fmap list_fmap]. rewrite <- !app_assoc. reflexivity.
    + intros o. rewrite search_request_again. apply Hsd.
Qed.

(** X14. When the transport fails on some page of a search, after any number
    of pages, the search raises that failure: the records fetched before
    are not returned, and no further request is made. *)
Theorem search_propagates_failure (fuel : nat) (md : MinuteDock.t)
    (dr : option (date * date)) (ul cs ps : option (list string)) (sd : qdict)
    (pages : list (list json)) (e : exn) (w w' : W) (lg : list request) :
  Search.search_dict repr_container md dr ul cs ps = Ret sd ->
  answers opener_open (MinuteDock.api_key md) sd 0 pages (Raise e) w w' ->
  (length pages < fuel)%nat ->
  entries_search fuel md dr ul cs ps (mk_net w lg)
  = Some (Raise e,
          mk_net w' (lg ++ (search_request (MinuteDock.api_key md) sd
                              <$> offsets 0 pages))).
Proof.
  intros Hsd Hans Hfuel. rewrite entries_search_eq, Hsd.
  by rewrite (fetch_pages_answers _ sd (Raise e) pages eq_refl fuel sd [] 0 w w' lg
                (fun _ => eq_refl) Hans Hfuel).
Qed.

(** X15. An answer that is [null], a number or a boolean instead of a page makes
    the search raise [TypeError], after any number of pages. *)
Theorem search_rejects_unsized_page (fuel : nat) (md : MinuteDock.t)
    (dr : option (date * date)) (ul cs ps : option (list string)) (sd : qdict)
    (pages : list (list json)) (v : json) (w w' : W) (lg : list request) :
  Search.search_dict repr_container md dr ul cs ps = Ret sd ->
  (v = JNull \/ (exists b, v = JBool b) \/ (exists i, v = JInt i)) ->
  answers opener_open (MinuteDock.api_key md) sd 0 pages (Ret v) w w' ->
  (length pages < fuel)%nat ->
  entries_search fuel md dr ul cs ps (mk_net w lg)
  = Some (Raise TypeError,
          mk_net w' (lg ++ (search_request (MinuteDock.api_key md) sd
                              <$> offsets 0 pages))).
Proof.
  intros Hsd Hv Hans Hfuel. rewrite entries_search_eq, Hsd.
  assert (Hlen : py_len v = Raise TypeError)
    by (destruct Hv as [->|[[b ->]|[i ->]]]; reflexivity).
  assert (Hc : continues (Ret v) = false) by (unfold continues; by rewrite Hlen).
  rewrite (fetch_pages_answers _ sd (Ret v) pages Hc fuel sd [] 0 w w' lg
             (fun _ => eq_refl) Hans Hfuel).
  by rewrite Hlen.
Qed.

(** X16. With [projects=[]], the search returns exactly the entries without a
    project among the records fetched, in the order fetched: none of them
    is left out. *)
Theorem search_empty_projects_exact (fuel : nat) (md : MinuteDock.t)
    (dr : option (date * date)) (ul cs : option (list string)) (sd : qdict)
    (pages : list (list json)) (es : list Entry.t) (w w' : W) (lg : list request) :
  Search.search_dict repr_container md dr ul cs (Some []) = Ret sd ->
  serves opener_open (MinuteDock.api_key md) sd 0 pages w w' ->
  (length pages < fuel)%nat ->
  map_res Entry.init (concat pages) = Ret es ->
  entries_search fuel md dr ul cs (Some []) (mk_net w lg)
  = Some (Ret (List.filter (fun e => Search.is_None (Entry.project_id e)) es),
          mk_net w' (lg ++ (search_request (MinuteDock.api_key md) sd
                              <$> offsets 0 pages))).
Proof.
  intros Hsd Hserves Hfuel Hes. rewrite entries_search_eq, Hsd.
  rewrite (fetch_pages_serves opener_open _ sd pages fuel sd [] 0 w w' lg
             (fun _ => eq_refl) Hserves Hfuel).
  simpl. by rewrite Hes.
Qed.

(** X17. One record from which no entry can be built makes the whole search
    raise, with the error of the first such record in page order, after
    all pages have been fetched. *)
Theorem search_bad_record (fuel : nat) (md : MinuteDock.t)
    (dr : option (date * date)) (ul cs ps : option (list string)) (sd : qdict)
    (pages : list (list json)) (good : list json) (bad : json) (rest : list json)
    (es : list Entry.t) (e : exn) (w w' : W) (lg : list request) :
  Search.search_dict repr_container md dr ul cs ps = Ret sd ->
  serves opener_open (MinuteDock.api_key md) sd 0 pages w w' ->
  (length pages < fuel)%nat ->
  concat pages = good ++ bad :: rest ->
  map_res Entry.init good = Ret es -> Entry.init bad = Raise e ->
  entries_search fuel md dr ul cs ps (mk_net w lg)
  = Some (Raise e,
          mk_net w' (lg ++ (search_request (MinuteDock.api_key md) sd
                              <$> offsets 0 pages))).
Proof.
  intros Hsd Hserves Hfuel Hcat Hgood Hbad. rewrite entries_search_eq, Hsd.
  rewrite (fetch_pages_serves opener_open _ sd pages fuel sd [] 0 w w' lg
             (fun _ => eq_refl) Hserves Hfuel).
  simpl. by rewrite Hcat, (map_res_Raise _ _ _ _ es e Hgood Hbad).
Qed.

(** X18. The URL of every request of a search, spelled out: the base URL,
    [entries.json], then [users], [contacts], [projects], the two dates
    when a range is given, [offset] and [api_key], in this order. *)
Theorem search_url (md : MinuteDock.t) (dr : option (date * date))
    (ul cs ps : option (list string)) (sd : qdict) :
  Search.search_dict repr_container md dr ul cs ps = Ret sd ->
  exists u c p,
    Search.encode_ids repr_container (MinuteDock.users_by_login md) User.user_id ul
      = Ret u /\
    Search.encode_ids repr_container (MinuteDock.contacts_by_code md)
      Contact.contact_id cs = Ret c /\
    Search.encode_ids repr_container (MinuteDock.projects_by_code md)
      Project.project_id ps = Ret p /\
    forall key offset,
      url (search_request key sd offset)
      = "https://minutedock.com/api/v1/entries.json?" +:+ filters_text u c p dr
        +:+ "&offset=" +:+ Str.of_Z offset +:+ "&api_key=" +:+ key.
Proof.
  unfold Search.search_dict. intros H.
  apply bind_Ret in H as (u & Hu & H). apply bind_Ret in H as (c & Hc & H).
  apply bind_Ret in H as (p & Hp & H). injection H as <-.
  exists u, c, p. do 3 (split; [assumption|]). intros key offset.
  unfold search_request, MinuteDock.url_of, MinuteDock.URL_BASE, filters_text.
  destruct dr as [[f t]|]; cbn [url qset String.eqb Ascii.eqb Bool.eqb fmap list_fmap
                                Str.join fst snd];
    rewrite ?append_assoc; reflexivity.
Qed.

Lemma mdY_reads_back (d : date) :
  check_date_fields (date_year d) (date_month d) (date_day d) = true ->
  1000 <= date_year d ->
  parse_mdY (strftime_mdY d) = Some d.
Proof.
  unfold check_date_fields. rewrite !andb_true_iff, !Z.leb_le.
  intros Hv Hy.
  assert (Calendar.days_in_month (date_year d) (date_month d) <= 31)
    by (unfold Calendar.days_in_month; repeat case_match; lia).
  pose proof (zfill4_shape (date_year d) ltac:(lia)) as HY.
  pose proof (zfill2_shape (date_month d) ltac:(lia)) as HM.
  pose proof (zfill2_shape (date_day d) ltac:(lia)) as HD.
  unfold strftime_mdY. rewrite of_Z_zfill4 by lia. explode_digits.
  rewrite !andb_true_iff in *. destruct_and!.
  unfold parse_mdY. cbv -[Str.is_digit Str.digit_val Z.add Z.mul].
  repeat match goal with H : Str.is_digit _ = true |- _ => rewrite H; clear H end.
  destruct d as [y m dd]. simpl in *. f_equal.
  repeat match goal with H : (_ =? _) = true |- _ => apply Z.eqb_eq in H end.
  f_equal; lia.
Qed.

(** X10. The date range of a search is sent without loss: for valid dates from
    the year 1000 on, the query carries [from] and [to] as [MM/DD/YYYY],
    ten characters each, which read back as the two dates given. *)
Theorem search_dates_read_back (md : MinuteDock.t) (f t : date)
    (ul cs ps : option (list string)) (sd : qdict) :
  Search.search_dict repr_container md (Some (f, t)) ul cs ps = Ret sd ->
  check_date_fields (date_year f) (date_month f) (date_day f) = true ->
  check_date_fields (date_year t) (date_month t) (date_day t) = true ->
  1000 <= date_year f -> 1000 <= date_year t ->
  exists sf st,
    qget "from" sd = Some sf /\ qget "to" sd = Some st /\
    String.length sf = 10%nat /\ String.length st = 10%nat /\
    parse_mdY sf = Some f /\ parse_mdY st = Some t.
Proof.
  unfold Search.search_dict. intros H Hf Ht Hyf Hyt.
  apply bind_Ret in H as (u & _ & H). apply bind_Ret in H as (c & _ & H).
  apply bind_Ret in H as (p & _ & H). injection H as <-.
  exists (strftime_mdY f), (strftime_mdY t).
  pose proof (mdY_reads_back f Hf Hyf) as Rf.
  pose proof (mdY_reads_back t Ht Hyt) as Rt.
  split; [reflexivity|]. split; [reflexivity|].
  assert (Hlen : forall s d, parse_mdY s = Some d -> String.length s = 10%nat).
  { intros s d. unfold parse_mdY.
    destruct s as [|? [|? [|? [|? [|? [|? [|? [|? [|? [|? [|? ?]]]]]]]]]]]; simpl;
      try discriminate. reflexivity. }
  split; [exact (Hlen _ _ Rf)|]. split; [exact (Hlen _ _ Rt)|]. split; assumption.
Qed.

End SearchMore.

(* ===================================================================== *)
(** ** The example scripts *)
(* ===================================================================== *)

Lemma map_res_Forall {A B} (f : A -> res B) (l : list A) (ys : list B) :
  map_res f l = Ret ys -> Forall (fun y => exists x, f x = Ret y) ys.
Proof.
  revert ys. induction l as [|a l IH]; simpl; intros ys H.
  - injection H as <-. constructor.
  - apply bind_Ret in H as (b & Hb & H). apply bind_Ret in H as (bs & Hbs & [= <-]).
    constructor; eauto.
Qed.

Lemma new_raw_built (raw : json) (e : Entry.t) :
  Entry.init raw = Ret e ->
  Entry.new_raw e = Ret (<["logged_at" := JStr (strftime (Entry.date e))]> (raw_dict e)).
Proof.
  intros H. apply Entry_init_inv in H
    as (m & s & -> & Hraw & _ & Hu & Hc & Hp & _ & Hd & _ & _ & _).
  unfold Entry.new_raw, raw_dict. rewrite Hraw. f_equal.
  rewrite (insert_id m "user_id") by exact Hu.
  rewrite (insert_id m "contact_id") by exact Hc.
  rewrite (insert_id m "project_id") by exact Hp.
  by rewrite (insert_id m "description") by exact Hd.
Qed.

Section Script.
Context {W : Type}.
Variable opener_open : request -> W -> res json * W.
Variable repr_container : json -> string.

Local Abbreviation entries_search := (Search.entries_search opener_open repr_container).
Local Abbreviation script := (UpdateScript.update opener_open repr_container).
Local Abbreviation update_each := (UpdateScript.update_each opener_open repr_container).

Lemma search_result_built (fuel : nat) (md : MinuteDock.t) (dr : option (date * date))
    (ul cs ps : option (list string)) (n n1 : net W) (es : list Entry.t) :
  entries_search fuel md dr ul cs ps n = Some (Ret es, n1) ->
  Forall (fun e => exists raw, Entry.init raw = Ret e) es.
Proof.
  rewrite entries_search_eq. intros H.
  destruct (Search.search_dict _ _ _ _ _ _); [|discriminate].
  destruct (Search.fetch_pages _ _ _ _ _ _ _) as [[[raws|?] ?]|]; try discriminate.
  destruct (map_res Entry.init raws) as [entries|] eqn:Hm; [|discriminate].
  apply map_res_Forall in Hm. injection H as <- _.
  destruct ps as [[|? ?]|]; try done.
  apply Forall_forall. intros e He. apply list_elem_of_In, filter_In in He as [He _].
  rewrite Forall_forall in Hm. by apply Hm, list_elem_of_In.
Qed.

Lemma update_each_puts (md : MinuteDock.t) (p : Project.t) (es : list Entry.t) :
  MinuteDock.projects_by_code md !! KStr "new_project" = Some p ->
  (forall rq w, meth rq = "PUT" -> exists v w', opener_open rq w = (Ret v, w')) ->
  Forall (fun e => exists raw, Entry.init raw = Ret e) es ->
  forall n, exists w',
    update_each md es n
    = (Ret tt,
       mk_net w' (log n ++ (reassign_request repr_container (MinuteDock.api_key md)
                              (Project.project_id p) <$> es))).
Proof.
  intros Hp Hput Hes. induction Hes as [|e es (raw & He) _ IH]; intros n.
  - exists (world n). simpl. rewrite app_nil_r. by destruct n.
  - cbn [UpdateScript.update_each]. unfold mbind at 1, io_bind at 1, lift.
    unfold Entry.change_project. rewrite Hp.
    pose proof (new_raw_built raw e He) as Hb.
    pose proof (new_raw_set_project_id e (Project.project_id p) _ Hb) as Hb'.
    unfold mbind, io_bind.
    rewrite (update_run opener_open repr_container md _ _ n Hb'). cbn zeta.
    match goal with
    | |- context [opener_open ?rq (world n)] =>
        destruct (Hput rq (world n) eq_refl) as (v & w1 & Hopen); rewrite Hopen
    end.
    cbn [fst snd].
    destruct (IH (mk_net w1 (log n ++
                [put_request repr_container (MinuteDock.api_key md)
                   (Entry.entry_id (Entry.set_project_id (Project.project_id p) e))
                   (<["project_id":=Project.project_id p]>
                      (<["logged_at":=JStr (strftime (Entry.date e))]> (raw_dict e)))])))
      as (w' & ->).
    exists w'. cbn [log fmap list_fmap]. by rewrite <- app_assoc.
Qed.

(** X21. [update.py], when the catalog has the project [new_project] and the
    remote side accepts every PUT: after the search, the script issues one
    PUT per entry returned, in order, each carrying the entry's raw record
    with [project_id] set to the id of [new_project] (and [logged_at]
    written anew), for entries that all had no project, and nothing else. *)
Theorem script_reassigns_each_entry (fuel : nat) (md : MinuteDock.t) (p : Project.t)
    (n n1 : net W) (es : list Entry.t) :
  MinuteDock.projects_by_code md !! KStr "new_project" = Some p ->
  (forall rq w, meth rq = "PUT" -> exists v w', opener_open rq w = (Ret v, w')) ->
  entries_search fuel md (Some (mk_date 2012 7 1, mk_date 2012 8 30))
    (Some ["user1"; "user2"; "user3"]) (Some ["customer"]) (Some []) n
    = Some (Ret es, n1) ->
  Forall (fun e => Entry.project_id e = JNull) es /\
  exists w',
    script fuel md n
    = Some (Ret tt,
            mk_net w' (log n1 ++ (reassign_request repr_container (MinuteDock.api_key md)
                                    (Project.project_id p) <$> es))).
Proof.
  intros Hp Hput Hsearch. split.
  - rewrite entries_search_eq in Hsearch.
    repeat case_match; simplify_eq.
    apply Forall_forall. intros e He.
    apply list_elem_of_In, filter_In in He as [_ He].
    by destruct (Entry.project_id e).
  - pose proof (search_result_built _ _ _ _ _ _ _ _ _ Hsearch) as Hbuilt.
    destruct (update_each_puts md p es Hp Hput Hbuilt n1) as (w' & Heach).
    exists w'. unfold UpdateScript.update, mbind, pio_bind. rewrite Hsearch.
    unfold run. by rewrite Heach.
Qed.

(** X22. [update.py], when the catalog has no project [new_project]: the script
    raises [KeyError] at the first entry the search returns, before any
    PUT; when the search returns nothing it ends normally. *)
Theorem script_unknown_project (fuel : nat) (md : MinuteDock.t)
    (n n1 : net W) (es : list Entry.t) :
  MinuteDock.projects_by_code md !! KStr "new_project" = None ->
  entries_search fuel md (Some (mk_date 2012 7 1, mk_date 2012 8 30))
    (Some ["user1"; "user2"; "user3"]) (Some ["customer"]) (Some []) n
    = Some (Ret es, n1) ->
  script fuel md n
  = Some (match es with
          | [] => Ret tt
          | _ :: _ => Raise (KeyError (KStr "new_project"))
          end, n1).
Proof.
  intros Hp Hsearch. unfold UpdateScript.update, mbind, pio_bind. rewrite Hsearch.
  unfold run. destruct es as [|e es]; [reflexivity|].
  cbn [UpdateScript.update_each]. unfold mbind, io_bind, lift, Entry.change_project.
  by rewrite Hp.
Qed.

End Script.

Section Mygroup.
Context {A : Type}.
Variable attr : A -> json.

Lemma has_key_true (k : pykey) (x : A) :
  has_key attr k x = true <-> key_of (attr x) = Ret k.
Proof.
  unfold has_key. destruct (key_of (attr x)) as [k'|e]; [|split; discriminate].
  rewrite bool_decide_eq_true. split; congruence.
Qed.

Lemma elem_of_first_keys (k : pykey) (l : list A) :
  k ∈ first_keys attr l <-> k ∈ item_keys attr l.
Proof.
  unfold first_keys. by rewrite elem_of_reverse, elem_of_remove_dups, elem_of_reverse.
Qed.

Lemma NoDup_first_keys (l : list A) : NoDup (first_keys attr l).
Proof. unfold first_keys. rewrite reverse_Permutation. apply NoDup_remove_dups. Qed.

Lemma item_keys_snoc (l : list A) (i : A) (k : pykey) :
  key_of (attr i) = Ret k -> item_keys attr (l ++ [i]) = item_keys attr l ++ [k].
Proof. intros Hk. unfold item_keys. rewrite omap_app. simpl. by rewrite Hk. Qed.

Lemma first_keys_snoc (l : list A) (i : A) (k : pykey) :
  key_of (attr i) = Ret k ->
  first_keys attr (l ++ [i])
  = if decide (k ∈ first_keys attr l) then first_keys attr l
    else first_keys attr l ++ [k].
Proof.
  intros Hk. unfold first_keys at 1. rewrite (item_keys_snoc l i k Hk), reverse_snoc.
  simpl.
  destruct (decide (k ∈ first_keys attr l)) as [Hin|Hnin];
    destruct (decide_rel elem_of k (reverse (item_keys attr l))) as [Hin'|Hnin'].
  - reflexivity.
  - exfalso. apply Hnin'. rewrite elem_of_reverse. by apply elem_of_first_keys.
  - exfalso. apply Hnin. apply elem_of_first_keys. by rewrite <- elem_of_reverse.
  - by rewrite reverse_cons.
Qed.

Lemma filter_no_key (k : pykey) (l : list A) :
  k ∉ item_keys attr l -> List.filter (has_key attr k) l = [].
Proof.
  induction l as [|x l IH]; [done|]. unfold item_keys. simpl.
  destruct (has_key attr k x) eqn:Hx.
  - apply has_key_true in Hx. rewrite Hx. intros Hn. exfalso. apply Hn. by left.
  - intros Hn. apply IH. intros Hin. apply Hn.
    destruct (key_of (attr x)); [by right|done].
Qed.

Lemma filter_snoc (k' : pykey) (l : list A) (i : A) (k : pykey) :
  key_of (attr i) = Ret k ->
  List.filter (has_key attr k') (l ++ [i])
  = List.filter (has_key attr k') l ++ (if decide (k = k') then [i] else []).
Proof.
  intros Hk. rewrite List.filter_app. f_equal. simpl. unfold has_key. rewrite Hk.
  destruct (decide (k = k')) as [->|Hne].
  - by rewrite bool_decide_eq_true_2.
  - by rewrite bool_decide_eq_false_2.
Qed.

Lemma oget_mapped {V} (F : pykey -> V) (ks : list pykey) (k : pykey) :
  Report.oget k ((fun k' => (k', F k')) <$> ks) = if decide (k ∈ ks) then Some (F k) else None.
Proof.
  induction ks as [|k0 ks IH]; csimpl.
  - destruct (decide (k ∈ [])) as [H|]; [by apply elem_of_nil in H|done].
  - destruct (decide (k0 = k)) as [->|Hne].
    + rewrite decide_True; [done|by left].
    + rewrite IH. destruct (decide (k ∈ ks)) as [Hin|Hnin].
      * rewrite decide_True; [done|by right].
      * rewrite decide_False; [done|]. intros [->|?]%elem_of_cons; done.
Qed.

Lemma oset_mapped {V} (F G : pykey -> V) (ks : list pykey) (k : pykey) (v : V) :
  NoDup ks -> G k = v -> (forall k', k' ≠ k -> G k' = F k') ->
  Report.oset k v ((fun k' => (k', F k')) <$> ks)
  = if decide (k ∈ ks) then (fun k' => (k', G k')) <$> ks
    else ((fun k' => (k', G k')) <$> ks) ++ [(k, v)].
Proof.
  intros Hnd Hv HG. induction Hnd as [|k0 ks Hk0 Hnd IH]; csimpl.
  - destruct (decide (k ∈ [])) as [H|]; [by apply elem_of_nil in H|done].
  - destruct (decide (k0 = k)) as [->|Hne].
    + rewrite decide_True by (by left). rewrite Hv. f_equal.
      apply list_fmap_ext. intros j k' Hk'. rewrite HG; [done|].
      intros ->. apply Hk0. by eapply list_elem_of_lookup_2.
    + rewrite IH, (HG k0 Hne). destruct (decide (k ∈ ks)) as [Hin|Hnin].
      * rewrite decide_True; [done|by right].
      * rewrite decide_False; [done|]. intros [->|?]%elem_of_cons; done.
Qed.

Lemma group_loop_spec (rest : list A) :
  forall (done_ : list A) (d' : Report.odict (list A)),
    Report.group_loop attr rest (groups_of attr done_) = Ret d' ->
    d' = groups_of attr (done_ ++ rest).
Proof.
  induction rest as [|i rest IH]; intros done_ d' H.
  - injection H as <-. by rewrite app_nil_r.
  - simpl in H. apply bind_Ret in H as (k & Hk & H).
    replace (done_ ++ i :: rest) with ((done_ ++ [i]) ++ rest)
      by (by rewrite <- app_assoc).
    apply IH. rewrite <- H. f_equal. unfold groups_of at 2 3.
    rewrite oget_mapped.
    rewrite (oset_mapped _ (fun k' => List.filter (has_key attr k') (done_ ++ [i])));
      [|apply NoDup_first_keys| |].
    + unfold groups_of. rewrite (first_keys_snoc done_ i k Hk).
      destruct (decide (k ∈ first_keys attr done_)) as [Hin|Hnin]; [reflexivity|].
      rewrite fmap_app. simpl. do 3 f_equal.
      rewrite (filter_snoc k done_ i k Hk), decide_True by done.
      rewrite filter_no_key; [done|]. by rewrite <- elem_of_first_keys.
    + rewrite (filter_snoc k done_ i k Hk), decide_True by done.
      destruct (decide (k ∈ first_keys attr done_)) as [Hin|Hnin]; [reflexivity|].
      simpl. rewrite filter_no_key; [done|]. by rewrite <- elem_of_first_keys.
    + intros k' Hne. rewrite (filter_snoc k' done_ i k Hk), decide_False by done.
      by rewrite app_nil_r.
Qed.

Lemma mygroup_as_filters (l : list A) (gs : list (list A)) :
  Report.mygroup l attr = Ret gs ->
  gs = (fun k => List.filter (has_key attr k) l) <$> first_keys attr l /\
  NoDup (first_keys attr l) /\
  (forall x, x ∈ l -> exists k, key_of (attr x) = Ret k /\ k ∈ first_keys attr l) /\
  Forall (fun g => g ≠ []) gs.
Proof.
  unfold Report.mygroup. intros H. apply bind_Ret in H as (d & Hd & [= <-]).
  assert (Hall : forall x, x ∈ l -> exists k, key_of (attr x) = Ret k).
  { clear -Hd. revert Hd. generalize (@nil (pykey * list A)).
    induction l as [|a l IH]; intros d0 Hd x Hx; [by apply elem_of_nil in Hx|].
    simpl in Hd. apply bind_Ret in Hd as (k & Hk & Hd).
    apply elem_of_cons in Hx as [->|Hx]; [eauto|]. by eapply IH. }
  apply (group_loop_spec l []) in Hd. simpl in Hd. subst d.
  assert (Hkeys : forall x, x ∈ l ->
            exists k, key_of (attr x) = Ret k /\ k ∈ first_keys attr l).
  { intros x Hx. destruct (Hall x Hx) as [k Hk]. exists k. split; [done|].
    apply elem_of_first_keys. unfold item_keys. apply list_elem_of_omap.
    exists x. by rewrite Hk. }
  split; [|split; [apply NoDup_first_keys|split; [exact Hkeys|]]].
  - unfold groups_of. rewrite <- list_fmap_compose. reflexivity.
  - unfold groups_of. rewrite <- list_fmap_compose. apply Forall_fmap, Forall_forall.
    intros k Hk. simpl. apply elem_of_first_keys in Hk.
    unfold item_keys in Hk. apply list_elem_of_omap in Hk as (x & Hx & Hkx).
    destruct (key_of (attr x)) as [k'|] eqn:Hx'; [|discriminate]. injection Hkx as ->.
    intros Hnil. assert (Hin : In x (List.filter (has_key attr k) l)).
    { apply filter_In. split; [by apply list_elem_of_In|by apply has_key_true]. }
    by rewrite Hnil in Hin.
Qed.

(** X23. [mygroup] returns, for each key in the order of its first occurrence,
    the items with that key in the order of the input: every item is in
    the group of its key and in no other, and no group is empty. *)
Theorem mygroup_groups (l : list A) (gs : list (list A)) :
  Report.mygroup l attr = Ret gs ->
  gs = (fun k => List.filter (has_key attr k) l) <$> first_keys attr l /\
  NoDup (first_keys attr l) /\
  (forall x, x ∈ l -> exists k, key_of (attr x) = Ret k /\ k ∈ first_keys attr l) /\
  Forall (fun g => g ≠ []) gs.
Proof. apply mygroup_as_filters. Qed.

Lemma oset_concat (k : pykey) (i : A) (d : Report.odict (list A)) :
  concat (Report.oset k (default [] (Report.oget k d) ++ [i]) d).*2 ≡ₚ concat d.*2 ++ [i].
Proof.
  induction d as [|[k0 v0] d IH]; csimpl; [done|].
  destruct (decide (k0 = k)) as [->|Hne]; csimpl.
  - rewrite <- !app_assoc. apply Permutation_app_head, Permutation_app_comm.
  - rewrite IH. by rewrite app_assoc.
Qed.

Lemma group_loop_Permutation (l : list A) :
  forall d d', Report.group_loop attr l d = Ret d' -> concat d'.*2 ≡ₚ concat d.*2 ++ l.
Proof.
  induction l as [|i l IH]; intros d d' H.
  - injection H as <-. by rewrite app_nil_r.
  - simpl in H. apply bind_Ret in H as (k & _ & H). apply IH in H.
    rewrite H, oset_concat, <- app_assoc. reflexivity.
Qed.

(** X24. The groups [mygroup] returns partition the input: put end to end they
    are a rearrangement of it, so no item is lost and none is repeated, and
    the items of one group all have the same key. *)
Theorem mygroup_partition (l : list A) (gs : list (list A)) :
  Report.mygroup l attr = Ret gs ->
  concat gs ≡ₚ l /\
  Forall (fun g => exists k, Forall (fun x => key_of (attr x) = Ret k) g) gs.
Proof.
  intros H. split.
  - unfold Report.mygroup in H. apply bind_Ret in H as (d & Hd & [= <-]).
    by apply group_loop_Permutation in Hd.
  - destruct (mygroup_as_filters l gs H) as (-> & _).
    apply Forall_fmap, Forall_forall. intros k _. exists k. simpl.
    apply Forall_forall. intros x Hx.
    apply list_elem_of_In, filter_In in Hx as [_ Hx]. by apply has_key_true.
Qed.

Lemma group_loop_Raise (l : list A) :
  forall d e, Report.group_loop attr l d = Raise e ->
              e = TypeError /\ exists x, x ∈ l /\ key_of (attr x) = Raise TypeError.
Proof.
  induction l as [|a l IH]; intros d e H; [discriminate|].
  simpl in H. destruct (key_of (attr a)) as [k|e'] eqn:Hk; simpl in H.
  - destruct (IH _ _ H) as (-> & x & Hx & Hkx). split; [done|].
    exists x. split; [by right|done].
  - injection H as <-.
    assert (e' = TypeError) as -> by (destruct (attr a); simpl in Hk; congruence).
    split; [done|]. exists a. split; [by left|done].
Qed.

(** X25. [mygroup] fails exactly when the attribute of some item is a list or a
    dictionary, and then with [TypeError]. *)
Theorem mygroup_outcome (l : list A) :
  match Report.mygroup l attr with
  | Ret gs => forall x, x ∈ l -> exists k, key_of (attr x) = Ret k
  | Raise e => e = TypeError /\ exists x, x ∈ l /\ key_of (attr x) = Raise TypeError
  end.
Proof.
  destruct (Report.mygroup l attr) as [gs|e] eqn:H.
  - destruct (mygroup_as_filters l gs H) as (_ & _ & Hk & _).
    intros x Hx. destruct (Hk x Hx) as (k & ? & _). eauto.
  - unfold Report.mygroup in H.
    destruct (Report.group_loop attr l []) as [d|e'] eqn:Hd; [discriminate|].
    injection H as ->. by apply group_loop_Raise in Hd.
Qed.

End Mygroup.

(* ===================================================================== *)
(** ** The further properties on the sample data *)
(* ===================================================================== *)

Lemma list2dict_size_witness :
  (size ({[KInt 7 := Sample.ann; KInt 8 := Sample.bob]} : gmap pykey User.t) <= 2)%nat /\
  (size ({[KInt 7 := Sample.ann; KInt 8 := Sample.bob]} : gmap pykey User.t) = 2%nat
   <-> distinct_keys User.user_id [Sample.ann; Sample.bob]).
Proof.
  apply (list2dict_size User.user_id [Sample.ann; Sample.bob]
           {[KInt 7 := Sample.ann; KInt 8 := Sample.bob]}).
  vm_compute. reflexivity.
Defined.

Lemma bootstrap_last_wins_witness :
  let md := Sample.catalog in
  (forall k u, MinuteDock.users_by_id md !! k = Some u
               <-> last_with_key User.user_id (MinuteDock.users md) k u) /\
  (forall k u, MinuteDock.users_by_login md !! k = Some u
               <-> last_with_key (fun u => JStr (User.login u)) (MinuteDock.users md) k u) /\
  (forall k c, MinuteDock.contacts_by_id md !! k = Some c
               <-> last_with_key Contact.contact_id (MinuteDock.contacts md) k c) /\
  (forall k c, MinuteDock.contacts_by_code md !! k = Some c
               <-> last_with_key Contact.short_code (MinuteDock.contacts md) k c) /\
  (forall k p, MinuteDock.projects_by_id md !! k = Some p
               <-> last_with_key Project.project_id (MinuteDock.projects md) k p) /\
  (forall k p, MinuteDock.projects_by_code md !! k = Some p
               <-> last_with_key Project.short_code (MinuteDock.projects md) k p).
Proof.
  exact (bootstrap_last_wins Sample.scripted "KEY" (Sample.start Sample.account) _
           Sample.catalog bootstrap_account).
Defined.

Lemma bootstrap_catalog_is_fetched_witness :
  exists (vu vc vp : json) (w1 w2 : list json),
    Sample.scripted (catalog_request "KEY" "users.json") Sample.account = (Ret vu, w1) /\
    Sample.scripted (catalog_request "KEY" "contacts.json") w1 = (Ret vc, w2) /\
    Sample.scripted (catalog_request "KEY" "projects.json") w2 = (Ret vp, []) /\
    py_iter vu = Ret (User.raw <$> MinuteDock.users Sample.catalog) /\
    py_iter vc = Ret (Contact.raw <$> MinuteDock.contacts Sample.catalog) /\
    py_iter vp = Ret (Project.raw <$> MinuteDock.projects Sample.catalog) /\
    MinuteDock.api_key Sample.catalog = "KEY".
Proof.
  exact (bootstrap_catalog_is_fetched Sample.scripted "KEY" (Sample.start Sample.account) _
           Sample.catalog bootstrap_account).
Defined.

Lemma user_login_is_local_part_witness :
  getitem (Sample.raw_user 7 "ann@example.org") "email" = Ret (JStr "ann@example.org") /\
  (forall i, String.get i "ann" <> Some "@"%char) /\
  ("ann@example.org" = "ann" \/ exists rest, "ann@example.org" = "ann" +:+ String "@" rest).
Proof.
  apply (user_login_is_local_part (Sample.raw_user 7 "ann@example.org") Sample.ann).
  vm_compute. reflexivity.
Defined.

Lemma entry_missing_key_witness :
  let m := delete "duration" (Sample.raw_entry 41 JNull) in
  exists k' before after,
    entry_keys = before ++ k' :: after /\
    Forall (fun j => is_Some (m !! j)) before /\ m !! k' = None /\
    Entry.init (JObj m) = Raise (KeyError (KStr k')).
Proof.
  apply (entry_missing_key (delete "duration" (Sample.raw_entry 41 JNull)) "duration").
  - unfold entry_keys. rewrite !elem_of_cons. tauto.
  - vm_compute. reflexivity.
Defined.

Lemma parse_logged_at_isoformat_witness :
  Entry.parse_logged_at (JStr "2012-07-01T10:00:00+12:00")
  = Ret (mk_datetime 2012 7 1 10 0 0 0 (Some 43200000000)).
Proof.
  exact (parse_logged_at_isoformat (mk_datetime 2012 7 1 10 0 0 0 (Some 43200000000))
           43200000000 eq_refl eq_refl eq_refl).
Defined.

Lemma parse_logged_at_rejects_strftime_witness :
  Entry.parse_logged_at (JStr "2012-07-01T10:00:00+1200") = Raise ValueError.
Proof.
  exact (parse_logged_at_rejects_strftime
           (mk_datetime 2012 7 1 10 0 0 0 (Some 43200000000)) 43200000000
           eq_refl eq_refl).
Defined.

Lemma search_dates_read_back_witness :
  exists sf st,
    qget "from" Sample.script_filters = Some sf /\
    qget "to" Sample.script_filters = Some st /\
    String.length sf = 10%nat /\ String.length st = 10%nat /\
    parse_mdY sf = Some (mk_date 2012 7 1) /\ parse_mdY st = Some (mk_date 2012 8 30).
Proof.
  apply (search_dates_read_back Sample.no_repr Sample.team (mk_date 2012 7 1)
           (mk_date 2012 8 30) (Some ["user1"; "user2"; "user3"]) (Some ["customer"])
           (Some [])).
  - vm_compute. reflexivity.
  - reflexivity.
  - reflexivity.
  - simpl. lia.
  - simpl. lia.
Defined.

Lemma change_project_then_update_witness :
  let e := Sample.entry 41 JNull in
  let body0 := <["logged_at" := JStr "2012-07-01T10:00:00+1200"]> (Sample.raw_entry 41 JNull) in
  exists e', Entry.change_project Sample.catalog "site" e = Ret e' /\
             transmits (Entry.update Sample.quiet Sample.no_repr Sample.catalog e')
               (Sample.start tt) (<["project_id" := JInt 9]> body0).
Proof.
  exact (change_project_then_update Sample.quiet Sample.no_repr Sample.catalog "site"
           (Sample.entry 41 JNull)
           (<["logged_at" := JStr "2012-07-01T10:00:00+1200"]> (Sample.raw_entry 41 JNull))
           (Sample.start tt) eq_refl).
Defined.

Lemma change_contact_then_update_witness :
  let e := Sample.entry 41 JNull in
  let body0 := <["logged_at" := JStr "2012-07-01T10:00:00+1200"]> (Sample.raw_entry 41 JNull) in
  exists e', Entry.change_contact Sample.two_contacts "globex" e = Ret e' /\
             transmits (Entry.update Sample.quiet Sample.no_repr Sample.two_contacts e')
               (Sample.start tt) (<["contact_id" := JInt 4]> body0).
Proof.
  exact (change_contact_then_update Sample.quiet Sample.no_repr Sample.two_contacts "globex"
           (Sample.entry 41 JNull)
           (<["logged_at" := JStr "2012-07-01T10:00:00+1200"]> (Sample.raw_entry 41 JNull))
           (Sample.start tt) eq_refl).
Defined.

Lemma update_request_witness :
  let e := Sample.entry 41 JNull in
  let n := Sample.start tt in
  let rq := mk_request "PUT" "https://minutedock.com/api/v1/entries/41.json?api_key=KEY"
              (Some "application/json")
              (Some (JObj {["entry" :=
                 JObj (<["logged_at" := JStr "2012-07-01T10:00:00+1200"]>
                         (Sample.raw_entry 41 JNull))]})) in
  log (Entry.update Sample.quiet Sample.no_repr Sample.catalog e n).2 = log n ++ [rq] /\
  world (Entry.update Sample.quiet Sample.no_repr Sample.catalog e n).2
    = (Sample.quiet rq (world n)).2 /\
  (Entry.update Sample.quiet Sample.no_repr Sample.catalog e n).1
    = match (Sample.quiet rq (world n)).1 with
      | Ret _ => Ret tt
      | Raise x => Raise x
      end.
Proof.
  exact (update_request Sample.quiet Sample.no_repr Sample.catalog (Sample.entry 41 JNull)
           41 (<["logged_at" := JStr "2012-07-01T10:00:00+1200"]> (Sample.raw_entry 41 JNull))
           (Sample.start tt) eq_refl eq_refl).
Defined.

Lemma search_propagates_failure_witness :
  Search.entries_search Sample.flaky Sample.no_repr 2 Sample.catalog None None None None
    (Sample.start [Ret (JArr [JObj (Sample.raw_entry 41 JNull)]);
                   Raise (OtherError "HTTP 500")])
  = Some (Raise (OtherError "HTTP 500"),
          mk_net [] (search_request "KEY" Sample.no_filters <$> [0; 1])).
Proof.
  apply (search_propagates_failure Sample.flaky Sample.no_repr 2 Sample.catalog
           None None None None Sample.no_filters [[JObj (Sample.raw_entry 41 JNull)]]
           (OtherError "HTTP 500")).
  - vm_compute. reflexivity.
  - simpl. split; [discriminate|]. eexists. split; reflexivity.
  - simpl. lia.
Defined.

Lemma search_rejects_unsized_page_witness :
  Search.entries_search Sample.scripted Sample.no_repr 2 Sample.catalog None None None None
    (Sample.start [JArr [JObj (Sample.raw_entry 41 JNull)]; JNull])
  = Some (Raise TypeError, mk_net [] (search_request "KEY" Sample.no_filters <$> [0; 1])).
Proof.
  apply (search_rejects_unsized_page Sample.scripted Sample.no_repr 2 Sample.catalog
           None None None None Sample.no_filters [[JObj (Sample.raw_entry 41 JNull)]] JNull).
  - vm_compute. reflexivity.
  - by left.
  - simpl. split; [discriminate|]. eexists. split; reflexivity.
  - simpl. lia.
Defined.

Lemma search_empty_projects_exact_witness :
  let sd := [("users", "all"); ("contacts", "all"); ("projects", "")] in
  Search.entries_search Sample.scripted Sample.no_repr 3 Sample.catalog None None None
    (Some [])
    (Sample.start [JArr [JObj (Sample.raw_entry 41 JNull); JObj (Sample.raw_entry 42 (JInt 9))];
                   JArr [JObj (Sample.raw_entry 43 JNull)]])
  = Some (Ret (List.filter (fun e => Search.is_None (Entry.project_id e))
                 [Sample.entry 41 JNull; Sample.entry 42 (JInt 9); Sample.entry 43 JNull]),
          mk_net [] (search_request "KEY" sd <$> [0; 2; 3])).
Proof.
  apply (search_empty_projects_exact Sample.scripted Sample.no_repr 3 Sample.catalog
           None None None [("users", "all"); ("contacts", "all"); ("projects", "")]
           [[JObj (Sample.raw_entry 41 JNull); JObj (Sample.raw_entry 42 (JInt 9))];
            [JObj (Sample.raw_entry 43 JNull)]]).
  - vm_compute. reflexivity.
  - simpl. split; [discriminate|]. eexists. split; [reflexivity|].
    split; [discriminate|]. eexists. split; reflexivity.
  - simpl. lia.
  - vm_compute. reflexivity.
Defined.

Lemma search_bad_record_witness :
  Search.entries_search Sample.scripted Sample.no_repr 3 Sample.catalog None None None None
    (Sample.start [JArr [JObj (Sample.raw_entry 41 JNull)];
                   JArr [JObj (delete "duration" (Sample.raw_entry 42 JNull));
                         JObj (Sample.raw_entry 43 JNull)]])
  = Some (Raise (KeyError (KStr "duration")),
          mk_net [] (search_request "KEY" Sample.no_filters <$> [0; 1; 3])).
Proof.
  apply (search_bad_record Sample.scripted Sample.no_repr 3 Sample.catalog
           None None None None Sample.no_filters
           [[JObj (Sample.raw_entry 41 JNull)];
            [JObj (delete "duration" (Sample.raw_entry 42 JNull));
             JObj (Sample.raw_entry 43 JNull)]]
           [JObj (Sample.raw_entry 41 JNull)]
           (JObj (delete "duration" (Sample.raw_entry 42 JNull)))
           [JObj (Sample.raw_entry 43 JNull)]
           [Sample.entry 41 JNull]).
  - vm_compute. reflexivity.
  - simpl. split; [discriminate|]. eexists. split; [reflexivity|].
    split; [discriminate|]. eexists. split; reflexivity.
  - simpl. lia.
  - reflexivity.
  - vm_compute. reflexivity.
  - vm_compute. reflexivity.
Defined.

Lemma search_url_witness :
  exists u c p,
    Search.encode_ids Sample.no_repr (MinuteDock.users_by_login Sample.catalog)
      User.user_id (Some ["bob"; "ann"]) = Ret u /\
    Search.encode_ids Sample.no_repr (MinuteDock.contacts_by_code Sample.catalog)
      Contact.contact_id None = Ret c /\
    Search.encode_ids Sample.no_repr (MinuteDock.projects_by_code Sample.catalog)
      Project.project_id (Some ["site"]) = Ret p /\
    forall key offset,
      url (search_request key
             [("users", "8,7"); ("contacts", "all"); ("projects", "9");
              ("from", "07/01/2012"); ("to", "07/31/2012")] offset)
      = "https://minutedock.com/api/v1/entries.json?"
        +:+ filters_text u c p (Some (mk_date 2012 7 1, mk_date 2012 7 31))
        +:+ "&offset=" +:+ Str.of_Z offset +:+ "&api_key=" +:+ key.
Proof.
  apply (search_url Sample.no_repr Sample.catalog
           (Some (mk_date 2012 7 1, mk_date 2012 7 31)) (Some ["bob"; "ann"]) None
           (Some ["site"])).
  vm_compute. reflexivity.
Defined.

Lemma search_is_read_only_witness :
  exists rqs,
    (fun u => mk_request "GET" u None None)
      <$> ["https://minutedock.com/api/v1/entries.json?users=8,7&contacts=all&projects=&from=07/01/2012&to=07/31/2012&offset=0&api_key=KEY";
           "https://minutedock.com/api/v1/entries.json?users=8,7&contacts=all&projects=&from=07/01/2012&to=07/31/2012&offset=2&api_key=KEY";
           "https://minutedock.com/api/v1/entries.json?users=8,7&contacts=all&projects=&from=07/01/2012&to=07/31/2012&offset=3&api_key=KEY"]
    = [] ++ rqs /\
    Forall (fun rq => meth rq = "GET" /\ data rq = None) rqs.
Proof.
  exact (search_is_read_only Sample.scripted Sample.no_repr _ _ _ _ _ _ _ _ _
           search_two_pages).
Defined.

Lemma script_reassigns_each_entry_witness :
  let es := [Sample.entry 41 JNull; Sample.entry 43 JNull] in
  Forall (fun e => Entry.project_id e = JNull) es /\
  exists w',
    UpdateScript.update Sample.scripted Sample.no_repr 5 Sample.team
      (Sample.start Sample.two_pages)
    = Some (Ret tt,
            mk_net w' ((search_request "KEY" Sample.script_filters <$> [0; 2; 3])
                       ++ (reassign_request Sample.no_repr "KEY" (JInt 12) <$> es))).
Proof.
  assert (Hp : MinuteDock.projects_by_code Sample.team !! KStr "new_project"
               = Some Sample.new_project) by (vm_compute; reflexivity).
  assert (Hput : forall rq w, meth rq = "PUT" ->
                   exists v w', Sample.scripted rq w = (Ret v, w'))
    by (intros rq [|r w] _; simpl; eauto).
  assert (Hs : Search.entries_search Sample.scripted Sample.no_repr 5 Sample.team
                 (Some (mk_date 2012 7 1, mk_date 2012 8 30))
                 (Some ["user1"; "user2"; "user3"]) (Some ["customer"]) (Some [])
                 (Sample.start Sample.two_pages)
               = Some (Ret [Sample.entry 41 JNull; Sample.entry 43 JNull],
                       mk_net [] (search_request "KEY" Sample.script_filters <$> [0; 2; 3])))
    by (vm_compute; reflexivity).
  exact (script_reassigns_each_entry Sample.scripted Sample.no_repr 5 Sample.team
           Sample.new_project _ _ _ Hp Hput Hs).
Defined.

Lemma script_unknown_project_witness :
  UpdateScript.update Sample.scripted Sample.no_repr 5 Sample.team_before
    (Sample.start Sample.two_pages)
  = Some (Raise (KeyError (KStr "new_project")),
          mk_net [] (search_request "KEY" Sample.script_filters <$> [0; 2; 3])).
Proof.
  assert (Hp : MinuteDock.projects_by_code Sample.team_before !! KStr "new_project" = None)
    by (vm_compute; reflexivity).
  assert (Hs : Search.entries_search Sample.scripted Sample.no_repr 5 Sample.team_before
                 (Some (mk_date 2012 7 1, mk_date 2012 8 30))
                 (Some ["user1"; "user2"; "user3"]) (Some ["customer"]) (Some [])
                 (Sample.start Sample.two_pages)
               = Some (Ret [Sample.entry 41 JNull; Sample.entry 43 JNull],
                       mk_net [] (search_request "KEY" Sample.script_filters <$> [0; 2; 3])))
    by (vm_compute; reflexivity).
  exact (script_unknown_project Sample.scripted Sample.no_repr 5 Sample.team_before
           _ _ _ Hp Hs).
Defined.

Lemma mygroup_groups_witness :
  let l := [Sample.by_contact 1 5; Sample.by_contact 2 3; Sample.by_contact 3 5] in
  let gs := [[Sample.by_contact 1 5; Sample.by_contact 3 5]; [Sample.by_contact 2 3]] in
  gs = (fun k => List.filter (has_key Entry.contact_id k) l)
         <$> first_keys Entry.contact_id l /\
  NoDup (first_keys Entry.contact_id l) /\
  (forall x, x ∈ l -> exists k, key_of (Entry.contact_id x) = Ret k /\
                                k ∈ first_keys Entry.contact_id l) /\
  Forall (fun g => g ≠ []) gs.
Proof.
  apply (mygroup_groups Entry.contact_id [Sample.by_contact 1 5; Sample.by_contact 2 3; Sample.by_contact 3 5]).
  vm_compute. reflexivity.
Defined.

Lemma mygroup_partition_witness :
  let l := [Sample.by_contact 1 5; Sample.by_contact 2 3; Sample.by_contact 3 5] in
  let gs := [[Sample.by_contact 1 5; Sample.by_contact 3 5]; [Sample.by_contact 2 3]] in
  concat gs ≡ₚ l /\
  Forall (fun g => exists k, Forall (fun x => key_of (Entry.contact_id x) = Ret k) g) gs.
Proof.
  apply (mygroup_partition Entry.contact_id [Sample.by_contact 1 5; Sample.by_contact 2 3; Sample.by_contact 3 5]).
  vm_compute. reflexivity.
Defined.
